(** * The backtest simulation engine of quant-platform, embedded in Rocq

    Source files embedded here:
    - [src/model_testing/backtesting/engine.py]  (Portfolio, ExecutionHandler,
      BacktestEngine)
    - [src/model_testing/backtesting/metrics.py] (PerformanceMetrics)
    - [src/infrastructure/utils/config.py]       (BacktestConfig, RiskConfig,
      Config.validate)
    - [src/models/strategies/base/base_strategy.py] (Signal, Position,
      BaseStrategy)
    - [src/models/strategies/momentum/enhanced_momentum.py]
      (EnhancedMomentumStrategy)

    Python floats are IEEE-754 binary64 numbers; they are embedded as Rocq's
    primitive floats, which are the same numbers with the same rounding, so
    every arithmetic expression of the source is kept as it is written.
    Python dicts keep insertion order; they are embedded as association
    lists with unique keys. A call that may raise returns an [Outcome]; the
    engine is given twice, for a strategy whose methods return and, in
    [Raising], for one whose methods may raise. *)

From Stdlib Require Import List String ZArith Bool Lia Sorted.
From Stdlib Require Import Floats.
Import ListNotations.

Set Warnings "-inexact-float".

Local Open Scope string_scope.
Local Open Scope list_scope.

(** ** Python values *)

Module Py.

(** A Python [dict] keyed by strings: insertion ordered, keys unique. *)
Definition dict (V : Type) : Type := list (string * V).

Definition empty {V} : dict V := [].

(** [d.get(k)] *)
Fixpoint get {V} (k : string) (d : dict V) : option V :=
  match d with
  | [] => None
  | (k', v) :: d' => if String.eqb k k' then Some v else get k d'
  end.

(** [k in d] *)
Definition contains {V} (k : string) (d : dict V) : bool :=
  match get k d with Some _ => true | None => false end.

(** [d[k] = v]: an existing key keeps its place, a new key goes last. *)
Fixpoint set {V} (k : string) (v : V) (d : dict V) : dict V :=
  match d with
  | [] => [(k, v)]
  | (k', v') :: d' =>
      if String.eqb k k' then (k', v) :: d' else (k', v') :: set k v d'
  end.

(** [del d[k]] for a key that may be absent (the callers test [k in d]). *)
Fixpoint remove {V} (k : string) (d : dict V) : dict V :=
  match d with
  | [] => []
  | (k', v') :: d' =>
      if String.eqb k k' then d' else (k', v') :: remove k d'
  end.

(** [list(d.keys())] *)
Definition keys {V} (d : dict V) : list string := map fst d.

(** [d[k]] on a [collections.defaultdict(float)]: a missing key is
    inserted with the value [0.0] before it is returned. *)
Definition defaultdict_getitem (k : string) (d : dict float) : float * dict float :=
  match get k d with
  | Some v => (v, d)
  | None => (0%float, set k 0%float d)
  end.

(** The built-in [max(a, b)]: the first argument unless the second is
    strictly greater. *)
Definition max (a b : float) : float := if (a <? b)%float then b else a.

(** [x != y] on floats. *)
Definition neb (x y : float) : bool := negb (x =? y)%float.

(** [x >= y] and [x > y] on floats. *)
Definition geb (x y : float) : bool := (y <=? x)%float.
Definition gtb (x y : float) : bool := (y <? x)%float.

(** Truth value of an [Optional[float]] in [x or default]: [None], [0.0]
    and [-0.0] are falsy. *)
Definition or_default (x : option float) (default : float) : float :=
  match x with
  | None => default
  | Some p => if (p =? 0)%float then default else p
  end.

End Py.

(** ** Events

    [events.py] is imported by the engine but is not part of the sources;
    the event types are taken from the data model of the specification and
    from the way the engine constructs and reads them. *)

(** Modelled from the spec: [events.py] is missing; [OrderDirection] has the
    two members the engine names, [BUY] and [SELL]. *)
Inductive OrderDirection : Type := BUY | SELL.

(** Modelled from the spec: [events.py] is missing; the engine only ever
    builds [OrderType.MARKET] orders. *)
Inductive OrderType : Type := MARKET.

(** One entry of [MarketEvent.data]: the dict the engine builds per row in
    [BacktestEngine.run]. *)
Record BarData : Type := mkBarData {
  bar_open : float;
  bar_high : float;
  bar_low : float;
  bar_close : float;
  bar_volume : float
}.

(** Modelled from the spec: [events.py] is missing;
    [MarketEvent{timestamp, bars: map(symbol -> Bar)}]. Timestamps are day
    numbers. *)
Record MarketEvent : Type := mkMarketEvent {
  me_timestamp : Z;
  me_data : Py.dict BarData
}.

(** Modelled from the spec: [events.py] is missing; [get_price(symbol,
    "close")] is the close of the symbol's bar, [None] when the event has no
    bar for the symbol. *)
Definition get_price (m : MarketEvent) (symbol : string) : option float :=
  match Py.get symbol (me_data m) with
  | Some b => Some (bar_close b)
  | None => None
  end.

(** Modelled from the spec: [events.py] is missing; [get_symbols()] lists
    the symbols that have a bar in the event. *)
Definition get_symbols (m : MarketEvent) : list string := Py.keys (me_data m).

(** Modelled from the spec: [events.py] is missing; the fields are those
    the engine passes to the constructor. [signal_type] is
    [SignalType.value]: [1], [-1] or [0]. *)
Record SignalEvent : Type := mkSignalEvent {
  se_timestamp : Z;
  se_symbol : string;
  se_signal_type : Z;
  se_strength : float;
  se_price : option float;
  se_metadata : option (Py.dict string)
}.

Record OrderEvent : Type := mkOrderEvent {
  oe_timestamp : Z;
  oe_symbol : string;
  oe_order_type : OrderType;
  oe_quantity : float;
  oe_direction : OrderDirection
}.

Record FillEvent : Type := mkFillEvent {
  fe_timestamp : Z;
  fe_symbol : string;
  fe_quantity : float;
  fe_direction : OrderDirection;
  fe_fill_price : float;
  fe_commission : float;
  fe_slippage : float
}.

(** The tagged union the queue holds; [event.type] is the constructor. *)
Inductive Event : Type :=
| EvMarket (m : MarketEvent)
| EvSignal (s : SignalEvent)
| EvOrder (o : OrderEvent)
| EvFill (f : FillEvent).

(** ** Portfolio ([engine.py], class [Portfolio]) *)

(** One entry of [Portfolio.history]. *)
Record Snapshot : Type := mkSnapshot {
  snap_timestamp : Z;
  snap_cash : float;
  snap_position_value : float;
  snap_total_value : float;
  snap_positions : Py.dict float
}.

Record Portfolio : Type := mkPortfolio {
  initial_capital : float;
  commission : float;
  cash : float;
  positions : Py.dict float;
  portfolio_value : float;
  history : list Snapshot
}.

(** [Portfolio.__init__] *)
Definition Portfolio_init (initial_capital commission : float) : Portfolio :=
  {| initial_capital := initial_capital;
     commission := commission;
     cash := initial_capital;
     positions := Py.empty;
     portfolio_value := initial_capital;
     history := [] |}.

(** The loop of [update_market_value]: one step per ledger entry, in the
    ledger's order. *)
Definition add_position_value (current_prices : Py.dict float)
    (position_value : float) (entry : string * float) : float :=
  let '(symbol, quantity) := entry in
  match Py.get symbol current_prices with
  | Some price =>
      if Py.neb quantity 0 then (position_value + quantity * price)%float
      else position_value
  | None => position_value
  end.

Definition update_market_value (p : Portfolio) (current_prices : Py.dict float)
    (timestamp : Z) : Portfolio :=
  let position_value :=
    fold_left (add_position_value current_prices) (positions p) 0%float in
  let total := (cash p + position_value)%float in
  {| initial_capital := initial_capital p;
     commission := commission p;
     cash := cash p;
     positions := positions p;
     portfolio_value := total;
     history := history p ++
       [ {| snap_timestamp := timestamp;
            snap_cash := cash p;
            snap_position_value := position_value;
            snap_total_value := total;
            snap_positions := positions p |} ] |}.

Definition with_cash_positions (p : Portfolio) (c : float) (ps : Py.dict float)
    : Portfolio :=
  {| initial_capital := initial_capital p;
     commission := commission p;
     cash := c;
     positions := ps;
     portfolio_value := portfolio_value p;
     history := history p |}.

Definition execute_fill (p : Portfolio) (fill : FillEvent) : Portfolio :=
  match fe_direction fill with
  | BUY =>
      let cost := (fe_quantity fill * fe_fill_price fill + fe_commission fill)%float in
      let cash' := (cash p - cost)%float in
      let '(old, ps) := Py.defaultdict_getitem (fe_symbol fill) (positions p) in
      with_cash_positions p cash'
        (Py.set (fe_symbol fill) (old + fe_quantity fill)%float ps)
  | SELL =>
      let proceeds := (fe_quantity fill * fe_fill_price fill - fe_commission fill)%float in
      let cash' := (cash p + proceeds)%float in
      let '(old, ps) := Py.defaultdict_getitem (fe_symbol fill) (positions p) in
      with_cash_positions p cash'
        (Py.set (fe_symbol fill) (old - fe_quantity fill)%float ps)
  end.

(** [can_afford] returns its answer together with the portfolio as the call
    leaves it: reading [self.positions[order.symbol]] goes through the
    [defaultdict]. *)
Definition can_afford (p : Portfolio) (order : OrderEvent) (current_price : float)
    : bool * Portfolio :=
  match oe_direction order with
  | BUY =>
      let cost := (oe_quantity order * current_price * (1 + commission p))%float in
      (Py.geb (cash p) cost, p)
  | SELL =>
      let '(held, ps) := Py.defaultdict_getitem (oe_symbol order) (positions p) in
      (Py.geb held (oe_quantity order), with_cash_positions p (cash p) ps)
  end.

Definition get_position (p : Portfolio) (symbol : string) : float :=
  match Py.get symbol (positions p) with
  | Some q => q
  | None => 0%float
  end.

(** ** ExecutionHandler ([engine.py]) *)

Record ExecutionHandler : Type := mkExecutionHandler {
  eh_commission : float;
  eh_slippage : float
}.

Definition execute_order (h : ExecutionHandler) (order : OrderEvent)
    (market_data : MarketEvent) : option FillEvent :=
  match get_price market_data (oe_symbol order) with
  | None => None
  | Some current_price =>
      let fill_price :=
        match oe_direction order with
        | BUY => (current_price * (1 + eh_slippage h))%float
        | SELL => (current_price * (1 - eh_slippage h))%float
        end in
      let commission :=
        Py.max (abs (oe_quantity order * fill_price) * eh_commission h)%float
               1.0%float in
      Some {| fe_timestamp := me_timestamp market_data;
              fe_symbol := oe_symbol order;
              fe_quantity := oe_quantity order;
              fe_direction := oe_direction order;
              fe_fill_price := fill_price;
              fe_commission := commission;
              fe_slippage := eh_slippage h |}
  end.

(** ** Configuration ([config.py]) *)

Record BacktestConfig : Type := mkBacktestConfig {
  bc_initial_capital : float;
  bc_commission : float;
  bc_slippage : float;
  bc_min_commission : float
}.

Record RiskConfig : Type := mkRiskConfig {
  rc_max_position_size : float;
  rc_stop_loss_pct : float;
  rc_max_drawdown : float;
  rc_max_leverage : float;
  rc_position_sizing_method : string
}.

(** [Config]: the two sections the engine and [validate] read. *)
Record Config : Type := mkConfig {
  backtest : BacktestConfig;
  risk : RiskConfig
}.

(** The dataclass defaults. *)
Definition default_config : Config :=
  {| backtest := mkBacktestConfig 100000.0 0.001 0.0005 1.0;
     risk := mkRiskConfig 0.1 0.02 0.15 1.0 "fixed_fractional" |}.

(** The [errors] list [Config.validate] collects. *)
Definition validation_errors (c : Config) : list string :=
  (if (bc_initial_capital (backtest c) <=? 0)%float
   then ["Initial capital must be positive"] else []) ++
  (if (bc_commission (backtest c) <? 0)%float
   then ["Commission cannot be negative"] else []) ++
  (if (bc_slippage (backtest c) <? 0)%float
   then ["Slippage cannot be negative"] else []) ++
  (if negb ((0 <? rc_max_position_size (risk c))%float
            && (rc_max_position_size (risk c) <=? 1)%float)
   then ["Max position size must be between 0 and 1"] else []) ++
  (if (rc_stop_loss_pct (risk c) <? 0)%float
   then ["Stop loss percentage cannot be negative"] else []) ++
  (if negb ((0 <? rc_max_drawdown (risk c))%float
            && (rc_max_drawdown (risk c) <=? 1)%float)
   then ["Max drawdown must be between 0 and 1"] else []).

(** [Config.validate]: logs every error and returns [False] when there is
    one, [True] otherwise. It never raises. *)
Definition validate (c : Config) : bool :=
  match validation_errors c with
  | [] => true
  | _ :: _ => false
  end.

(** ** Strategy interface ([base_strategy.py]) *)

Inductive SignalType : Type := SIG_BUY | SIG_SELL | SIG_HOLD.

(** [SignalType.value] *)
Definition SignalType_value (t : SignalType) : Z :=
  match t with
  | SIG_BUY => 1
  | SIG_SELL => -1
  | SIG_HOLD => 0
  end.

Record Signal : Type := mkSignal {
  sig_timestamp : Z;
  sig_symbol : string;
  sig_signal_type : SignalType;
  sig_strength : float;
  sig_price : option float;
  sig_metadata : option (Py.dict string)
}.

Record Position : Type := mkPosition {
  pos_symbol : string;
  pos_quantity : float;
  pos_entry_price : float;
  pos_entry_time : Z;
  pos_current_price : float;
  pos_unrealized_pnl : float;
  pos_metadata : option (Py.dict string)
}.

(** One row of the loaded market data frame. *)
Record Row : Type := mkRow {
  row_date : Z;
  row_ticker : string;
  open_price : float;
  high_price : float;
  low_price : float;
  close_price : float;
  volume : float
}.

(** The dict [run] builds from one row: [{'open': row['open_price'], ...}]. *)
Definition bar_of_row (row : Row) : BarData :=
  {| bar_open := open_price row;
     bar_high := high_price row;
     bar_low := low_price row;
     bar_close := close_price row;
     bar_volume := volume row |}.

(** The state every strategy object carries ([BaseStrategy.__init__]),
    with the subclass's own state in [strat_user]. *)
Record BaseStrategy (U : Type) : Type := mkBaseStrategy {
  strat_name : string;
  strat_positions : Py.dict Position;
  strat_signals : list Signal;
  strat_data : option (list Row);
  strat_initialized : bool;
  strat_user : U
}.

Arguments mkBaseStrategy {U}.
Arguments strat_name {U}.
Arguments strat_positions {U}.
Arguments strat_signals {U}.
Arguments strat_data {U}.
Arguments strat_initialized {U}.
Arguments strat_user {U}.

(** The methods of a strategy class the engine calls, for a class whose
    methods return: the two abstract methods a concrete strategy must
    supply, and the two position hooks, which it inherits from
    [BaseStrategy] or overrides. The [current_data] argument of
    [generate_signals] is the [pd.Series] the engine builds from one bar,
    named after its symbol. A class whose methods may raise is a
    [Raising.Strategy], further down, with the engine that drives it. *)
Class StrategyImpl (U : Type) : Type := {
  initialize : BaseStrategy U -> BaseStrategy U;
  generate_signals :
    BaseStrategy U -> Z -> string * BarData -> BaseStrategy U * list Signal;
  on_position_opened : BaseStrategy U -> Position -> BaseStrategy U;
  on_position_closed : BaseStrategy U -> Position -> float -> BaseStrategy U
}.

Section BaseStrategyMethods.
Context {U : Type}.

Definition with_positions (s : BaseStrategy U) (ps : Py.dict Position)
    : BaseStrategy U :=
  mkBaseStrategy (strat_name s) ps (strat_signals s) (strat_data s)
                 (strat_initialized s) (strat_user s).

Definition set_data (s : BaseStrategy U) (data : list Row) : BaseStrategy U :=
  mkBaseStrategy (strat_name s) (strat_positions s) (strat_signals s)
                 (Some data) (strat_initialized s) (strat_user s).

Definition on_signal (s : BaseStrategy U) (signal : Signal) : BaseStrategy U :=
  mkBaseStrategy (strat_name s) (strat_positions s)
                 (strat_signals s ++ [signal]) (strat_data s)
                 (strat_initialized s) (strat_user s).

(** [BaseStrategy.on_position_opened] *)
Definition base_on_position_opened (s : BaseStrategy U) (position : Position)
    : BaseStrategy U :=
  with_positions s (Py.set (pos_symbol position) position (strat_positions s)).

(** [BaseStrategy.on_position_closed] *)
Definition base_on_position_closed (s : BaseStrategy U) (position : Position)
    (realized_pnl : float) : BaseStrategy U :=
  if Py.contains (pos_symbol position) (strat_positions s)
  then with_positions s (Py.remove (pos_symbol position) (strat_positions s))
  else s.

End BaseStrategyMethods.

(** ** BacktestEngine ([engine.py]) *)

(** What the engine does that is visible from outside its state: every
    market event put on the queue (with the number of events pending in the
    queue at that moment) and every strategy method it invokes. *)
Inductive Observation : Type :=
| ObsPutMarket (date : Z) (pending : nat)
| ObsSetData (data : list Row)
| ObsInitialize
| ObsGenerateSignals (timestamp : Z) (symbol : string) (bar : BarData)
| ObsPositionOpened (position : Position)
| ObsPositionClosed (position : Position) (realized_pnl : float).

(** The warnings the handlers log. *)
Inductive LogRecord : Type :=
| WarnNoMarketData
| WarnCannotAfford (symbol : string) (direction : OrderDirection).

(** The engine object together with the strategy object it drives. *)
Record World (U : Type) : Type := mkWorld {
  config : Config;
  portfolio : Portfolio;
  execution_handler : ExecutionHandler;
  events : list Event;
  current_time : option Z;
  strategy : BaseStrategy U;
  trace : list Observation;
  log : list LogRecord
}.

Arguments mkWorld {U}.
Arguments config {U}.
Arguments portfolio {U}.
Arguments execution_handler {U}.
Arguments events {U}.
Arguments current_time {U}.
Arguments strategy {U}.
Arguments trace {U}.
Arguments log {U}.

(** The pure core of [_handle_signal_event]: the order a signal is
    converted to, if any. *)
Definition signal_to_order (c : Config) (p : Portfolio) (event : SignalEvent)
    : option OrderEvent :=
  let position_size := rc_max_position_size (risk c) in
  let target_value := (portfolio_value p * position_size)%float in
  let current_price := Py.or_default (se_price event) 100.0%float in
  let target_quantity := (target_value / current_price)%float in
  let current_position := get_position p (se_symbol event) in
  let order quantity direction :=
    Some {| oe_timestamp := se_timestamp event;
            oe_symbol := se_symbol event;
            oe_order_type := MARKET;
            oe_quantity := quantity;
            oe_direction := direction |} in
  if (se_signal_type event =? 1)%Z then
    if (current_position <=? 0)%float then order target_quantity BUY
    else None
  else if (se_signal_type event =? -1)%Z then
    if Py.geb current_position 0 then
      order (if (current_position =? 0)%float then target_quantity
             else current_position) SELL
    else None
  else None.

(** The scan of [_handle_order_event]: events are taken from the head of the
    queue into [temp_events] until a market event has been taken. *)
Fixpoint scan_for_market (queue : list Event)
    : option MarketEvent * list Event * list Event :=
  match queue with
  | [] => (None, [], [])
  | EvMarket m :: rest => (Some m, [EvMarket m], rest)
  | e :: rest =>
      let '(found, temp_events, rest') := scan_for_market rest in
      (found, e :: temp_events, rest')
  end.

Section Engine.
Context {U : Type} {impl : StrategyImpl U}.

Definition set_events (w : World U) (q : list Event) : World U :=
  mkWorld (config w) (portfolio w) (execution_handler w) q
          (current_time w) (strategy w) (trace w) (log w).

Definition set_portfolio (w : World U) (p : Portfolio) : World U :=
  mkWorld (config w) p (execution_handler w) (events w)
          (current_time w) (strategy w) (trace w) (log w).

Definition set_strategy (w : World U) (s : BaseStrategy U) : World U :=
  mkWorld (config w) (portfolio w) (execution_handler w) (events w)
          (current_time w) s (trace w) (log w).

Definition set_current_time (w : World U) (t : Z) : World U :=
  mkWorld (config w) (portfolio w) (execution_handler w) (events w)
          (Some t) (strategy w) (trace w) (log w).

Definition observe (w : World U) (o : Observation) : World U :=
  mkWorld (config w) (portfolio w) (execution_handler w) (events w)
          (current_time w) (strategy w) (trace w ++ [o]) (log w).

Definition warn (w : World U) (r : LogRecord) : World U :=
  mkWorld (config w) (portfolio w) (execution_handler w) (events w)
          (current_time w) (strategy w) (trace w) (log w ++ [r]).

(** [self.events.put(e)]; a market event put on the queue is observed. *)
Definition put (w : World U) (e : Event) : World U :=
  let w :=
    match e with
    | EvMarket m =>
        observe w (ObsPutMarket (me_timestamp m) (List.length (events w)))
    | _ => w
    end in
  set_events w (events w ++ [e]).

(** [BacktestEngine.__init__] for a given configuration, with the strategy
    object the run will be given. *)
Definition BacktestEngine_init (c : Config) (s : BaseStrategy U) : World U :=
  {| config := c;
     portfolio := Portfolio_init (bc_initial_capital (backtest c))
                                 (bc_commission (backtest c));
     execution_handler := mkExecutionHandler (bc_commission (backtest c))
                                             (bc_slippage (backtest c));
     events := [];
     current_time := None;
     strategy := s;
     trace := [];
     log := [] |}.

Definition signal_event_of (timestamp : Z) (signal : Signal) : SignalEvent :=
  {| se_timestamp := timestamp;
     se_symbol := sig_symbol signal;
     se_signal_type := SignalType_value (sig_signal_type signal);
     se_strength := sig_strength signal;
     se_price := sig_price signal;
     se_metadata := sig_metadata signal |}.

(** The body of the [for symbol in event.get_symbols()] loop;
    [event.data[symbol]] is read for a key of that dict. *)
Definition handle_market_symbol (event : MarketEvent) (w : World U)
    (symbol : string) : World U :=
  match Py.get symbol (me_data event) with
  | None => w
  | Some bar =>
      let '(s', signals) :=
        generate_signals (strategy w) (me_timestamp event) (symbol, bar) in
      let w1 := observe (set_strategy w s')
                  (ObsGenerateSignals (me_timestamp event) symbol bar) in
      fold_left (fun w' signal =>
                   put w' (EvSignal (signal_event_of (me_timestamp event) signal)))
                signals w1
  end.

Definition handle_market_event (event : MarketEvent) (w : World U) : World U :=
  fold_left (handle_market_symbol event) (get_symbols event) w.

Definition handle_signal_event (event : SignalEvent) (w : World U) : World U :=
  match signal_to_order (config w) (portfolio w) event with
  | Some order => put w (EvOrder order)
  | None => w
  end.

Definition handle_order_event (event : OrderEvent) (w : World U) : World U :=
  let '(market_event, temp_events, rest) := scan_for_market (events w) in
  let w := fold_left put temp_events (set_events w rest) in
  match market_event with
  | None => warn w WarnNoMarketData
  | Some market_event =>
      match get_price market_event (oe_symbol event) with
      | None => warn w (WarnCannotAfford (oe_symbol event) (oe_direction event))
      | Some current_price =>
          let '(ok, p) := can_afford (portfolio w) event current_price in
          let w := set_portfolio w p in
          if ok then
            match execute_order (execution_handler w) event market_event with
            | Some fill => put w (EvFill fill)
            | None => w
            end
          else warn w (WarnCannotAfford (oe_symbol event) (oe_direction event))
      end
  end.

Definition handle_fill_event (event : FillEvent) (w : World U) : World U :=
  let w := set_portfolio w (execute_fill (portfolio w) event) in
  match fe_direction event with
  | BUY =>
      let position :=
        {| pos_symbol := fe_symbol event;
           pos_quantity := fe_quantity event;
           pos_entry_price := fe_fill_price event;
           pos_entry_time := fe_timestamp event;
           pos_current_price := fe_fill_price event;
           pos_unrealized_pnl := 0.0;
           pos_metadata := None |} in
      observe (set_strategy w (on_position_opened (strategy w) position))
              (ObsPositionOpened position)
  | SELL => w
  end.

(** The dispatch in the body of the [while] loop of [_process_events]. *)
Definition handle_event (e : Event) (w : World U) : World U :=
  match e with
  | EvMarket m => handle_market_event m w
  | EvSignal s => handle_signal_event s w
  | EvOrder o => handle_order_event o w
  | EvFill f => handle_fill_event f w
  end.

(** [_process_events]: the [while not self.events.empty()] loop, with the
    number of iterations bounded by [fuel]; [None] when the bound is hit
    before the queue is empty. *)
Fixpoint process_events (fuel : nat) (w : World U) : option (World U) :=
  match events w with
  | [] => Some w
  | e :: rest =>
      match fuel with
      | O => None
      | S fuel' => process_events fuel' (handle_event e (set_events w rest))
      end
  end.

(** [market_data[symbol] = {...}] for every row of the day. *)
Definition day_market_data (day_data : list Row) : Py.dict BarData :=
  fold_left (fun market_data row =>
               Py.set (row_ticker row) (bar_of_row row) market_data)
            day_data Py.empty.

(** [{symbol: data['close'] for symbol, data in market_data.items()}] *)
Definition close_prices (market_data : Py.dict BarData) : Py.dict float :=
  map (fun '(symbol, data) => (symbol, bar_close data)) market_data.

(** One iteration of the main loop of [run]. *)
Definition run_day (fuel : nat) (w : World U) (group : Z * list Row)
    : option (World U) :=
  let '(date, day_data) := group in
  let w := set_current_time w date in
  let market_data := day_market_data day_data in
  let market_event := {| me_timestamp := date; me_data := market_data |} in
  let w := put w (EvMarket market_event) in
  match process_events fuel w with
  | None => None
  | Some w =>
      Some (set_portfolio w
              (update_market_value (portfolio w) (close_prices market_data) date))
  end.

Fixpoint run_days (fuel : nat) (w : World U) (groups : list (Z * list Row))
    : option (World U) :=
  match groups with
  | [] => Some w
  | g :: groups' =>
      match run_day fuel w g with
      | None => None
      | Some w' => run_days fuel w' groups'
      end
  end.

End Engine.

(** [DataFrame.groupby('date')]: one group per date, dates ascending, the
    rows of a group in the order of the frame. *)
Fixpoint insert_row (r : Row) (groups : list (Z * list Row))
    : list (Z * list Row) :=
  match groups with
  | [] => [(row_date r, [r])]
  | (d, rs) :: groups' =>
      if (row_date r <? d)%Z then (row_date r, [r]) :: (d, rs) :: groups'
      else if (row_date r =? d)%Z then (d, rs ++ [r]) :: groups'
      else (d, rs) :: insert_row r groups'
  end.

Definition groupby_date (rows : list Row) : list (Z * list Row) :=
  fold_left (fun groups r => insert_row r groups) rows [].

(** How a call of [run] ends. *)
Inductive RunResult (A : Type) : Type :=
| Completed (a : A)
| Raised (error : string)
| OutOfFuel.

Arguments Completed {A}.
Arguments Raised {A}.
Arguments OutOfFuel {A}.

Section Run.
Context {U : Type} {impl : StrategyImpl U}.

(** [BacktestEngine.run], given the frame the data loader returns for the
    requested symbols and period. The result is the engine and strategy as
    the run leaves them; [_calculate_results] reads its dictionary off
    them. *)
Definition run (fuel : nat) (w : World U) (market_data : list Row)
    : RunResult (World U) :=
  match market_data with
  | [] => Raised "No market data loaded"
  | _ :: _ =>
      let w := observe (set_strategy w (set_data (strategy w) market_data))
                       (ObsSetData market_data) in
      let w := observe (set_strategy w (initialize (strategy w))) ObsInitialize in
      match run_days fuel w (groupby_date market_data) with
      | None => OutOfFuel
      | Some w' => Completed w'
      end
  end.

End Run.

(** ** PerformanceMetrics ([metrics.py]) *)

Module Metrics.

(** [float(n)] for the day counts the metrics work with. *)
Definition float_of_Z (z : Z) : float :=
  match z with
  | Z0 => 0%float
  | Zpos _ => of_uint63 (Uint63.of_Z z)
  | Zneg _ => (- of_uint63 (Uint63.of_Z (- z)))%float
  end.

Definition isnan (x : float) : bool := negb (x =? x)%float.

(** [Series.expanding().max()]: the running maximum of the values seen so
    far that are not NaN, NaN while there is none. *)
Fixpoint expanding_max_from (seen : option float) (values : list float)
    : list float :=
  match values with
  | [] => []
  | v :: values' =>
      let seen' :=
        if isnan v then seen
        else match seen with
             | None => Some v
             | Some m => Some (if (m <? v)%float then v else m)
             end in
      match seen' with Some m => m | None => nan end
        :: expanding_max_from seen' values'
  end.

Definition expanding_max (values : list float) : list float :=
  expanding_max_from None values.

(** [Series.min()]: the least value that is not NaN, NaN when there is
    none. *)
Definition series_min (values : list float) : float :=
  match
    fold_left (fun (least : option float) v =>
                 if isnan v then least
                 else match least with
                      | None => Some v
                      | Some m => Some (if (v <? m)%float then v else m)
                      end)
              values None
  with
  | Some m => m
  | None => nan
  end.

(** Python's [a / b] on two plain floats raises [ZeroDivisionError] when
    [b] is zero; [None] stands for the exception. *)
Definition truediv (a b : float) : option float :=
  if (b =? 0)%float then None else Some (a / b)%float.

(** [sort_values('timestamp')], as a stable insertion sort. The default
    quicksort of pandas fixes no order among rows of equal timestamp; the
    order here is that of the frame. *)
Fixpoint insert_by_timestamp (x : Z * float) (l : list (Z * float))
    : list (Z * float) :=
  match l with
  | [] => [x]
  | y :: l' =>
      if (fst x <? fst y)%Z then x :: y :: l'
      else y :: insert_by_timestamp x l'
  end.

Definition sort_by_timestamp (l : list (Z * float)) : list (Z * float) :=
  fold_left (fun sorted x => insert_by_timestamp x sorted) l [].

Section PerformanceMetrics.

(** The float power operator [x ** y] is not available on primitive
    floats; the metrics are stated for whichever function it is. *)
Variable pow : float -> float -> float.

(** The columns [timestamp] and [total_value] of the history frame. *)
Record PerformanceMetrics : Type := mkPerformanceMetrics {
  portfolio_history : list (Z * float);
  risk_free_rate : float
}.

(** [PerformanceMetrics.__init__] from the portfolio's history. The frame
    [get_portfolio_df] builds from the snapshots has the [timestamp] and
    [total_value] columns, so the [ValueError] of [_calculate_returns] for
    a frame without [total_value] is not on this path. *)
Definition PerformanceMetrics_init (history : list Snapshot)
    (risk_free_rate : float) : PerformanceMetrics :=
  {| portfolio_history :=
       sort_by_timestamp
         (map (fun s => (snap_timestamp s, snap_total_value s)) history);
     risk_free_rate := risk_free_rate |}.

Definition total_return (m : PerformanceMetrics) : float :=
  match portfolio_history m with
  | [] | [_] => 0.0%float
  | (_, initial_value) :: rest =>
      let final_value := snd (last rest (0%Z, initial_value)) in
      ((final_value - initial_value) / initial_value)%float
  end.

Definition annualized_return (m : PerformanceMetrics) : float :=
  match portfolio_history m with
  | [] | [_] => 0.0%float
  | (start_date, _) :: rest =>
      let total_ret := total_return m in
      let end_date := fst (last rest (start_date, 0%float)) in
      let years := (float_of_Z (end_date - start_date) / 365.25)%float in
      if (years <=? 0)%float then 0.0%float
      else (pow (1 + total_ret) (1 / years) - 1)%float
  end.

Definition max_drawdown (m : PerformanceMetrics) : float :=
  match portfolio_history m with
  | [] | [_] => 0.0%float
  | _ =>
      let portfolio_values := map snd (portfolio_history m) in
      let rolling_max := expanding_max portfolio_values in
      let drawdown :=
        map (fun '(v, mx) => ((v - mx) / mx)%float)
            (combine portfolio_values rolling_max) in
      abs (series_min drawdown)
  end.

(** [calmar_ratio]; [None] is an arithmetic exception escaping the
    method. *)
Definition calmar_ratio (m : PerformanceMetrics) : option float :=
  let annual_ret := annualized_return m in
  let max_dd := max_drawdown m in
  if (max_dd =? 0)%float then
    Some (if Py.gtb annual_ret 0 then infinity else 0.0%float)
  else truediv annual_ret max_dd.

End PerformanceMetrics.

End Metrics.

(** ** Example inputs *)

Module Demo.

(** A strategy that answers every bar with one Buy signal priced at the
    bar's close. *)
Definition buy_at_close : StrategyImpl unit :=
  {| initialize := fun s => s;
     generate_signals := fun s timestamp current_data =>
       (s, [ {| sig_timestamp := timestamp;
                sig_symbol := fst current_data;
                sig_signal_type := SIG_BUY;
                sig_strength := 1.0;
                sig_price := Some (bar_close (snd current_data));
                sig_metadata := None |} ]);
     on_position_opened := base_on_position_opened;
     on_position_closed := base_on_position_closed |}.

Definition fresh_strategy : BaseStrategy unit :=
  mkBaseStrategy "demo" Py.empty [] None false tt.

(** One trading day with one bar: AAPL closes at 100. *)
Definition one_day : list Row :=
  [ mkRow 1 "AAPL" 100 100 100 100 1000 ].

Definition aapl_event : MarketEvent :=
  {| me_timestamp := 1; me_data := day_market_data one_day |}.

End Demo.

(** ** Reference definitions for the equity invariant *)

(** The values the ledger entries contribute to a snapshot: one per entry
    whose symbol has a price in the map and whose quantity is not zero. *)
Definition held_values (current_prices : Py.dict float)
    (ledger : Py.dict float) : list float :=
  flat_map (fun '(symbol, quantity) =>
              match Py.get symbol current_prices with
              | Some price =>
                  if Py.neb quantity 0 then [(quantity * price)%float] else []
              | None => []
              end)
           ledger.

(** A float sum taken left to right from [0.0]. *)
Definition float_sum (xs : list float) : float :=
  fold_left PrimFloat.add xs 0%float.

(** Every ledger quantity compares equal to zero. *)
Definition all_flat (ledger : Py.dict float) : bool :=
  forallb (fun '(_, quantity) => (quantity =? 0)%float) ledger.

(** The most recent price of a symbol over the price maps of the days so
    far, oldest first. *)
Definition last_known_price (price_maps : list (Py.dict float))
    (symbol : string) : option float :=
  fold_left (fun known prices =>
               match Py.get symbol prices with
               | Some price => Some price
               | None => known
               end)
            price_maps None.

(** The total value a snapshot would have if every held symbol were valued
    at its last known price. *)
Definition total_at_last_known_price (p : Portfolio)
    (price_maps : list (Py.dict float)) : float :=
  (cash p +
   float_sum
     (flat_map (fun '(symbol, quantity) =>
                  match last_known_price price_maps symbol with
                  | Some price => [(quantity * price)%float]
                  | None => []
                  end)
               (positions p)))%float.

(** ** Reference definitions for the event loop *)

(** What one trading day adds to the trace when the queue is drained
    between days: the market event enqueued on an empty queue, then one
    [generate_signals] call per bar of the day, with the day's date. *)
Definition day_trace (group : Z * list Row) : list Observation :=
  let '(date, day_data) := group in
  ObsPutMarket date 0
    :: map (fun '(symbol, bar) => ObsGenerateSignals date symbol bar)
           (day_market_data day_data).

Definition is_signal_or_order (e : Event) : bool :=
  match e with
  | EvSignal _ | EvOrder _ => true
  | EvMarket _ | EvFill _ => false
  end.

(** Loop iterations an event can still cause once no market event is
    queued: a signal is handled and may leave an order, an order is handled
    and leaves nothing. *)
Definition event_weight (e : Event) : nat :=
  match e with
  | EvSignal _ => 2
  | EvOrder _ => 1
  | EvMarket _ | EvFill _ => 0
  end.

Definition queue_weight (queue : list Event) : nat :=
  list_sum (map event_weight queue).

(** Two states of the engine that differ at most in the queue and the
    log. *)
Definition same_books {U : Type} (w w' : World U) : Prop :=
  config w' = config w /\
  portfolio w' = portfolio w /\
  execution_handler w' = execution_handler w /\
  current_time w' = current_time w /\
  strategy w' = strategy w /\
  trace w' = trace w.

(** Two states of the engine with the same configuration, portfolio,
    execution handler, clock and log. *)
Definition same_ledger {U : Type} (w w' : World U) : Prop :=
  config w' = config w /\
  portfolio w' = portfolio w /\
  execution_handler w' = execution_handler w /\
  current_time w' = current_time w /\
  log w' = log w.

(** The portfolio after a sequence of days on which nothing is filled: one
    snapshot per day at the day's closes. *)
Definition snapshot_days (p : Portfolio) (groups : list (Z * list Row))
    : Portfolio :=
  fold_left (fun p '(date, day_data) =>
               update_market_value p (close_prices (day_market_data day_data))
                                   date)
            groups p.

(** ** Reference definitions for the grouping by date *)

(** Every row of a group carries the group's date. *)
Definition well_dated (groups : list (Z * list Row)) : Prop :=
  forall date day_data row,
    In (date, day_data) groups -> In row day_data -> row_date row = date.

(** The row is in the group of its date. *)
Definition in_groups (row : Row) (groups : list (Z * list Row)) : Prop :=
  exists day_data, In (row_date row, day_data) groups /\ In row day_data.

(** ** The rest of the strategy interface ([base_strategy.py]) *)

Section BaseStrategyQueries.
Context {U : Type}.

(** [get_position_size]: the tracked quantity, [0.0] for a symbol that is
    not tracked. *)
Definition get_position_size (s : BaseStrategy U) (symbol : string) : float :=
  match Py.get symbol (strat_positions s) with
  | Some position => pos_quantity position
  | None => 0.0%float
  end.

Definition is_long (s : BaseStrategy U) (symbol : string) : bool :=
  Py.gtb (get_position_size s symbol) 0.

Definition is_short (s : BaseStrategy U) (symbol : string) : bool :=
  (get_position_size s symbol <? 0)%float.

Definition is_flat (s : BaseStrategy U) (symbol : string) : bool :=
  (get_position_size s symbol =? 0)%float.

(** The body of the loop of [update_positions] for one tracked position. *)
Definition reprice (current_prices : Py.dict float) (entry : string * Position)
    : string * Position :=
  let '(symbol, position) := entry in
  match Py.get symbol current_prices with
  | Some price =>
      (symbol,
       {| pos_symbol := pos_symbol position;
          pos_quantity := pos_quantity position;
          pos_entry_price := pos_entry_price position;
          pos_entry_time := pos_entry_time position;
          pos_current_price := price;
          pos_unrealized_pnl :=
            ((price - pos_entry_price position) * pos_quantity position)%float;
          pos_metadata := pos_metadata position |})
  | None => (symbol, position)
  end.

(** [update_positions]: every tracked position whose symbol has a price is
    marked to that price. *)
Definition update_positions (s : BaseStrategy U) (current_prices : Py.dict float)
    : BaseStrategy U :=
  with_positions s (map (reprice current_prices) (strat_positions s)).

(** [get_portfolio_value] of the strategy: the value of the tracked
    positions that have a price. *)
Definition get_portfolio_value (s : BaseStrategy U)
    (current_prices : Py.dict float) : float :=
  fold_left (fun total_value (entry : string * Position) =>
               match Py.get (fst entry) current_prices with
               | Some price =>
                   (total_value + pos_quantity (snd entry) * price)%float
               | None => total_value
               end)
            (strat_positions s) 0.0%float.

(** [reset] *)
Definition reset (s : BaseStrategy U) : BaseStrategy U :=
  mkBaseStrategy (strat_name s) Py.empty [] (strat_data s) false (strat_user s).

End BaseStrategyQueries.

(** [dict.update(other)]: every item of [other] is set, in order. *)
Definition dict_update {V : Type} (d other : Py.dict V) : Py.dict V :=
  fold_left (fun d (item : string * V) => Py.set (fst item) (snd item) d)
            other d.

(** [set_parameters] and [get_parameter], on the [parameters] dict they
    work on. [None] is Python's [None]. *)
Definition set_parameters {V : Type} (parameters new : Py.dict V) : Py.dict V :=
  dict_update parameters new.

Definition get_parameter {V : Type} (parameters : Py.dict V) (key : string)
    (default : option V) : option V :=
  match Py.get key parameters with
  | Some value => Some value
  | None => default
  end.

(** ** Strategy methods that raise *)

(** How a call of a Python method ends: it returns a value or raises an
    exception, held here by its message. *)
Inductive Outcome (A : Type) : Type :=
| Returns (a : A)
| Raises (error : string).

Arguments Returns {A}.
Arguments Raises {A}.

(** [r] followed by [k] unless [r] raised or ran out of fuel. *)
Definition and_then {A B : Type} (r : RunResult A) (k : A -> RunResult B)
    : RunResult B :=
  match r with
  | Completed a => k a
  | Raised error => Raised error
  | OutOfFuel => OutOfFuel
  end.

(** The engine driving a strategy whose methods may raise. [run] calls
    [strategy.initialize()], [strategy.generate_signals(...)] and
    [strategy.on_position_opened(...)] outside any [try], so an exception
    of one of them ends the run and is what the caller of [run] gets. The
    handlers that call no strategy method are those of the engine above. *)
Module Raising.

(** The methods of a strategy class the engine calls, each returning or
    raising. *)
Class Strategy (U : Type) : Type := {
  initialize : BaseStrategy U -> Outcome (BaseStrategy U);
  generate_signals :
    BaseStrategy U -> Z -> string * BarData
    -> Outcome (BaseStrategy U * list Signal);
  on_position_opened : BaseStrategy U -> Position -> Outcome (BaseStrategy U);
  on_position_closed :
    BaseStrategy U -> Position -> float -> Outcome (BaseStrategy U)
}.

Section Engine.
Context {U : Type} {strategy_class : Strategy U}.

(** The body of the [for symbol in event.get_symbols()] loop. *)
Definition handle_market_symbol (event : MarketEvent) (w : World U)
    (symbol : string) : RunResult (World U) :=
  match Py.get symbol (me_data event) with
  | None => Completed w
  | Some bar =>
      match generate_signals (strategy w) (me_timestamp event) (symbol, bar) with
      | Raises error => Raised error
      | Returns (s', signals) =>
          let w1 := observe (set_strategy w s')
                      (ObsGenerateSignals (me_timestamp event) symbol bar) in
          Completed
            (fold_left
               (fun w' signal =>
                  put w' (EvSignal (signal_event_of (me_timestamp event) signal)))
               signals w1)
      end
  end.

(** The loop over the symbols: the first call that raises ends it. *)
Fixpoint handle_market_symbols (event : MarketEvent) (symbols : list string)
    (w : World U) : RunResult (World U) :=
  match symbols with
  | [] => Completed w
  | symbol :: symbols' =>
      match handle_market_symbol event w symbol with
      | Completed w' => handle_market_symbols event symbols' w'
      | Raised error => Raised error
      | OutOfFuel => OutOfFuel
      end
  end.

Definition handle_market_event (event : MarketEvent) (w : World U)
    : RunResult (World U) :=
  handle_market_symbols event (get_symbols event) w.

Definition handle_fill_event (event : FillEvent) (w : World U)
    : RunResult (World U) :=
  let w := set_portfolio w (execute_fill (portfolio w) event) in
  match fe_direction event with
  | BUY =>
      let position :=
        {| pos_symbol := fe_symbol event;
           pos_quantity := fe_quantity event;
           pos_entry_price := fe_fill_price event;
           pos_entry_time := fe_timestamp event;
           pos_current_price := fe_fill_price event;
           pos_unrealized_pnl := 0.0;
           pos_metadata := None |} in
      match on_position_opened (strategy w) position with
      | Raises error => Raised error
      | Returns s' =>
          Completed (observe (set_strategy w s') (ObsPositionOpened position))
      end
  | SELL => Completed w
  end.

(** The dispatch in the body of the [while] loop of [_process_events]. *)
Definition handle_event (e : Event) (w : World U) : RunResult (World U) :=
  match e with
  | EvMarket m => handle_market_event m w
  | EvSignal s => Completed (handle_signal_event s w)
  | EvOrder o => Completed (handle_order_event o w)
  | EvFill f => handle_fill_event f w
  end.

(** [_process_events], with the number of iterations bounded by [fuel]. *)
Fixpoint process_events (fuel : nat) (w : World U) : RunResult (World U) :=
  match events w with
  | [] => Completed w
  | e :: rest =>
      match fuel with
      | O => OutOfFuel
      | S fuel' =>
          and_then (handle_event e (set_events w rest)) (process_events fuel')
      end
  end.

(** One iteration of the main loop of [run]. *)
Definition run_day (fuel : nat) (w : World U) (group : Z * list Row)
    : RunResult (World U) :=
  let '(date, day_data) := group in
  let w := set_current_time w date in
  let market_data := day_market_data day_data in
  let market_event := {| me_timestamp := date; me_data := market_data |} in
  let w := put w (EvMarket market_event) in
  and_then (process_events fuel w)
    (fun w =>
       Completed
         (set_portfolio w
            (update_market_value (portfolio w) (close_prices market_data)
                                 date))).

Fixpoint run_days (fuel : nat) (w : World U) (groups : list (Z * list Row))
    : RunResult (World U) :=
  match groups with
  | [] => Completed w
  | g :: groups' =>
      and_then (run_day fuel w g) (fun w' => run_days fuel w' groups')
  end.

(** [BacktestEngine.run], given the frame the data loader returns. *)
Definition run (fuel : nat) (w : World U) (market_data : list Row)
    : RunResult (World U) :=
  match market_data with
  | [] => Raised "No market data loaded"
  | _ :: _ =>
      let w := observe (set_strategy w (set_data (strategy w) market_data))
                       (ObsSetData market_data) in
      match initialize (strategy w) with
      | Raises error => Raised error
      | Returns s' =>
          run_days fuel (observe (set_strategy w s') ObsInitialize)
                   (groupby_date market_data)
      end
  end.

End Engine.

End Raising.

(** A strategy whose methods always return, as one whose methods may
    raise. *)
Definition returning {U : Type} (impl : StrategyImpl U) : Raising.Strategy U :=
  {| Raising.initialize := fun s => Returns (initialize s);
     Raising.generate_signals := fun s timestamp current_data =>
       Returns (generate_signals s timestamp current_data);
     Raising.on_position_opened := fun s position =>
       Returns (on_position_opened s position);
     Raising.on_position_closed := fun s position realized_pnl =>
       Returns (on_position_closed s position realized_pnl) |}.

(** ** EnhancedMomentumStrategy ([enhanced_momentum.py]) *)

Module Momentum.

(** The built-in [min(a, b)]: the first argument unless the second is
    strictly less. *)
Definition py_min (a b : float) : float := if (b <? a)%float then b else a.

(** The values [get_parameter] returns for the parameters the signal
    evaluation reads. The thresholds default to the ints 30 and 70; Python
    compares an int with a float by value, so they are held as floats. *)
Record Parameters : Type := mkParameters {
  rsi_lower : float;
  rsi_upper : float;
  min_volume_ratio : float;
  max_position_size : float;
  min_confidence : float
}.

(** The constructor defaults. *)
Definition default_parameters : Parameters :=
  {| rsi_lower := 30; rsi_upper := 70; min_volume_ratio := 1.2;
     max_position_size := 0.05; min_confidence := 0.3 |}.

(** [_calculate_position_size] *)
Definition calculate_position_size (params : Parameters)
    (volatility : option float) (confidence : float) : float :=
  let max_position := max_position_size params in
  let base_position := (max_position * confidence)%float in
  let base_position :=
    match volatility with
    | Some v =>
        if Py.gtb v 0 then
          let volatility_adjustment :=
            if Py.gtb v 0.3
            then Py.max 0.3 (1.0 - (v - 0.3) / 0.5)%float
            else 1.0%float in
          (base_position * volatility_adjustment)%float
        else base_position
    | None => base_position
    end in
  py_min base_position max_position.

(** What [_evaluate_signal_conditions] computes for the [Signal] it
    returns: its type, strength and price and, from its metadata, the three
    confirmations, their count, the position size and the kind of
    crossover. The other fields of the signal are copies of the
    arguments. *)
Record Evaluation : Type := mkEvaluation {
  ev_signal_type : SignalType;
  ev_strength : float;
  ev_price : float;
  ev_rsi_confirmed : bool;
  ev_volume_confirmed : bool;
  ev_momentum_confirmed : bool;
  ev_confirmations_count : nat;
  ev_position_size : float;
  ev_bullish : bool
}.

Section Evaluate.

(** [np.mean] of a list of floats; the evaluation is stated for whichever
    function it is. *)
Variable mean : list float -> float.

(** [_evaluate_signal_conditions]; [None] is no signal. *)
Definition evaluate_signal_conditions (params : Parameters)
    (current_price short_ma long_ma prev_short_ma prev_long_ma rsi volume_ratio
       momentum : float) (volatility : option float) : option Evaluation :=
  let bullish_crossover :=
    (prev_short_ma <=? prev_long_ma)%float && Py.gtb short_ma long_ma in
  let bearish_crossover :=
    Py.geb prev_short_ma prev_long_ma && (short_ma <? long_ma)%float in
  if negb (bullish_crossover || bearish_crossover) then None
  else
    let rsi_confirmed :=
      (rsi_lower params <=? rsi)%float && (rsi <=? rsi_upper params)%float in
    let rsi_factor :=
      if rsi_confirmed then (1.0 - abs (rsi - 50) / 50)%float else 0.2%float in
    let volume_confirmed := Py.geb volume_ratio (min_volume_ratio params) in
    let volume_factor :=
      if volume_confirmed then py_min (volume_ratio / 2.0)%float 1.0
      else 0.3%float in
    let momentum_confirmed :=
      (bullish_crossover && Py.gtb momentum 0)
      || (bearish_crossover && (momentum <? 0)%float) in
    let momentum_factor :=
      if momentum_confirmed then py_min (abs momentum * 10)%float 1.0
      else 0.4%float in
    let volatility_factors :=
      match volatility with
      | Some v =>
          if Py.gtb v 0 then
            [ if Py.gtb v 0.2
              then Py.max 0.3 (1.0 - (v - 0.2) / 0.3)%float
              else 1.0%float ]
          else []
      | None => []
      end in
    let confidence_factors :=
      [rsi_factor; volume_factor; momentum_factor] ++ volatility_factors in
    let overall_confidence :=
      match confidence_factors with
      | [] => 0.5%float
      | _ :: _ => mean confidence_factors
      end in
    let confirmations_count :=
      ((if rsi_confirmed then 1 else 0)
       + (if volume_confirmed then 1 else 0)
       + (if momentum_confirmed then 1 else 0))%nat in
    if (confirmations_count <? 2)%nat then None
    else if (overall_confidence <? min_confidence params)%float then None
    else
      Some {| ev_signal_type := if bullish_crossover then SIG_BUY else SIG_SELL;
              ev_strength := overall_confidence;
              ev_price := current_price;
              ev_rsi_confirmed := rsi_confirmed;
              ev_volume_confirmed := volume_confirmed;
              ev_momentum_confirmed := momentum_confirmed;
              ev_confirmations_count := confirmations_count;
              ev_position_size :=
                calculate_position_size params volatility overall_confidence;
              ev_bullish := bullish_crossover |}.

End Evaluate.

(** One entry of [indicator_cache]: the dict stored per symbol. *)
Record Indicators : Type := mkIndicators {
  ind_short_ma : float;
  ind_long_ma : float;
  ind_rsi : float;
  ind_volume_ratio : float;
  ind_momentum : float;
  ind_volatility : option float
}.

(** The period parameters the feature names are built from. *)
Record Periods : Type := mkPeriods {
  short_ma_period : Z;
  long_ma_period : Z;
  rsi_period : Z;
  momentum_period : Z;
  volatility_lookback : Z
}.



Section FromFeatures.

Variable mean : list float -> float.

(** [str(n)] inside the f-strings that name the features; the function is
    stated for whichever rendering it is. *)
Variable format_int : Z -> string.

(** [pd.Timestamp(current_date)]: the timestamp the date string denotes,
    or the exception raised for a string that denotes none; the function is
    stated for whichever parser it is. *)
Variable Timestamp : string -> Outcome Z.



End FromFeatures.

(** A mean taken as the left-to-right sum over the count, for examples. *)
Definition mean_in_order (xs : list float) : float :=
  (fold_left PrimFloat.add xs 0 / Metrics.float_of_Z (Z.of_nat (List.length xs)))%float.

(** The state an [EnhancedMomentumStrategy] object adds to that of
    [BaseStrategy]: its parameters, with the periods as the ints of the
    constructor defaults, and the indicator cache. *)
Record State : Type := mkState {
  parameters : Parameters;
  periods : Periods;
  volume_ma_period : Z;
  indicator_cache : Py.dict Indicators
}.

(** The constructor defaults. *)
Definition default_state : State :=
  {| parameters := default_parameters;
     periods := {| short_ma_period := 10; long_ma_period := 20;
                   rsi_period := 14; momentum_period := 5;
                   volatility_lookback := 20 |};
     volume_ma_period := 20;
     indicator_cache := Py.empty |}.

(** [validate_parameters]: the eleven range checks in the order of
    [params_to_check], then the two order checks. *)
Definition validate_parameters (state : State) : bool :=
  let params := parameters state in
  let periods := periods state in
  (0 <? short_ma_period periods)%Z
  && (0 <? long_ma_period periods)%Z
  && (0 <? rsi_period periods)%Z
  && ((0 <=? rsi_lower params)%float && (rsi_lower params <=? 100)%float)
  && ((0 <=? rsi_upper params)%float && (rsi_upper params <=? 100)%float)
  && (0 <? volume_ma_period state)%Z
  && (0 <? momentum_period periods)%Z
  && Py.gtb (min_volume_ratio params) 0
  && (0 <? volatility_lookback periods)%Z
  && ((0 <? max_position_size params)%float
      && (max_position_size params <=? 1)%float)
  && ((0 <=? min_confidence params)%float
      && (min_confidence params <=? 1)%float)
  && negb (long_ma_period periods <=? short_ma_period periods)%Z
  && negb (Py.geb (rsi_lower params) (rsi_upper params)).

(** [initialize] *)
Definition initialize (s : BaseStrategy State) : Outcome (BaseStrategy State) :=
  if validate_parameters (strat_user s)
  then Returns (mkBaseStrategy (strat_name s) (strat_positions s)
                               (strat_signals s) (strat_data s) true
                               (strat_user s))
  else Raises "Invalid strategy parameters".

(** [generate_signals], the legacy interface the engine calls: every path
    through it returns the empty list and leaves the object as it is. *)
Definition generate_signals (s : BaseStrategy State) (current_time : Z)
    (current_data : string * BarData)
    : Outcome (BaseStrategy State * list Signal) :=
  Returns (s, []).

(** The class as the engine sees it; the position hooks are those of
    [BaseStrategy]. *)
Definition strategy_class : Raising.Strategy State :=
  {| Raising.initialize := initialize;
     Raising.generate_signals := generate_signals;
     Raising.on_position_opened := fun s position =>
       Returns (base_on_position_opened s position);
     Raising.on_position_closed := fun s position realized_pnl =>
       Returns (base_on_position_closed s position realized_pnl) |}.

(** [EnhancedMomentumStrategy(parameters=...)] before [initialize]. *)
Definition fresh (state : State) : BaseStrategy State :=
  mkBaseStrategy "EnhancedMomentum" Py.empty [] None false state.

End Momentum.

(** ** Reference definitions for further properties *)

(** [math.isfinite]: neither NaN nor an infinity. *)
Definition is_finite (x : float) : bool := (abs x <? infinity)%float.

Definition is_market (e : Event) : bool :=
  match e with
  | EvMarket _ => true
  | _ => false
  end.

(** The snapshot of a day on which the ledger is empty. *)
Definition idle_snapshot (cash : float) (group : Z * list Row) : Snapshot :=
  {| snap_timestamp := fst group;
     snap_cash := cash;
     snap_position_value := 0;
     snap_total_value := (cash + 0)%float;
     snap_positions := [] |}.

(** The strategy calls a list of fills causes: one [on_position_opened]
    per Buy fill. *)
Definition opened_position (fill : FillEvent) : Position :=
  {| pos_symbol := fe_symbol fill;
     pos_quantity := fe_quantity fill;
     pos_entry_price := fe_fill_price fill;
     pos_entry_time := fe_timestamp fill;
     pos_current_price := fe_fill_price fill;
     pos_unrealized_pnl := 0.0;
     pos_metadata := None |}.

Definition fill_observations (fills : list FillEvent) : list Observation :=
  flat_map (fun fill =>
              match fe_direction fill with
              | BUY => [ObsPositionOpened (opened_position fill)]
              | SELL => []
              end)
           fills.

(** ** Reference definitions for runs of a strategy that may raise *)

(** What a run asks of the strategy, taken by itself: [initialize] on the
    object holding the frame, then, date by date in ascending order, one
    [generate_signals] call per bar of the date, each on the object as the
    call before left it. The first call that raises ends it. Nothing in it
    depends on the configuration or on the portfolio. *)
Section StrategyCalls.
Context {U : Type} {strategy_class : Raising.Strategy U}.

Fixpoint calls_for_bars (date : Z) (bars : list (string * BarData))
    (s : BaseStrategy U) : Outcome (BaseStrategy U) :=
  match bars with
  | [] => Returns s
  | current_data :: bars' =>
      match Raising.generate_signals s date current_data with
      | Raises error => Raises error
      | Returns (s', _) => calls_for_bars date bars' s'
      end
  end.

Fixpoint calls_for_days (groups : list (Z * list Row)) (s : BaseStrategy U)
    : Outcome (BaseStrategy U) :=
  match groups with
  | [] => Returns s
  | (date, day_data) :: groups' =>
      match calls_for_bars date (day_market_data day_data) s with
      | Raises error => Raises error
      | Returns s' => calls_for_days groups' s'
      end
  end.

Definition strategy_calls (s : BaseStrategy U) (market_data : list Row)
    : Outcome (BaseStrategy U) :=
  match Raising.initialize (set_data s market_data) with
  | Raises error => Raises error
  | Returns s' => calls_for_days (groupby_date market_data) s'
  end.

(** The strategy with every raising call replaced by one that returns and
    does nothing: the two agree on every call that returns. *)
Definition returns_of : StrategyImpl U :=
  {| initialize := fun s =>
       match Raising.initialize s with
       | Returns s' => s'
       | Raises _ => s
       end;
     generate_signals := fun s timestamp current_data =>
       match Raising.generate_signals s timestamp current_data with
       | Returns result => result
       | Raises _ => (s, [])
       end;
     on_position_opened := fun s position =>
       match Raising.on_position_opened s position with
       | Returns s' => s'
       | Raises _ => s
       end;
     on_position_closed := fun s position realized_pnl =>
       match Raising.on_position_closed s position realized_pnl with
       | Returns s' => s'
       | Raises _ => s
       end |}.

End StrategyCalls.

(** The result of a bounded loop as the result of a run. *)
Definition completed_if_some {A : Type} (o : option A) : RunResult A :=
  match o with
  | Some a => Completed a
  | None => OutOfFuel
  end.

(** * Properties *)

(** ** Facts about binary64 comparisons and addition *)

Section FloatFacts.

Lemma Prim2SF_zero : Prim2SF 0%float = S754_zero false.
Proof. reflexivity. Qed.

Lemma eqb_zero_inv (x : float) :
  (x =? 0)%float = true -> exists s, Prim2SF x = S754_zero s.
Proof.
  rewrite eqb_spec, Prim2SF_zero.
  destruct (Prim2SF x) as [s | s | | s m e]; cbn; try discriminate.
  - intros _. now exists s.
  - destruct s; discriminate.
  - destruct s; discriminate.
Qed.

Lemma eqb_zero_geb (x : float) :
  (x =? 0)%float = true -> Py.geb x 0 = true.
Proof.
  intros Hx. destruct (eqb_zero_inv x Hx) as [s Hs].
  unfold Py.geb. rewrite leb_spec, Prim2SF_zero, Hs. reflexivity.
Qed.

Lemma eqb_zero_leb (x : float) :
  (x =? 0)%float = true -> (x <=? 0)%float = true.
Proof.
  intros Hx. destruct (eqb_zero_inv x Hx) as [s Hs].
  rewrite leb_spec, Prim2SF_zero, Hs. reflexivity.
Qed.

Lemma ltb_leb (x y : float) :
  (x <? y)%float = true -> (x <=? y)%float = true.
Proof.
  rewrite ltb_spec, leb_spec. unfold SFltb, SFleb.
  destruct (SFcompare (Prim2SF x) (Prim2SF y)) as [[ | | ] | ];
    intros; try discriminate; reflexivity.
Qed.

Lemma ltb_zero_not_geb (x : float) :
  (x <? 0)%float = true -> Py.geb x 0 = false.
Proof.
  unfold Py.geb. rewrite ltb_spec, leb_spec, Prim2SF_zero.
  destruct (Prim2SF x) as [s | s | | s m e]; cbn; try discriminate;
    destruct s; cbn; intros; try discriminate; reflexivity.
Qed.

Lemma gt_zero_not_eqb (x : float) :
  (0 <? x)%float = true -> (x =? 0)%float = false.
Proof.
  rewrite ltb_spec, eqb_spec, Prim2SF_zero.
  destruct (Prim2SF x) as [s | s | | s m e]; cbn; try discriminate;
    destruct s; cbn; intros; try discriminate; reflexivity.
Qed.

Lemma SFcompare_refl (x : spec_float) :
  x <> S754_nan -> SFcompare x x = Some Eq.
Proof.
  destruct x as [s | s | | s m e]; cbn; intros Hx;
    try congruence; try (destruct s; reflexivity).
  destruct s; rewrite Z.compare_refl, Pos.compare_cont_refl; reflexivity.
Qed.

Lemma isnan_false (x : float) :
  Metrics.isnan x = false -> Prim2SF x <> S754_nan.
Proof.
  unfold Metrics.isnan. rewrite eqb_spec. intros Hx Hn.
  rewrite Hn in Hx. discriminate.
Qed.

(** [x + 0.0 == x] for every float that is not NaN. *)
Lemma add_zero_eqb (x : float) :
  Metrics.isnan x = false -> (x + 0 =? x)%float = true.
Proof.
  intros Hx. apply isnan_false in Hx.
  rewrite eqb_spec, add_spec, Prim2SF_zero.
  unfold SFeqb, SF64add.
  destruct (Prim2SF x) as [s | s | | s m e] eqn:E; try congruence.
  - destruct s; reflexivity.
  - destruct s; reflexivity.
  - cbn [SFadd]. rewrite SFcompare_refl by discriminate. reflexivity.
Qed.

End FloatFacts.

(** ** Facts about dicts *)

Section DictFacts.
Context {V : Type}.

Lemma get_set_same (k : string) (v : V) (d : Py.dict V) :
  Py.get k (Py.set k v d) = Some v.
Proof.
  induction d as [ | [k' v'] d IH]; cbn.
  - now rewrite String.eqb_refl.
  - destruct (String.eqb k k') eqn:E; cbn; rewrite E; [reflexivity | exact IH].
Qed.

Lemma get_set_other (k k' : string) (v : V) (d : Py.dict V) :
  k <> k' -> Py.get k' (Py.set k v d) = Py.get k' d.
Proof.
  intros Hk. induction d as [ | [k0 v0] d IH]; cbn.
  - destruct (String.eqb k' k) eqn:E; [ | reflexivity].
    apply String.eqb_eq in E. congruence.
  - destruct (String.eqb k k0) eqn:E; cbn.
    + apply String.eqb_eq in E. subst k0.
      destruct (String.eqb k' k) eqn:E'; [ | reflexivity].
      apply String.eqb_eq in E'. congruence.
    + now rewrite IH.
Qed.

Lemma keys_set_present (k : string) (v v0 : V) (d : Py.dict V) :
  Py.get k d = Some v0 -> Py.keys (Py.set k v d) = Py.keys d.
Proof.
  induction d as [ | [k' v'] d IH]; cbn; [discriminate | ].
  destruct (String.eqb k k') eqn:E; cbn; [reflexivity | ].
  intros Hg. f_equal. now apply IH.
Qed.

Lemma keys_set_absent (k : string) (v : V) (d : Py.dict V) :
  Py.get k d = None -> Py.keys (Py.set k v d) = Py.keys d ++ [k].
Proof.
  induction d as [ | [k' v'] d IH]; cbn; [reflexivity | ].
  destruct (String.eqb k k') eqn:E; cbn; [discriminate | ].
  intros Hg. f_equal. now apply IH.
Qed.

Lemma get_none_not_in (k : string) (d : Py.dict V) :
  Py.get k d = None -> ~ In k (Py.keys d).
Proof.
  induction d as [ | [k' v'] d IH]; cbn; [tauto | ].
  destruct (String.eqb k k') eqn:E; [discriminate | ].
  apply String.eqb_neq in E. intros Hg [Heq | Hin]; [congruence | ].
  now apply IH.
Qed.

Lemma get_some_or_none (k : string) (d : Py.dict V) :
  (exists v, Py.get k d = Some v) \/ Py.get k d = None.
Proof. destruct (Py.get k d) as [v | ]; [left; now exists v | now right]. Qed.

(** Setting a key keeps the keys of a dict distinct. *)
Lemma set_keys_nodup (k : string) (v : V) (d : Py.dict V) :
  NoDup (Py.keys d) -> NoDup (Py.keys (Py.set k v d)).
Proof.
  intros Hd. destruct (get_some_or_none k d) as [[v0 Hg] | Hg].
  - now rewrite (keys_set_present _ _ _ _ Hg).
  - rewrite (keys_set_absent _ _ _ Hg).
    apply NoDup_app; [exact Hd | repeat constructor; intros [] | ].
    intros k' Hin [<- | []]. now apply (get_none_not_in _ _ Hg).
Qed.

Lemma flat_map_agree (A B : Type) (f g : A -> list B) (l : list A) :
  (forall a, In a l -> f a = g a) -> flat_map f l = flat_map g l.
Proof.
  induction l as [ | a l IH]; cbn; [reflexivity | ].
  intros Hfg. rewrite (Hfg a) by now left. f_equal. apply IH.
  intros a' Hin. apply Hfg. now right.
Qed.

(** Reading a dict key by key visits its entries in order. *)
Lemma lookup_keys (W : Type) (f : string -> V -> W) (d : Py.dict V) :
  NoDup (Py.keys d) ->
  flat_map (fun k => match Py.get k d with
                     | Some v => [f k v]
                     | None => []
                     end)
           (Py.keys d)
  = map (fun '(k, v) => f k v) d.
Proof.
  induction d as [ | [k v] d IH]; [reflexivity | ].
  cbn [Py.keys map flat_map fst Py.get]. intros Hd.
  inversion Hd as [ | ? ? Hk Hd']; subst.
  rewrite String.eqb_refl. cbn [app]. f_equal.
  rewrite <- (IH Hd'). apply flat_map_agree.
  intros k' Hin. destruct (String.eqb k' k) eqn:E; [ | reflexivity].
  apply String.eqb_eq in E. subst k'. contradiction.
Qed.

End DictFacts.

(** ** Portfolio and execution *)

Lemma defaultdict_getitem_absent (k : string) (d : Py.dict float) :
  Py.get k d = None ->
  Py.defaultdict_getitem k d = (0%float, Py.set k 0%float d).
Proof. unfold Py.defaultdict_getitem. now intros ->. Qed.

Lemma defaultdict_getitem_present (k : string) (v : float) (d : Py.dict float) :
  Py.get k d = Some v -> Py.defaultdict_getitem k d = (v, d).
Proof. unfold Py.defaultdict_getitem. now intros ->. Qed.

Lemma get_position_set (p : Portfolio) (c : float) (k : string) (v : float)
    (d : Py.dict float) :
  get_position (with_cash_positions p c (Py.set k v d)) k = v.
Proof. unfold get_position. cbn. now rewrite get_set_same. Qed.

(** The commission of every fill is computed against the literal [1.0]. *)
Lemma execute_order_commission (h : ExecutionHandler) (order : OrderEvent)
    (market_data : MarketEvent) (fill : FillEvent) :
  execute_order h order market_data = Some fill ->
  fe_commission fill =
    Py.max (abs (fe_quantity fill * fe_fill_price fill) * eh_commission h)%float
           1.0%float.
Proof.
  unfold execute_order.
  destruct (get_price market_data (oe_symbol order)); [ | discriminate].
  intros [= <-]. reflexivity.
Qed.

(** C2: with commission rate 0.01, the minimum commission of 1 and zero
    slippage, a buy order of 10 shares executed against a bar closing at 100
    gives a fill at price 100 with commission 10; applied to a portfolio
    with cash 100000 and no position in the symbol it leaves cash 98990 and
    a position of 10. *)
Theorem C2_scenario_A (symbol : string) (order_time : Z)
    (market_data : MarketEvent) (bar : BarData) (p : Portfolio) :
  Py.get symbol (me_data market_data) = Some bar ->
  bar_close bar = 100%float ->
  cash p = 100000%float ->
  Py.get symbol (positions p) = None ->
  let handler := mkExecutionHandler 0.01 0 in
  let order := mkOrderEvent order_time symbol MARKET 10 BUY in
  exists fill,
    execute_order handler order market_data = Some fill /\
    fe_fill_price fill = 100%float /\
    fe_commission fill = 10%float /\
    cash (execute_fill p fill) = 98990%float /\
    get_position (execute_fill p fill) symbol = 10%float.
Proof.
  intros Hbar Hclose Hcash Hflat handler order.
  unfold execute_order, get_price. cbn [oe_symbol order].
  rewrite Hbar, Hclose. cbn [oe_direction oe_quantity order eh_slippage
                             eh_commission handler].
  eexists. split; [reflexivity | ].
  split; [reflexivity | ]. split; [reflexivity | ].
  unfold execute_fill. cbn [fe_direction fe_symbol fe_quantity fe_fill_price
                            fe_commission].
  rewrite (defaultdict_getitem_absent _ _ Hflat).
  split.
  - cbn [cash with_cash_positions]. rewrite Hcash. reflexivity.
  - rewrite get_position_set. reflexivity.
Qed.

Lemma C2_scenario_A_witness :
  exists fill,
    execute_order (mkExecutionHandler 0.01 0)
      (mkOrderEvent 1 "AAPL" MARKET 10 BUY) Demo.aapl_event = Some fill /\
    fe_fill_price fill = 100%float /\
    fe_commission fill = 10%float /\
    cash (execute_fill (Portfolio_init 100000 0.01) fill) = 98990%float /\
    get_position (execute_fill (Portfolio_init 100000 0.01) fill) "AAPL"
      = 10%float.
Proof.
  apply (C2_scenario_A "AAPL" 1 Demo.aapl_event
           (mkBarData 100 100 100 100 1000) (Portfolio_init 100000 0.01));
    reflexivity.
Defined.

(** [can_afford] answers a Buy from the cash and leaves the portfolio as it
    is. *)
Lemma can_afford_buy (p : Portfolio) (order : OrderEvent) (current_price : float) :
  oe_direction order = BUY ->
  can_afford p order current_price =
    (Py.geb (cash p) (oe_quantity order * current_price * (1 + commission p))%float,
     p).
Proof. unfold can_afford. now intros ->. Qed.

(** [can_afford] answers a Sell from the ledger quantity and never touches
    the cash; with the symbol in the ledger the portfolio is left as it
    is. *)
Lemma can_afford_sell_present (p : Portfolio) (order : OrderEvent)
    (current_price held : float) :
  oe_direction order = SELL ->
  Py.get (oe_symbol order) (positions p) = Some held ->
  fst (can_afford p order current_price) = Py.geb held (oe_quantity order) /\
  cash (snd (can_afford p order current_price)) = cash p /\
  positions (snd (can_afford p order current_price)) = positions p.
Proof.
  unfold can_afford. intros -> Hheld.
  rewrite (defaultdict_getitem_present _ _ _ Hheld). cbn. auto.
Qed.

(** With the symbol absent from the ledger, a Sell query is answered from
    the default [0.0] and the key is added to the ledger. *)
Lemma can_afford_sell_absent (p : Portfolio) (order : OrderEvent)
    (current_price : float) :
  oe_direction order = SELL ->
  Py.get (oe_symbol order) (positions p) = None ->
  fst (can_afford p order current_price) = Py.geb 0 (oe_quantity order) /\
  cash (snd (can_afford p order current_price)) = cash p /\
  Py.keys (positions (snd (can_afford p order current_price)))
    = Py.keys (positions p) ++ [oe_symbol order].
Proof.
  unfold can_afford. intros -> Habsent.
  rewrite (defaultdict_getitem_absent _ _ Habsent).
  cbn [fst snd cash positions with_cash_positions].
  rewrite (keys_set_absent _ _ _ Habsent). auto.
Qed.

(** C5, at the input where the code departs from it: asking a fresh
    portfolio whether it can afford to sell 10 AAPL answers [False] and
    leaves the key AAPL, with quantity 0.0, in a ledger that had no key
    before the call. *)
Theorem C5_can_afford_adds_ledger_key :
  let p := Portfolio_init 100000 0.001 in
  let order := mkOrderEvent 1 "AAPL" MARKET 10 SELL in
  Py.keys (positions p) = [] /\
  fst (can_afford p order 100) = false /\
  cash (snd (can_afford p order 100)) = cash p /\
  positions (snd (can_afford p order 100)) = [("AAPL", 0%float)] /\
  Py.keys (positions (snd (can_afford p order 100))) <> Py.keys (positions p).
Proof. cbv zeta. repeat split; try reflexivity. discriminate. Qed.

(** C6, at the input where the code departs from it: with
    [min_commission] configured as 5, commission rate 0.001 and no
    slippage, a buy of 10 shares at a close of 100 is charged the built-in
    minimum 1, where the configured minimum would give 5. *)
Theorem C6_configured_minimum_ignored :
  let cfg := {| backtest := mkBacktestConfig 100000 0.001 0 5;
                risk := risk default_config |} in
  let w := @BacktestEngine_init unit cfg Demo.fresh_strategy in
  let order := mkOrderEvent 1 "AAPL" MARKET 10 BUY in
  exists fill,
    execute_order (execution_handler w) order Demo.aapl_event = Some fill /\
    fe_fill_price fill = 100%float /\
    fe_commission fill = 1%float /\
    Py.max (abs (fe_quantity fill * fe_fill_price fill)
            * bc_commission (backtest cfg))%float
           (bc_min_commission (backtest cfg)) = 5%float.
Proof. cbv zeta. eexists. repeat split; reflexivity. Qed.

(** ** Signal router *)

(** C4, as the code has it: a Sell signal arriving at a position equal to
    zero gives a sell order of [target_quantity]; a Buy signal arriving at
    a strictly negative position gives a buy order of [target_quantity]
    too, whatever the size of the short. *)
Theorem C4_router_orders (c : Config) (p : Portfolio) (event : SignalEvent) :
  let target_quantity :=
    (portfolio_value p * rc_max_position_size (risk c)
     / Py.or_default (se_price event) 100.0)%float in
  let order quantity direction :=
    mkOrderEvent (se_timestamp event) (se_symbol event) MARKET quantity direction in
  (se_signal_type event = (-1)%Z ->
   (get_position p (se_symbol event) =? 0)%float = true ->
   signal_to_order c p event = Some (order target_quantity SELL)) /\
  (se_signal_type event = 1%Z ->
   (get_position p (se_symbol event) <? 0)%float = true ->
   signal_to_order c p event = Some (order target_quantity BUY)).
Proof.
  cbv zeta. unfold signal_to_order. split.
  - intros -> Hzero. cbn [Z.eqb].
    rewrite (eqb_zero_geb _ Hzero), Hzero. reflexivity.
  - intros -> Hneg. cbn [Z.eqb Pos.eqb].
    rewrite (ltb_leb _ _ Hneg). reflexivity.
Qed.

(** C4 as stated fails: with a short of 5 shares, a portfolio value of
    100000, the default position fraction 0.1 and a signal price of 100,
    the Buy signal gives an order of 100 shares, not of 5, and the fill of
    that order takes the position from -5 to 95. *)
Lemma C4_buy_signal_flips_short :
  let p := execute_fill (Portfolio_init 100000 0.001)
             (mkFillEvent 1 "AAPL" 5 SELL 100 1 0) in
  let event := mkSignalEvent 2 "AAPL" 1 1.0 (Some 100%float) None in
  get_position p "AAPL" = (-5)%float /\
  exists order,
    signal_to_order default_config p event = Some order /\
    oe_direction order = BUY /\
    oe_quantity order = 100%float /\
    (oe_quantity order =? abs (get_position p "AAPL"))%float = false /\
    get_position
      (execute_fill p (mkFillEvent 2 "AAPL" (oe_quantity order) BUY 100 1 0))
      "AAPL" = 95%float.
Proof. cbv zeta. split; [reflexivity | ]. eexists. repeat split; reflexivity. Qed.

(** ** Equity snapshots *)

Lemma fold_add_position_value (current_prices ledger : Py.dict float)
    (acc : float) :
  fold_left (add_position_value current_prices) ledger acc =
  fold_left PrimFloat.add (held_values current_prices ledger) acc.
Proof.
  revert acc. induction ledger as [ | [symbol quantity] ledger IH]; intros acc.
  - reflexivity.
  - unfold held_values. cbn [flat_map fold_left add_position_value].
    rewrite fold_left_app. fold (held_values current_prices ledger).
    rewrite IH.
    destruct (Py.get symbol current_prices); [ | reflexivity].
    destruct (Py.neb quantity 0); reflexivity.
Qed.

Lemma all_flat_held_values (current_prices ledger : Py.dict float) :
  all_flat ledger = true -> held_values current_prices ledger = [].
Proof.
  induction ledger as [ | [symbol quantity] ledger IH]; [reflexivity | ].
  cbn [all_flat forallb]. intros Hflat.
  apply andb_true_iff in Hflat as [Hq Hrest].
  unfold held_values. cbn [flat_map]. fold (held_values current_prices ledger).
  rewrite (IH Hrest). unfold Py.neb. rewrite Hq.
  destruct (Py.get symbol current_prices); reflexivity.
Qed.

(** C3, as the code has it: the snapshot [update_market_value] appends has
    [total_value] equal to the cash plus the float sum, in ledger order, of
    quantity times price over the ledger symbols that have a price in the
    map of that call and a nonzero quantity. A symbol with no price in the
    map contributes nothing. With every position flat [total_value] is
    [cash + 0.0], which compares equal to the cash. *)
Theorem C3_snapshot_total_value (p : Portfolio) (current_prices : Py.dict float)
    (timestamp : Z) :
  exists snap,
    history (update_market_value p current_prices timestamp)
      = history p ++ [snap] /\
    snap_timestamp snap = timestamp /\
    snap_cash snap = cash p /\
    snap_total_value snap
      = (cash p + float_sum (held_values current_prices (positions p)))%float /\
    (forall symbol quantity,
        Py.get symbol current_prices = None ->
        held_values current_prices [(symbol, quantity)] = []) /\
    (all_flat (positions p) = true ->
     snap_total_value snap = (cash p + 0)%float /\
     (Metrics.isnan (cash p) = false ->
      (snap_total_value snap =? cash p)%float = true)).
Proof.
  unfold update_market_value. cbn [history].
  eexists. split; [reflexivity | ]. cbn [snap_timestamp snap_cash snap_total_value].
  split; [reflexivity | ]. split; [reflexivity | ].
  rewrite fold_add_position_value. split; [reflexivity | ]. split.
  - intros symbol quantity Habsent. unfold held_values. cbn [flat_map].
    rewrite Habsent. reflexivity.
  - intros Hflat. rewrite (all_flat_held_values _ _ Hflat). cbn [fold_left].
    split; [reflexivity | ]. apply add_zero_eqb.
Qed.

(** C3 as stated fails: a portfolio that bought 10 AAPL at 100 is valued at
    99999 on a day whose price map has AAPL at 100, and at 98999, its cash
    alone, on the next day, whose price map has no AAPL; at the last known
    price the total would still be 99999. *)
Lemma C3_absent_price_drops_position :
  let p0 := execute_fill (Portfolio_init 100000 0.001)
              (mkFillEvent 1 "AAPL" 10 BUY 100 1 0) in
  let day1 := [("AAPL", 100%float); ("MSFT", 50%float)] in
  let day2 := [("MSFT", 50%float)] in
  let p2 := update_market_value (update_market_value p0 day1 1) day2 2 in
  get_position p2 "AAPL" = 10%float /\
  cash p2 = 98999%float /\
  last_known_price [day1; day2] "AAPL" = Some 100%float /\
  total_at_last_known_price p2 [day1; day2] = 99999%float /\
  map snap_total_value (history p2) = [99999%float; 98999%float] /\
  Py.gtb (abs (98999 - 99999)) 1e-6 = true.
Proof. cbv zeta. repeat split; reflexivity. Qed.

(** ** Performance metrics *)

(** C9: [calmar_ratio] is [annualized_return / max_drawdown] when the
    drawdown is not zero; when it is zero the result is [+inf] for a
    positive annualized return and [0.0] otherwise. The division is only
    reached with a nonzero divisor, so no arithmetic exception escapes. *)
Theorem C9_calmar_ratio (pow : float -> float -> float)
    (m : Metrics.PerformanceMetrics) :
  let annual_ret := Metrics.annualized_return pow m in
  let max_dd := Metrics.max_drawdown m in
  ((max_dd =? 0)%float = false ->
   Metrics.calmar_ratio pow m = Some (annual_ret / max_dd)%float) /\
  ((max_dd =? 0)%float = true -> Py.gtb annual_ret 0 = true ->
   Metrics.calmar_ratio pow m = Some infinity) /\
  ((max_dd =? 0)%float = true -> Py.gtb annual_ret 0 = false ->
   Metrics.calmar_ratio pow m = Some 0%float) /\
  Metrics.calmar_ratio pow m <> None.
Proof.
  cbv zeta. unfold Metrics.calmar_ratio, Metrics.truediv.
  destruct (Metrics.max_drawdown m =? 0)%float eqn:Hdd;
    destruct (Py.gtb (Metrics.annualized_return pow m) 0) eqn:Hret;
    repeat split; intros; try discriminate; reflexivity.
Qed.

(** A history that never falls has zero drawdown: over two equal values
    recorded on one day the ratio is [0.0]. *)
Example calmar_flat_history (pow : float -> float -> float) :
  Metrics.calmar_ratio pow
    (Metrics.PerformanceMetrics_init
       [ mkSnapshot 0 100000 0 100000 []; mkSnapshot 0 100000 0 100000 [] ]
       0.02)
  = Some 0%float.
Proof. reflexivity. Qed.

(** A history that falls from 110 to 99 has drawdown 0.1; with an
    annualized return of 0.2 the ratio is their quotient. *)
Example calmar_with_drawdown :
  let m := Metrics.mkPerformanceMetrics
             [(1%Z, 100%float); (2%Z, 110%float); (3%Z, 99%float);
              (4%Z, 120%float)] 0.02 in
  Metrics.max_drawdown m = 0.1%float /\
  Metrics.calmar_ratio (fun _ _ => 1.2%float) m
    = Some (0.19999999999999996 / 0.1)%float.
Proof. split; reflexivity. Qed.

(** ** Fill handling *)

(** C10: handling a Sell fill applies it to the portfolio ledger and
    nothing else: the strategy object, and so its tracked position for the
    symbol, is unchanged and no strategy method is invoked, in particular
    not [on_position_closed]. Handling a Buy fill invokes
    [on_position_opened], once. *)
Theorem C10_fill_callbacks (U : Type) (impl : StrategyImpl U) (w : World U)
    (fill : FillEvent) :
  let w' := handle_fill_event fill w in
  let opened :=
    {| pos_symbol := fe_symbol fill;
       pos_quantity := fe_quantity fill;
       pos_entry_price := fe_fill_price fill;
       pos_entry_time := fe_timestamp fill;
       pos_current_price := fe_fill_price fill;
       pos_unrealized_pnl := 0.0;
       pos_metadata := None |} in
  portfolio w' = execute_fill (portfolio w) fill /\
  (fe_direction fill = SELL ->
   strategy w' = strategy w /\
   trace w' = trace w /\
   Py.get (fe_symbol fill) (strat_positions (strategy w'))
     = Py.get (fe_symbol fill) (strat_positions (strategy w))) /\
  (fe_direction fill = BUY ->
   strategy w' = on_position_opened (strategy w) opened /\
   trace w' = trace w ++ [ObsPositionOpened opened]).
Proof.
  cbv zeta. unfold handle_fill_event.
  destruct (fe_direction fill); cbn; repeat split; intros; try discriminate;
    reflexivity.
Qed.

(** A strategy that tracks a position keeps it through a closing fill. *)
Example sell_fill_keeps_tracked_position :
  let opened := mkPosition "AAPL" 10 100 1 100 0.0 None in
  let w := @BacktestEngine_init unit default_config
             (base_on_position_opened Demo.fresh_strategy opened) in
  let w' := handle_fill_event (impl := Demo.buy_at_close)
              (mkFillEvent 2 "AAPL" 10 SELL 100 1 0) w in
  Py.get "AAPL" (strat_positions (strategy w')) = Some opened /\
  trace w' = [] /\
  get_position (portfolio w') "AAPL" = (-10)%float.
Proof. cbv zeta. repeat split; reflexivity. Qed.

(** ** The event loop *)

Lemma day_market_data_keys (day_data : list Row) :
  NoDup (Py.keys (day_market_data day_data)).
Proof.
  unfold day_market_data.
  assert (Hgen : forall acc : Py.dict BarData,
    NoDup (Py.keys acc) ->
    NoDup (Py.keys
             (fold_left (fun market_data row =>
                           Py.set (row_ticker row) (bar_of_row row) market_data)
                        day_data acc))).
  { induction day_data as [ | r day_data IH]; intros acc Hacc; cbn; [exact Hacc | ].
    apply IH. now apply set_keys_nodup. }
  apply Hgen. constructor.
Qed.

Section EventLoop.
Context {U : Type} {impl : StrategyImpl U}.

Lemma same_books_refl (w : World U) : same_books w w.
Proof. unfold same_books. auto 10. Qed.

Lemma same_books_trans (w1 w2 w3 : World U) :
  same_books w1 w2 -> same_books w2 w3 -> same_books w1 w3.
Proof.
  unfold same_books.
  intros (-> & -> & -> & -> & -> & ->) (-> & -> & -> & -> & -> & ->).
  auto 10.
Qed.

Lemma same_books_set_events (w : World U) (q : list Event) :
  same_books w (set_events w q).
Proof. unfold same_books. cbn. auto 10. Qed.

Lemma same_books_warn (w : World U) (r : LogRecord) :
  same_books w (warn w r).
Proof. unfold same_books. cbn. auto 10. Qed.

(** A result of the loop does not depend on the bound once the bound is
    large enough. *)
Lemma process_events_more_fuel (fuel fuel' : nat) (w w' : World U) :
  process_events fuel w = Some w' -> fuel <= fuel' ->
  process_events fuel' w = Some w'.
Proof.
  revert fuel' w. induction fuel as [ | fuel IH]; intros fuel' w Hrun Hle.
  - destruct fuel'; cbn in *; destruct (events w); congruence.
  - destruct fuel' as [ | fuel']; [lia | ].
    cbn in *. destruct (events w); [assumption | ].
    apply IH; [assumption | lia].
Qed.

(** With no market event in the queue the scan takes every event out and
    finds nothing. *)
Lemma scan_for_market_quiet (queue : list Event) :
  forallb is_signal_or_order queue = true ->
  scan_for_market queue = (None, queue, []).
Proof.
  induction queue as [ | e queue IH]; [reflexivity | ].
  cbn [forallb]. intros Hq. apply andb_true_iff in Hq as [He Hq].
  destruct e; try discriminate; cbn; now rewrite (IH Hq).
Qed.

(** Putting signals and orders on the queue only extends the queue. *)
Lemma put_all_quiet (queue : list Event) (w : World U) :
  forallb is_signal_or_order queue = true ->
  fold_left put queue w = set_events w (events w ++ queue).
Proof.
  revert w. induction queue as [ | e queue IH]; intros w; cbn [forallb fold_left].
  - intros _. rewrite app_nil_r. destruct w; reflexivity.
  - intros Hq. apply andb_true_iff in Hq as [He Hq].
    rewrite (IH _ Hq). destruct e; try discriminate;
      cbn [put set_events events]; rewrite <- app_assoc; reflexivity.
Qed.

Lemma queue_weight_app (q1 q2 : list Event) :
  queue_weight (q1 ++ q2) = queue_weight q1 + queue_weight q2.
Proof. unfold queue_weight. now rewrite map_app, list_sum_app. Qed.

(** An order handled while no market event is queued is dropped: the
    queue, the portfolio and the strategy stay as they are and a warning is
    logged. *)
Lemma handle_order_event_quiet (order : OrderEvent) (w : World U) :
  forallb is_signal_or_order (events w) = true ->
  handle_order_event order w = warn w WarnNoMarketData.
Proof.
  intros Hq. unfold handle_order_event.
  rewrite (scan_for_market_quiet _ Hq).
  rewrite (put_all_quiet _ _ Hq). cbn [set_events events app].
  destruct w; reflexivity.
Qed.

(** Signals and orders alone drain without touching the portfolio, the
    strategy or the trace. *)
Lemma process_events_quiet (fuel : nat) (w : World U) :
  forallb is_signal_or_order (events w) = true ->
  queue_weight (events w) <= fuel ->
  exists w',
    process_events fuel w = Some w' /\ events w' = [] /\ same_books w w'.
Proof.
  revert w. induction fuel as [ | fuel IH]; intros w Hq Hfuel.
  - destruct (events w) as [ | e q] eqn:E.
    + exists w. cbn. rewrite E. auto using same_books_refl.
    + cbn in Hq. apply andb_true_iff in Hq as [He _].
      destruct e; try discriminate; cbn in Hfuel; lia.
  - destruct (events w) as [ | e q] eqn:E.
    + exists w. cbn. rewrite E. auto using same_books_refl.
    + cbn [process_events]. rewrite E.
      cbn [forallb] in Hq. apply andb_true_iff in Hq as [He Hq].
      change (queue_weight (e :: q)) with (event_weight e + queue_weight q)
        in Hfuel.
      destruct e as [m | s | o | f]; try discriminate; cbn [handle_event].
      * unfold handle_signal_event.
        cbn [config portfolio set_events].
        destruct (signal_to_order (config w) (portfolio w) s) as [order | ].
        -- destruct (IH (put (set_events w q) (EvOrder order)))
             as (w' & Hrun & Hempty & Hsame).
           ++ cbn. rewrite forallb_app, Hq. reflexivity.
           ++ cbn [put set_events events]. rewrite queue_weight_app.
              cbn [event_weight] in Hfuel. cbn. lia.
           ++ exists w'. split; [exact Hrun | ]. split; [exact Hempty | ].
              eapply same_books_trans; [ | exact Hsame].
              unfold same_books. cbn. auto 10.
        -- destruct (IH (set_events w q)) as (w' & Hrun & Hempty & Hsame).
           ++ exact Hq.
           ++ cbn [set_events events]. cbn [event_weight] in Hfuel. lia.
           ++ exists w'. split; [exact Hrun | ]. split; [exact Hempty | ].
              eapply same_books_trans; [apply same_books_set_events | exact Hsame].
      * rewrite handle_order_event_quiet by exact Hq.
        destruct (IH (warn (set_events w q) WarnNoMarketData))
          as (w' & Hrun & Hempty & Hsame).
        -- exact Hq.
        -- cbn [warn set_events events]. cbn [event_weight] in Hfuel. lia.
        -- exists w'. split; [exact Hrun | ]. split; [exact Hempty | ].
           eapply same_books_trans; [ | exact Hsame].
           unfold same_books. cbn. auto 10.
Qed.

End EventLoop.

Section TradingDay.
Context {U : Type} {impl : StrategyImpl U}.

Lemma same_ledger_refl (w : World U) : same_ledger w w.
Proof. unfold same_ledger. auto 10. Qed.

Lemma same_ledger_trans (w1 w2 w3 : World U) :
  same_ledger w1 w2 -> same_ledger w2 w3 -> same_ledger w1 w3.
Proof.
  unfold same_ledger.
  intros (-> & -> & -> & -> & ->) (-> & -> & -> & -> & ->). auto 10.
Qed.

(** Enqueueing the signal events of one [generate_signals] call. *)
Lemma put_signals (timestamp : Z) (signals : list Signal) (w : World U) :
  let w' := fold_left (fun w' signal =>
                         put w' (EvSignal (signal_event_of timestamp signal)))
                      signals w in
  events w' = events w
              ++ map (fun s => EvSignal (signal_event_of timestamp s)) signals /\
  same_ledger w w' /\ trace w' = trace w.
Proof.
  cbv zeta. revert w. induction signals as [ | signal signals IH]; intros w.
  - cbn. rewrite app_nil_r. auto using same_ledger_refl.
  - cbn [fold_left map].
    destruct (IH (put w (EvSignal (signal_event_of timestamp signal))))
      as (Hev & Hledger & Htrace).
    rewrite Hev, Htrace. cbn [put set_events events trace].
    rewrite <- app_assoc. split; [reflexivity | ]. split; [ | reflexivity].
    eapply same_ledger_trans; [ | exact Hledger].
    unfold same_ledger. cbn. auto 10.
Qed.

(** One pass of the loop over the symbols of a market event: the strategy
    is called once per symbol that has a bar, with the event's timestamp
    and that bar, and only signal events are enqueued. *)
Lemma handle_market_symbols (event : MarketEvent) (symbols : list string)
    (w : World U) :
  let w' := fold_left (handle_market_symbol event) symbols w in
  (exists signals, events w' = events w ++ map EvSignal signals) /\
  trace w' = trace w
             ++ flat_map (fun symbol =>
                            match Py.get symbol (me_data event) with
                            | Some bar =>
                                [ObsGenerateSignals (me_timestamp event) symbol bar]
                            | None => []
                            end)
                         symbols /\
  same_ledger w w'.
Proof.
  cbv zeta. revert w.
  induction symbols as [ | symbol symbols IH]; intros w.
  - cbn. rewrite app_nil_r. split; [ | auto using same_ledger_refl].
    exists []. cbn. now rewrite app_nil_r.
  - cbn [fold_left flat_map].
    destruct (IH (handle_market_symbol event w symbol))
      as ((later & Hev) & Htrace & Hledger).
    rewrite Hev, Htrace. clear IH Hev Htrace.
    unfold handle_market_symbol in *.
    destruct (Py.get symbol (me_data event)) as [bar | ].
    + destruct (generate_signals (strategy w) (me_timestamp event) (symbol, bar))
        as [s' signals].
      match goal with
      | |- context [fold_left ?f signals ?w1] =>
          destruct (put_signals (me_timestamp event) signals w1)
            as (Hev & Hledger1 & Htrace)
      end.
      cbv zeta in Hev, Hledger1, Htrace. rewrite Hev, Htrace.
      cbn [observe set_strategy events trace].
      split; [ | split].
      * exists (map (signal_event_of (me_timestamp event)) signals ++ later).
        rewrite map_app, map_map, <- app_assoc. reflexivity.
      * rewrite <- app_assoc. reflexivity.
      * eapply same_ledger_trans; [ | exact Hledger].
        eapply same_ledger_trans; [ | exact Hledger1].
        unfold same_ledger. cbn. auto 10.
    + split; [now exists later | ]. split; [reflexivity | exact Hledger].
Qed.

Lemma signals_are_quiet (signals : list SignalEvent) :
  forallb is_signal_or_order (map EvSignal signals) = true.
Proof. induction signals; cbn; auto. Qed.

(** One trading day from an empty queue: with a large enough bound the
    loop drains the queue; the strategy has been called once per bar of the
    day and the portfolio has only taken the day's snapshot. *)
Lemma run_day_spec (w : World U) (date : Z) (day_data : list Row) :
  events w = [] ->
  exists N, forall fuel, N <= fuel ->
    exists w',
      run_day fuel w (date, day_data) = Some w' /\
      events w' = [] /\
      trace w' = trace w ++ day_trace (date, day_data) /\
      config w' = config w /\
      portfolio w' =
        update_market_value (portfolio w)
          (close_prices (day_market_data day_data)) date.
Proof.
  intros Hempty.
  set (event := {| me_timestamp := date; me_data := day_market_data day_data |}).
  set (w1 := set_events (put (set_current_time w date) (EvMarket event)) []).
  destruct (handle_market_symbols event (get_symbols event) w1)
    as ((signals & Hev) & Htrace & Hledger).
  cbv zeta in Hev, Htrace, Hledger.
  fold (handle_market_event event w1) in Hev, Htrace, Hledger.
  set (w2 := handle_market_event event w1) in *.
  assert (Hq : events w2 = map EvSignal signals) by (rewrite Hev; reflexivity).
  exists (S (queue_weight (events w2))). intros fuel Hfuel.
  destruct fuel as [ | fuel]; [lia | ].
  destruct (process_events_quiet fuel w2) as (w3 & Hrun & Hdrained & Hsame).
  { rewrite Hq. apply signals_are_quiet. }
  { lia. }
  unfold run_day.
  cbn [put observe set_events set_current_time events process_events].
  rewrite Hempty. cbn [app handle_event].
  fold event. change (handle_market_event event _) with w2.
  rewrite Hrun.
  destruct Hsame as (Hc & Hp & _ & _ & _ & Ht).
  destruct Hledger as (Hc1 & Hp1 & _).
  exists (set_portfolio w3
            (update_market_value (portfolio w3)
               (close_prices (day_market_data day_data)) date)).
  split; [reflexivity | ].
  cbn [set_portfolio events trace config portfolio].
  rewrite Hdrained, Ht, Htrace, Hc, Hc1, Hp, Hp1.
  repeat split. subst w1.
  cbn [trace set_events put observe set_current_time events me_timestamp event].
  rewrite Hempty. unfold get_symbols. cbn [me_data me_timestamp event].
  rewrite (lookup_keys _ _ _ (day_market_data_keys day_data)).
  rewrite <- app_assoc. reflexivity.
Qed.

End TradingDay.

(** ** Grouping the frame by date *)

Lemma insert_row_hd (a : Z) (r : Row) (groups : list (Z * list Row)) :
  HdRel Z.lt a (map fst groups) -> (a < row_date r)%Z ->
  HdRel Z.lt a (map fst (insert_row r groups)).
Proof.
  destruct groups as [ | [d rs] groups]; cbn; intros Hhd Hlt.
  - now constructor.
  - destruct (row_date r <? d)%Z; [now constructor | ].
    destruct (row_date r =? d)%Z; cbn; constructor; now inversion Hhd.
Qed.

Lemma insert_row_sorted (r : Row) (groups : list (Z * list Row)) :
  Sorted Z.lt (map fst groups) -> Sorted Z.lt (map fst (insert_row r groups)).
Proof.
  induction groups as [ | [d rs] groups IH]; cbn; intros Hs.
  - repeat constructor.
  - destruct (row_date r <? d)%Z eqn:Hlt.
    + cbn. constructor; [exact Hs | ]. constructor. now apply Z.ltb_lt.
    + destruct (row_date r =? d)%Z eqn:Heq; cbn; [exact Hs | ].
      inversion Hs as [ | ? ? Hs' Hhd]; subst.
      constructor; [now apply IH | ].
      apply insert_row_hd; [exact Hhd | ].
      apply Z.ltb_ge in Hlt. apply Z.eqb_neq in Heq. lia.
Qed.

Lemma insert_row_well_dated (r : Row) (groups : list (Z * list Row)) :
  well_dated groups -> well_dated (insert_row r groups).
Proof.
  unfold well_dated.
  induction groups as [ | [d rs] groups IH]; cbn; intros Hwd date day_data row.
  - intros [[= <- <-] | []] [<- | []]. reflexivity.
  - destruct (row_date r <? d)%Z.
    + intros [[= <- <-] | Hin] Hrow.
      * destruct Hrow as [<- | []]. reflexivity.
      * eapply Hwd; eassumption.
    + destruct (row_date r =? d)%Z eqn:Heq.
      * intros [[= <- <-] | Hin] Hrow.
        -- apply in_app_or in Hrow as [Hrow | [<- | []]].
           ++ eapply Hwd; [left; reflexivity | exact Hrow].
           ++ now apply Z.eqb_eq.
        -- eapply Hwd; [right; exact Hin | exact Hrow].
      * intros [[= <- <-] | Hin] Hrow.
        -- eapply Hwd; [left; reflexivity | exact Hrow].
        -- eapply IH; [ | exact Hin | exact Hrow].
           intros date' day_data' row' Hin'. apply Hwd. now right.
Qed.

Lemma insert_row_in_groups (r : Row) (groups : list (Z * list Row)) :
  in_groups r (insert_row r groups).
Proof.
  unfold in_groups. induction groups as [ | [d rs] groups IH]; cbn.
  - exists [r]. cbn. auto.
  - destruct (row_date r <? d)%Z.
    + exists [r]. cbn. auto.
    + destruct (row_date r =? d)%Z eqn:Heq.
      * apply Z.eqb_eq in Heq. exists (rs ++ [r]). rewrite Heq.
        split; [now left | ]. apply in_or_app. cbn. auto.
      * destruct IH as (day_data & Hin & Hrow). exists day_data.
        split; [now right | exact Hrow].
Qed.

Lemma insert_row_keeps (r r' : Row) (groups : list (Z * list Row)) :
  in_groups r' groups -> in_groups r' (insert_row r groups).
Proof.
  unfold in_groups.
  induction groups as [ | [d rs] groups IH]; cbn;
    intros (day_data & Hin & Hrow); [contradiction | ].
  destruct (row_date r <? d)%Z.
  - exists day_data. split; [now right | exact Hrow].
  - destruct (row_date r =? d)%Z.
    + destruct Hin as [[= <- <-] | Hin].
      * exists (rs ++ [r]). split; [now left | ]. apply in_or_app. now left.
      * exists day_data. split; [now right | exact Hrow].
    + destruct Hin as [[= <- <-] | Hin].
      * exists rs. split; [now left | exact Hrow].
      * destruct IH as (day_data' & Hin' & Hrow').
        -- now exists day_data.
        -- exists day_data'. split; [now right | exact Hrow'].
Qed.

Lemma insert_row_from (r r' : Row) (groups : list (Z * list Row))
    (date : Z) (day_data : list Row) :
  In (date, day_data) (insert_row r groups) -> In r' day_data ->
  r' = r \/ exists day_data', In (date, day_data') groups /\ In r' day_data'.
Proof.
  induction groups as [ | [d rs] groups IH]; cbn.
  - intros [[= <- <-] | []] [<- | []]. now left.
  - destruct (row_date r <? d)%Z.
    + intros [[= <- <-] | Hin] Hrow.
      * destruct Hrow as [<- | []]. now left.
      * right. now exists day_data.
    + destruct (row_date r =? d)%Z.
      * intros [[= <- <-] | Hin] Hrow.
        -- apply in_app_or in Hrow as [Hrow | [<- | []]]; [ | now left].
           right. exists rs. auto.
        -- right. exists day_data. auto.
      * intros [[= <- <-] | Hin] Hrow.
        -- right. exists rs. auto.
        -- destruct (IH Hin Hrow) as [-> | (day_data' & Hin' & Hrow')];
             [now left | ].
           right. exists day_data'. auto.
Qed.

(** The groups of [groupby('date')] have strictly ascending dates, hold
    rows of their own date only, hold rows of the frame only, and hold
    every row of the frame. *)
Lemma groupby_date_spec (rows : list Row) :
  Sorted Z.lt (map fst (groupby_date rows)) /\
  well_dated (groupby_date rows) /\
  (forall date day_data row,
      In (date, day_data) (groupby_date rows) -> In row day_data ->
      In row rows) /\
  (forall row, In row rows -> in_groups row (groupby_date rows)).
Proof.
  unfold groupby_date.
  assert (Hgen : forall acc,
    Sorted Z.lt (map fst acc) -> well_dated acc ->
    let groups := fold_left (fun g r => insert_row r g) rows acc in
    Sorted Z.lt (map fst groups) /\ well_dated groups /\
    (forall date day_data row,
        In (date, day_data) groups -> In row day_data ->
        In row rows \/
        exists day_data', In (date, day_data') acc /\ In row day_data') /\
    (forall row, In row rows \/ in_groups row acc -> in_groups row groups)).
  { induction rows as [ | r rows IH]; intros acc Hs Hwd; cbn.
    - repeat split; try assumption.
      + intros date day_data row Hin Hrow. right. now exists day_data.
      + intros row [[] | Hin]. exact Hin.
    - destruct (IH (insert_row r acc)) as (Hs' & Hwd' & Hfrom & Hall).
      + now apply insert_row_sorted.
      + now apply insert_row_well_dated.
      + cbv zeta in *. repeat split; try assumption.
        * intros date day_data row Hin Hrow.
          destruct (Hfrom _ _ _ Hin Hrow) as [Hr | (day_data' & Hin' & Hrow')];
            [now left; right | ].
          destruct (insert_row_from _ _ _ _ _ Hin' Hrow') as [-> | Hacc];
            [now left; left | now right].
        * intros row [[<- | Hin] | Hin]; apply Hall.
          -- right. apply insert_row_in_groups.
          -- now left.
          -- right. now apply insert_row_keeps. }
  destruct (Hgen []) as (Hs & Hwd & Hfrom & Hall).
  - constructor.
  - intros date day_data row [].
  - cbv zeta in *. repeat split; try assumption.
    + intros date day_data row Hin Hrow.
      destruct (Hfrom _ _ _ Hin Hrow) as [Hr | (day_data' & [] & _)].
      exact Hr.
    + intros row Hin. apply Hall. now left.
Qed.

Lemma in_set (V : Type) (k k' : string) (v v' : V) (d : Py.dict V) :
  In (k, v) (Py.set k' v' d) -> (k = k' /\ v = v') \/ In (k, v) d.
Proof.
  induction d as [ | [k0 v0] d IH]; cbn.
  - intros [[= <- <-] | []]. now left.
  - destruct (String.eqb k' k0) eqn:E.
    + apply String.eqb_eq in E. subst k0.
      intros [[= <- <-] | Hin]; [now left | right; now right].
    + intros [Heq | Hin]; [right; now left | ].
      destruct (IH Hin) as [Hnew | Hold]; [now left | right; now right].
Qed.

(** Every bar of a day's market event is the bar of one of the day's
    rows, under that row's ticker. *)
Lemma day_market_data_from_rows (day_data : list Row) (symbol : string)
    (bar : BarData) :
  In (symbol, bar) (day_market_data day_data) ->
  exists row,
    In row day_data /\ row_ticker row = symbol /\ bar = bar_of_row row.
Proof.
  unfold day_market_data.
  assert (Hgen : forall acc,
    In (symbol, bar)
       (fold_left (fun market_data row =>
                     Py.set (row_ticker row) (bar_of_row row) market_data)
                  day_data acc) ->
    In (symbol, bar) acc \/
    exists row,
      In row day_data /\ row_ticker row = symbol /\ bar = bar_of_row row).
  { induction day_data as [ | r day_data IH]; intros acc; cbn; [now left | ].
    intros Hin. destruct (IH _ Hin) as [Hacc | (row & Hrow & Hk & Hv)].
    - destruct (in_set _ _ _ _ _ _ Hacc) as [[-> ->] | Hold]; [ | now left].
      right. exists r. auto.
    - right. exists row. auto. }
  intros Hin. destruct (Hgen _ Hin) as [[] | Hrow]. exact Hrow.
Qed.

(** ** Whole runs *)

Lemma snapshot_days_ledger (groups : list (Z * list Row)) (p : Portfolio) :
  cash (snapshot_days p groups) = cash p /\
  positions (snapshot_days p groups) = positions p /\
  List.length (history (snapshot_days p groups))
    = List.length (history p) + List.length groups /\
  (forall snap,
      In snap (history (snapshot_days p groups)) ->
      In snap (history p) \/
      (snap_cash snap = cash p /\ snap_positions snap = positions p)).
Proof.
  unfold snapshot_days. revert p.
  induction groups as [ | [date day_data] groups IH]; intros p.
  - cbn. repeat split; auto.
  - cbn [fold_left].
    destruct (IH (update_market_value p
                    (close_prices (day_market_data day_data)) date))
      as (Hcash & Hpos & Hlen & Hsnaps).
    rewrite Hcash, Hpos, Hlen. cbn [cash positions history update_market_value].
    rewrite length_app. cbn [List.length]. repeat split; try lia.
    intros snap Hin. destruct (Hsnaps snap Hin) as [Hold | Hnew]; [ | now right].
    cbn [history update_market_value] in Hold.
    apply in_app_or in Hold as [Hold | [<- | []]]; [now left | right].
    cbn. auto.
Qed.

Section Runs.
Context {U : Type} {impl : StrategyImpl U}.

Lemma run_day_more_fuel (fuel fuel' : nat) (w w' : World U)
    (group : Z * list Row) :
  run_day fuel w group = Some w' -> fuel <= fuel' ->
  run_day fuel' w group = Some w'.
Proof.
  destruct group as [date day_data]. unfold run_day.
  match goal with
  | |- context [process_events fuel ?w1] =>
      destruct (process_events fuel w1) as [w2 | ] eqn:Hrun
  end; [ | discriminate].
  intros Hw Hle. now rewrite (process_events_more_fuel _ _ _ _ Hrun Hle).
Qed.

Lemma run_days_more_fuel (fuel fuel' : nat) (groups : list (Z * list Row))
    (w w' : World U) :
  run_days fuel w groups = Some w' -> fuel <= fuel' ->
  run_days fuel' w groups = Some w'.
Proof.
  revert w. induction groups as [ | g groups IH]; intros w; cbn.
  - auto.
  - destruct (run_day fuel w g) as [w1 | ] eqn:Hday; [ | discriminate].
    intros Hrest Hle. rewrite (run_day_more_fuel _ _ _ _ _ Hday Hle).
    now apply IH.
Qed.

(** The main loop of [run] from an empty queue: with a large enough bound
    it completes; the trace is the concatenation of the days' traces and
    the portfolio has only taken one snapshot per day. *)
Lemma run_days_spec (groups : list (Z * list Row)) (w : World U) :
  events w = [] ->
  exists N w',
    (forall fuel, N <= fuel -> run_days fuel w groups = Some w') /\
    events w' = [] /\
    trace w' = trace w ++ flat_map day_trace groups /\
    config w' = config w /\
    portfolio w' = snapshot_days (portfolio w) groups.
Proof.
  revert w. induction groups as [ | [date day_data] groups IH]; intros w Hempty.
  - exists 0, w. cbn. rewrite app_nil_r. auto.
  - destruct (run_day_spec w date day_data Hempty) as [N1 Hday].
    destruct (Hday N1 (le_n _)) as (w1 & Hrun1 & Hempty1 & Ht1 & Hc1 & Hp1).
    destruct (IH w1 Hempty1) as (N2 & w2 & Hrun2 & Hempty2 & Ht2 & Hc2 & Hp2).
    exists (Nat.max N1 N2), w2. split; [ | split; [exact Hempty2 | ]].
    + intros fuel Hfuel. cbn [run_days].
      rewrite (run_day_more_fuel _ fuel _ _ _ Hrun1) by lia.
      apply Hrun2. lia.
    + rewrite Ht2, Ht1, Hc2, Hc1, Hp2, Hp1.
      cbn [flat_map snapshot_days fold_left]. rewrite <- app_assoc.
      repeat split.
Qed.

(** A run over a frame that is not empty completes, whatever the
    configuration and the strategy: its trace is the two set-up calls
    followed by the days' traces, and its portfolio is the initial one with
    one snapshot per day. *)
Lemma run_spec (c : Config) (s : BaseStrategy U) (row : Row) (rows : list Row) :
  let market_data := row :: rows in
  exists N w',
    (forall fuel, N <= fuel ->
       run fuel (BacktestEngine_init c s) market_data = Completed w') /\
    events w' = [] /\
    trace w' = ObsSetData market_data :: ObsInitialize
               :: flat_map day_trace (groupby_date market_data) /\
    config w' = c /\
    portfolio w' =
      snapshot_days (Portfolio_init (bc_initial_capital (backtest c))
                                    (bc_commission (backtest c)))
                    (groupby_date market_data).
Proof.
  cbv zeta. unfold run.
  match goal with
  | |- context [run_days _ ?w0 _] =>
      destruct (run_days_spec (groupby_date (row :: rows)) w0)
        as (N & w' & Hrun & Hempty & Ht & Hc & Hp); [reflexivity | ]
  end.
  exists N, w'. split; [ | split; [exact Hempty | ]].
  - intros fuel Hfuel. now rewrite (Hrun fuel Hfuel).
  - rewrite Ht, Hc, Hp. repeat split.
Qed.

End Runs.

Lemma groupby_date_dates (rows : list Row) (row : Row) :
  In row rows -> In (row_date row) (map fst (groupby_date rows)).
Proof.
  intros Hin.
  destruct (groupby_date_spec rows) as (_ & _ & _ & Hall).
  destruct (Hall row Hin) as (day_data & Hgroup & _).
  apply (in_map fst) in Hgroup. exact Hgroup.
Qed.

Lemma groupby_date_nonempty (row : Row) (rows : list Row) :
  1 <= List.length (groupby_date (row :: rows)).
Proof.
  pose proof (groupby_date_dates (row :: rows) row (or_introl eq_refl)) as Hin.
  destruct (groupby_date (row :: rows)); [contradiction | cbn; lia].
Qed.

(** C8: a run calls [generate_signals] day by day in ascending date order.
    On each day one market event is enqueued, on an empty queue, and the
    strategy is then called once per bar of that event with the day's date
    and a bar built from a row of that date; the calls of a day all come
    before the next day's market event is enqueued. *)
Theorem C8_no_look_ahead (U : Type) (impl : StrategyImpl U) (c : Config)
    (s : BaseStrategy U) (row : Row) (rows : list Row) :
  let market_data := row :: rows in
  let days := groupby_date market_data in
  exists N w',
    (forall fuel, N <= fuel ->
       run fuel (BacktestEngine_init c s) market_data = Completed w') /\
    trace w' = ObsSetData market_data :: ObsInitialize
               :: flat_map day_trace days /\
    events w' = [] /\
    Sorted Z.lt (map fst days) /\
    (forall date day_data symbol bar,
        In (date, day_data) days ->
        In (symbol, bar) (day_market_data day_data) ->
        exists r,
          In r market_data /\ row_date r = date /\
          row_ticker r = symbol /\ bar = bar_of_row r) /\
    (forall r, In r market_data -> In (row_date r) (map fst days)).
Proof.
  cbv zeta.
  destruct (run_spec c s row rows) as (N & w' & Hrun & Hempty & Ht & _ & _).
  destruct (groupby_date_spec (row :: rows)) as (Hsorted & Hdated & Hfrom & _).
  exists N, w'. repeat split; try assumption.
  - intros date day_data symbol bar Hgroup Hbar.
    destruct (day_market_data_from_rows _ _ _ Hbar) as (r & Hr & Hk & Hv).
    exists r. repeat split; try assumption.
    + eapply Hfrom; eassumption.
    + eapply Hdated; eassumption.
  - apply groupby_date_dates.
Qed.

(** Three rows given out of date order, two symbols on the first day: the
    strategy sees day 1 (AAPL, then MSFT) before day 2, and each market
    event is enqueued on an empty queue. *)
Example two_day_trace :
  let frame := [ mkRow 2 "AAPL" 101 103 100 102 900;
                 mkRow 1 "AAPL" 100 100 100 100 1000;
                 mkRow 1 "MSFT" 50 51 49 50 700 ] in
  exists w',
    run (impl := Demo.buy_at_close) 5
        (BacktestEngine_init default_config Demo.fresh_strategy) frame
      = Completed w' /\
    trace w' =
      [ ObsSetData frame; ObsInitialize;
        ObsPutMarket 1 0;
        ObsGenerateSignals 1 "AAPL" (mkBarData 100 100 100 100 1000);
        ObsGenerateSignals 1 "MSFT" (mkBarData 50 51 49 50 700);
        ObsPutMarket 2 0;
        ObsGenerateSignals 2 "AAPL" (mkBarData 101 103 100 102 900) ] /\
    map snap_timestamp (history (portfolio w')) = [1%Z; 2%Z].
Proof.
  cbv zeta. eexists. split; [vm_compute; reflexivity | ].
  split; vm_compute; reflexivity.
Qed.

(** [validate] is a total boolean test of the six conditions. *)
Lemma validate_spec (c : Config) :
  validate c =
    negb (bc_initial_capital (backtest c) <=? 0)%float
    && negb (bc_commission (backtest c) <? 0)%float
    && negb (bc_slippage (backtest c) <? 0)%float
    && ((0 <? rc_max_position_size (risk c))%float
        && (rc_max_position_size (risk c) <=? 1)%float)
    && negb (rc_stop_loss_pct (risk c) <? 0)%float
    && ((0 <? rc_max_drawdown (risk c))%float
        && (rc_max_drawdown (risk c) <=? 1)%float).
Proof.
  unfold validate, validation_errors.
  destruct (bc_initial_capital (backtest c) <=? 0)%float;
    destruct (bc_commission (backtest c) <? 0)%float;
    destruct (bc_slippage (backtest c) <? 0)%float;
    destruct (0 <? rc_max_position_size (risk c))%float;
    destruct (rc_max_position_size (risk c) <=? 1)%float;
    destruct (rc_stop_loss_pct (risk c) <? 0)%float;
    destruct (0 <? rc_max_drawdown (risk c))%float;
    destruct (rc_max_drawdown (risk c) <=? 1)%float; reflexivity.
Qed.

(** C7 as stated fails: with a negative commission rate and a position
    fraction of 2 the configuration is invalid, [validate] says so, and a
    run over one trading day still completes and records that day's equity
    snapshot, with the strategy's methods taken as returning and taken as
    free to raise alike. *)
Lemma C7_invalid_config_run_completes :
  let cfg := {| backtest := mkBacktestConfig 100000 (-0.001) 0.0005 1;
                risk := mkRiskConfig 2 0.02 0.15 1 "fixed_fractional" |} in
  validate cfg = false /\
  exists w',
    run (impl := Demo.buy_at_close) 3
        (BacktestEngine_init cfg Demo.fresh_strategy) Demo.one_day
      = Completed w' /\
    Raising.run (strategy_class := returning Demo.buy_at_close) 3
        (BacktestEngine_init cfg Demo.fresh_strategy) Demo.one_day
      = Completed w' /\
    map snap_timestamp (history (portfolio w')) = [1%Z] /\
    map snap_total_value (history (portfolio w')) = [100000%float].
Proof.
  cbv zeta. split; [vm_compute; reflexivity | ].
  eexists. split; [vm_compute; reflexivity | ].
  split; [vm_compute; reflexivity | ].
  split; vm_compute; reflexivity.
Qed.

(** No run ever trades: whatever the strategy signals, the cash and the
    ledger at the end of a run are those of the start, every snapshot shows
    them, and no position is ever reported to the strategy as opened. *)
Lemma run_never_trades (U : Type) (impl : StrategyImpl U) (c : Config)
    (s : BaseStrategy U) (row : Row) (rows : list Row) :
  exists N w',
    (forall fuel, N <= fuel ->
       run fuel (BacktestEngine_init c s) (row :: rows) = Completed w') /\
    cash (portfolio w') = bc_initial_capital (backtest c) /\
    positions (portfolio w') = [] /\
    (forall snap,
        In snap (history (portfolio w')) ->
        snap_cash snap = bc_initial_capital (backtest c) /\
        snap_positions snap = []) /\
    (forall position, ~ In (ObsPositionOpened position) (trace w')).
Proof.
  destruct (run_spec c s row rows) as (N & w' & Hrun & _ & Ht & _ & Hp).
  destruct (snapshot_days_ledger (groupby_date (row :: rows))
              (Portfolio_init (bc_initial_capital (backtest c))
                              (bc_commission (backtest c))))
    as (Hcash & Hpos & _ & Hsnaps).
  exists N, w'. rewrite Hp, Hcash, Hpos.
  split; [exact Hrun | ]. split; [reflexivity | ]. split; [reflexivity | ].
  split.
  - intros snap Hin. destruct (Hsnaps snap Hin) as [[] | Hnew]. exact Hnew.
  - intros position. rewrite Ht. cbn [In].
    intros [Hin | [Hin | Hin]]; try discriminate.
    apply in_flat_map in Hin as ([date day_data] & _ & Hin).
    cbn [day_trace In] in Hin. destruct Hin as [Hin | Hin]; [discriminate | ].
    apply in_map_iff in Hin as ([symbol bar] & Hin & _). discriminate.
Qed.

(** C1, at an input where the code departs from it: on a day with an AAPL
    bar closing at 100 the strategy signals a Buy at 100; the router turns
    it into a buy order of 100 shares, the bar is in that day's market
    event and the portfolio can afford the order, so a fill at 100.05 is
    due. The run drops the order with the warning that no market data is
    available: the day's snapshot shows the initial cash and no position. *)
Theorem C1_affordable_order_is_dropped :
  let w0 := @BacktestEngine_init unit default_config Demo.fresh_strategy in
  let signal := mkSignalEvent 1 "AAPL" 1 1.0 (Some 100%float) None in
  let order := mkOrderEvent 1 "AAPL" MARKET 100 BUY in
  signal_to_order (config w0) (portfolio w0) signal = Some order /\
  get_price Demo.aapl_event "AAPL" = Some 100%float /\
  fst (can_afford (portfolio w0) order 100) = true /\
  option_map fe_fill_price
    (execute_order (execution_handler w0) order Demo.aapl_event)
    = Some 100.05%float /\
  exists w',
    run (impl := Demo.buy_at_close) 3 w0 Demo.one_day = Completed w' /\
    log w' = [WarnNoMarketData] /\
    trace w' = [ObsSetData Demo.one_day; ObsInitialize; ObsPutMarket 1 0;
                ObsGenerateSignals 1 "AAPL" (mkBarData 100 100 100 100 1000)] /\
    history (portfolio w') = [mkSnapshot 1 100000 0 100000 []] /\
    cash (portfolio w') = 100000%float /\
    positions (portfolio w') = [].
Proof.
  cbv zeta. repeat (split; [vm_compute; reflexivity | ]).
  eexists. split; [vm_compute; reflexivity | ].
  repeat split; vm_compute; reflexivity.
Qed.

(** ** Further properties of the ledger, the executor and the router *)

Lemma defaultdict_getitem_value (k : string) (p : Portfolio) :
  fst (Py.defaultdict_getitem k (positions p)) = get_position p k.
Proof.
  unfold Py.defaultdict_getitem, get_position.
  destruct (Py.get k (positions p)); reflexivity.
Qed.

Lemma defaultdict_getitem_others (k k' : string) (d : Py.dict float) :
  k <> k' ->
  Py.get k' (snd (Py.defaultdict_getitem k d)) = Py.get k' d.
Proof.
  intros Hk. unfold Py.defaultdict_getitem.
  destruct (Py.get k d); cbn [snd]; [reflexivity | ].
  now apply get_set_other.
Qed.

(** [execute_fill]: a Buy takes the traded amount plus the commission out
    of the cash and adds the quantity to the symbol's position; a Sell adds
    the traded amount less the commission to the cash and takes the
    quantity off the position. No other position, and no snapshot, is
    touched, and the cash is not checked. *)
Theorem execute_fill_ledger (p : Portfolio) (fill : FillEvent) :
  let p' := execute_fill p fill in
  let amount := (fe_quantity fill * fe_fill_price fill)%float in
  (fe_direction fill = BUY ->
   cash p' = (cash p - (amount + fe_commission fill))%float /\
   get_position p' (fe_symbol fill)
     = (get_position p (fe_symbol fill) + fe_quantity fill)%float) /\
  (fe_direction fill = SELL ->
   cash p' = (cash p + (amount - fe_commission fill))%float /\
   get_position p' (fe_symbol fill)
     = (get_position p (fe_symbol fill) - fe_quantity fill)%float) /\
  (forall other, other <> fe_symbol fill ->
     get_position p' other = get_position p other) /\
  history p' = history p /\
  portfolio_value p' = portfolio_value p.
Proof.
  cbv zeta. unfold execute_fill.
  pose proof (defaultdict_getitem_value (fe_symbol fill) p) as Hold.
  pose proof (fun other (Hk : other <> fe_symbol fill) =>
                defaultdict_getitem_others (fe_symbol fill) other (positions p)
                  (not_eq_sym Hk)) as Hothers.
  destruct (Py.defaultdict_getitem (fe_symbol fill) (positions p)) as [old ps].
  cbn [fst snd] in Hold, Hothers. subst old.
  destruct (fe_direction fill); (split; [ | split; [ | split; [ | split]]]);
    try (intros; discriminate); try reflexivity.
  - intros _. split; [reflexivity | apply get_position_set].
  - intros other Hk. unfold get_position at 1. cbn [positions with_cash_positions].
    rewrite get_set_other by (now apply not_eq_sym).
    rewrite (Hothers other Hk). reflexivity.
  - intros _. split; [reflexivity | apply get_position_set].
  - intros other Hk. unfold get_position at 1. cbn [positions with_cash_positions].
    rewrite get_set_other by (now apply not_eq_sym).
    rewrite (Hothers other Hk). reflexivity.
Qed.

(** The router sends no order for a Hold signal, for a Buy signal while
    long and for a Sell signal while short; a Sell signal while long sells
    the whole position. *)
Theorem signal_to_order_other_cases (c : Config) (p : Portfolio)
    (event : SignalEvent) :
  let position := get_position p (se_symbol event) in
  (se_signal_type event <> 1%Z -> se_signal_type event <> (-1)%Z ->
   signal_to_order c p event = None) /\
  (se_signal_type event = 1%Z -> (position <=? 0)%float = false ->
   signal_to_order c p event = None) /\
  (se_signal_type event = (-1)%Z -> Py.geb position 0 = false ->
   signal_to_order c p event = None) /\
  (se_signal_type event = (-1)%Z -> Py.gtb position 0 = true ->
   signal_to_order c p event
     = Some (mkOrderEvent (se_timestamp event) (se_symbol event) MARKET
                          position SELL)).
Proof.
  cbv zeta. unfold signal_to_order. repeat split.
  - intros H1 H2. apply Z.eqb_neq in H1, H2. now rewrite H1, H2.
  - intros -> Hp. cbn [Z.eqb Pos.eqb]. now rewrite Hp.
  - intros -> Hp. cbn [Z.eqb]. now rewrite Hp.
  - intros -> Hp. cbn [Z.eqb].
    unfold Py.gtb in Hp. unfold Py.geb.
    rewrite (ltb_leb _ _ Hp), (gt_zero_not_eqb _ Hp). reflexivity.
Qed.

(** * Further properties *)

(** ** More facts about binary64 floats *)

Lemma Prim2SF_infinity : Prim2SF infinity = S754_infinity false.
Proof. reflexivity. Qed.

Lemma SFcompare_Lt_Gt (x y : spec_float) :
  SFcompare x y = Some Lt -> SFcompare y x = Some Gt.
Proof.
  destruct x as [sx | sx | | sx mx ex], y as [sy | sy | | sy my ey]; cbn;
    try discriminate;
    try (destruct sx; try discriminate; try reflexivity;
         destruct sy; try discriminate; reflexivity);
    try (destruct sy; try discriminate; reflexivity).
  destruct sx, sy; try discriminate; try reflexivity;
    rewrite (Z.compare_antisym ex ey);
    destruct (ex ?= ey)%Z; cbn [CompOpp]; try discriminate; try reflexivity;
    change (Pos.compare_cont Eq my mx)
      with (Pos.compare_cont (CompOpp Eq) my mx);
    rewrite <- Pos.compare_cont_antisym;
    destruct (Pos.compare_cont Eq mx my); cbn; try discriminate; reflexivity.
Qed.

Lemma ltb_asym (x y : float) :
  (x <? y)%float = true -> (y <? x)%float = false.
Proof.
  rewrite !ltb_spec. unfold SFltb.
  destruct (SFcompare (Prim2SF x) (Prim2SF y)) as [[ | | ] | ] eqn:E;
    try discriminate.
  intros _. now rewrite (SFcompare_Lt_Gt _ _ E).
Qed.

Lemma ltb_irrefl (x : float) : (x <? x)%float = false.
Proof.
  destruct (x <? x)%float eqn:E; [ | reflexivity].
  now rewrite (ltb_asym _ _ E) in E.
Qed.

(** A finite float is a zero or a finite number. *)
Lemma is_finite_inv (x : float) :
  is_finite x = true ->
  (exists s, Prim2SF x = S754_zero s) \/
  (exists s m e, Prim2SF x = S754_finite s m e).
Proof.
  unfold is_finite. rewrite ltb_spec, abs_spec, Prim2SF_infinity.
  destruct (Prim2SF x) as [s | s | | s m e]; cbn; try discriminate; intros _.
  - left. now exists s.
  - right. now exists s, m, e.
Qed.

Lemma positive_finite_inv (x : float) :
  (0 <? x)%float = true -> (x <? infinity)%float = true ->
  exists m e, Prim2SF x = S754_finite false m e.
Proof.
  rewrite !ltb_spec, Prim2SF_zero, Prim2SF_infinity.
  destruct (Prim2SF x) as [s | s | | s m e]; cbn; try discriminate.
  - destruct s; discriminate.
  - destruct s; try discriminate. intros _ _. now exists m, e.
Qed.

(** [x - x] is [0.0] for every finite [x]. *)
Lemma sub_self (x : float) : is_finite x = true -> (x - x)%float = 0%float.
Proof.
  intros Hx. apply Prim2SF_inj. rewrite sub_spec, Prim2SF_zero.
  destruct (is_finite_inv x Hx) as [[s E] | (s & m & e & E)]; rewrite E.
  - destruct s; reflexivity.
  - unfold SF64sub, SFsub. rewrite Z.sub_diag. reflexivity.
Qed.

(** [(0.0 + q) - q] is [0.0] for every finite [q]. *)
Lemma add_then_sub (q : float) :
  is_finite q = true -> (0 + q - q)%float = 0%float.
Proof.
  intros Hq. apply Prim2SF_inj.
  rewrite sub_spec, add_spec, Prim2SF_zero.
  destruct (is_finite_inv q Hq) as [[s E] | (s & m & e & E)]; rewrite E.
  - destruct s; reflexivity.
  - unfold SF64add, SFadd, SF64sub, SFsub. rewrite Z.sub_diag. reflexivity.
Qed.

Lemma add_zero_finite (x : float) (s : bool) (m : positive) (e : Z) :
  Prim2SF x = S754_finite s m e -> (x + 0)%float = x.
Proof.
  intros E. apply Prim2SF_inj. rewrite add_spec, Prim2SF_zero, E. reflexivity.
Qed.

(** [(x - x) / x] is [0.0] for every positive finite [x]. *)
Lemma no_change_ratio (x : float) :
  (0 <? x)%float = true -> (x <? infinity)%float = true ->
  ((x - x) / x)%float = 0%float.
Proof.
  intros Hpos Hfin.
  destruct (positive_finite_inv x Hpos Hfin) as (m & e & E).
  assert (Hx : is_finite x = true).
  { unfold is_finite. rewrite ltb_spec, abs_spec, Prim2SF_infinity, E.
    reflexivity. }
  rewrite (sub_self x Hx). apply Prim2SF_inj.
  rewrite div_spec, Prim2SF_zero, E. reflexivity.
Qed.

(** A float that is not NaN is above, below or equal to zero, and only one
    of the three. *)
Lemma sign_cases (x : float) :
  Metrics.isnan x = false ->
  (Py.gtb x 0 = true /\ (x <? 0)%float = false /\ (x =? 0)%float = false) \/
  (Py.gtb x 0 = false /\ (x <? 0)%float = true /\ (x =? 0)%float = false) \/
  (Py.gtb x 0 = false /\ (x <? 0)%float = false /\ (x =? 0)%float = true).
Proof.
  intros Hx. apply isnan_false in Hx. unfold Py.gtb.
  rewrite !ltb_spec, eqb_spec, Prim2SF_zero.
  destruct (Prim2SF x) as [s | s | | s m e]; try congruence;
    destruct s; cbn; auto 10.
Qed.

Lemma nan_sign (x : float) :
  Metrics.isnan x = true ->
  Py.gtb x 0 = false /\ (x <? 0)%float = false /\ (x =? 0)%float = false.
Proof.
  unfold Metrics.isnan, Py.gtb. rewrite !ltb_spec, !eqb_spec, Prim2SF_zero.
  unfold SFeqb at 1.
  destruct (Prim2SF x) as [s | s | | s m e];
    try (rewrite SFcompare_refl by discriminate; discriminate).
  intros _. repeat split.
Qed.

(** [abs x] is never below zero. *)
Lemma abs_not_negative (x : float) : (abs x <? 0)%float = false.
Proof.
  rewrite ltb_spec, abs_spec, Prim2SF_zero.
  destruct (Prim2SF x) as [s | s | | s m e]; reflexivity.
Qed.

(** ** More facts about dicts *)

Lemma set_absent (V : Type) (k : string) (v : V) (d : Py.dict V) :
  Py.get k d = None -> Py.set k v d = d ++ [(k, v)].
Proof.
  induction d as [ | [k' v'] d IH]; cbn; [reflexivity | ].
  destruct (String.eqb k k'); [discriminate | ].
  intros Hg. now rewrite IH.
Qed.

Lemma get_last (V : Type) (k : string) (v : V) (d : Py.dict V) :
  Py.get k d = None -> Py.get k (d ++ [(k, v)]) = Some v.
Proof.
  induction d as [ | [k' v'] d IH]; cbn.
  - now rewrite String.eqb_refl.
  - destruct (String.eqb k k'); [discriminate | exact IH].
Qed.

Lemma set_last (V : Type) (k : string) (v v' : V) (d : Py.dict V) :
  Py.get k d = None -> Py.set k v' (d ++ [(k, v)]) = d ++ [(k, v')].
Proof.
  induction d as [ | [k0 v0] d IH]; cbn.
  - now rewrite String.eqb_refl.
  - destruct (String.eqb k k0); [discriminate | ].
    intros Hg. now rewrite IH.
Qed.

(** ** The ledger under queries and round trips *)

(** [can_afford] answers a Buy from the cash and a Sell from the ledger
    quantity of the symbol, [0.0] when it has none. The call leaves the
    cash, the history and [portfolio_value] as they are, and the quantity
    [get_position] reports for every symbol; a Buy query, and a Sell query
    for a symbol in the ledger, leave the whole portfolio as it is. *)
Theorem can_afford_frame (p : Portfolio) (order : OrderEvent)
    (current_price : float) :
  let answer := fst (can_afford p order current_price) in
  let p' := snd (can_afford p order current_price) in
  answer =
    match oe_direction order with
    | BUY =>
        Py.geb (cash p)
          (oe_quantity order * current_price * (1 + commission p))%float
    | SELL => Py.geb (get_position p (oe_symbol order)) (oe_quantity order)
    end /\
  cash p' = cash p /\
  history p' = history p /\
  portfolio_value p' = portfolio_value p /\
  (forall symbol, get_position p' symbol = get_position p symbol) /\
  (oe_direction order = BUY -> p' = p) /\
  (forall held,
      Py.get (oe_symbol order) (positions p) = Some held ->
      positions p' = positions p).
Proof.
  cbv zeta. unfold can_afford.
  destruct (oe_direction order).
  - cbn [fst snd]. repeat split; reflexivity.
  - unfold Py.defaultdict_getitem, get_position.
    destruct (Py.get (oe_symbol order) (positions p)) as [held | ] eqn:Hheld;
      cbn [fst snd cash history portfolio_value positions with_cash_positions].
    + repeat split; try reflexivity. intros; discriminate.
    + repeat split; try reflexivity; try (intros; discriminate).
      intros symbol.
      destruct (String.eqb (oe_symbol order) symbol) eqn:E.
      * apply String.eqb_eq in E. subst symbol.
        now rewrite get_set_same, Hheld.
      * apply String.eqb_neq in E. now rewrite get_set_other.
Qed.

(** Buying a finite quantity of a symbol that has no ledger entry and then
    selling the same quantity leaves the symbol in the ledger with the
    quantity [0.0], as the last key; such an entry adds nothing to a
    snapshot. *)
Theorem full_close_keeps_key (p : Portfolio) (symbol : string)
    (q buy_price buy_commission sell_price sell_commission : float)
    (buy_time sell_time : Z) :
  Py.get symbol (positions p) = None ->
  is_finite q = true ->
  let bought :=
    execute_fill p
      (mkFillEvent buy_time symbol q BUY buy_price buy_commission 0) in
  let closed :=
    execute_fill bought
      (mkFillEvent sell_time symbol q SELL sell_price sell_commission 0) in
  positions closed = positions p ++ [(symbol, 0%float)] /\
  get_position closed symbol = 0%float /\
  (forall current_prices,
      held_values current_prices (positions closed)
      = held_values current_prices (positions p)).
Proof.
  intros Habsent Hq. cbv zeta.
  assert (Hpos :
    positions
      (execute_fill
         (execute_fill p
            (mkFillEvent buy_time symbol q BUY buy_price buy_commission 0))
         (mkFillEvent sell_time symbol q SELL sell_price sell_commission 0))
    = positions p ++ [(symbol, 0%float)]).
  { unfold execute_fill at 2.
    cbn [fe_direction fe_symbol fe_quantity fe_fill_price fe_commission].
    rewrite (defaultdict_getitem_absent _ _ Habsent).
    rewrite (set_absent _ _ _ _ Habsent), (set_last _ _ _ _ _ Habsent).
    unfold execute_fill.
    cbn [fe_direction fe_symbol fe_quantity fe_fill_price fe_commission
         positions with_cash_positions].
    rewrite (defaultdict_getitem_present _ _ _ (get_last _ _ _ _ Habsent)).
    cbn [positions with_cash_positions].
    rewrite (set_last _ _ _ _ _ Habsent), (add_then_sub q Hq). reflexivity. }
  split; [exact Hpos | ]. split.
  - unfold get_position. rewrite Hpos, (get_last _ _ _ _ Habsent). reflexivity.
  - intros current_prices. rewrite Hpos. unfold held_values.
    rewrite flat_map_app. cbn [flat_map].
    destruct (Py.get symbol current_prices); cbn; now rewrite app_nil_r.
Qed.

Lemma full_close_keeps_key_witness :
  let p := Portfolio_init 100000 0.001 in
  let bought := execute_fill p (mkFillEvent 1 "AAPL" 10 BUY 100 1 0) in
  let closed := execute_fill bought (mkFillEvent 2 "AAPL" 10 SELL 110 1 0) in
  positions closed = positions p ++ [("AAPL", 0%float)] /\
  get_position closed "AAPL" = 0%float /\
  (forall current_prices,
      held_values current_prices (positions closed)
      = held_values current_prices (positions p)).
Proof.
  apply (full_close_keeps_key (Portfolio_init 100000 0.001) "AAPL"
           10 100 1 110 1 1 2); reflexivity.
Defined.

(** ** The queue under order handling *)

Lemma scan_for_market_split (queue : list Event) :
  let found := fst (fst (scan_for_market queue)) in
  let temp_events := snd (fst (scan_for_market queue)) in
  let rest := snd (scan_for_market queue) in
  queue = temp_events ++ rest /\
  match found with
  | Some m =>
      exists before,
        temp_events = before ++ [EvMarket m] /\
        forallb (fun e => negb (is_market e)) before = true
  | None =>
      rest = [] /\ forallb (fun e => negb (is_market e)) queue = true
  end.
Proof.
  cbv zeta. induction queue as [ | e queue IH]; [cbn; auto | ].
  destruct e as [m | s | o | f];
    try (cbn [scan_for_market];
         destruct (scan_for_market queue) as [[found temp_events] rest];
         cbn [fst snd] in *; destruct IH as [Hsplit Hfound];
         split; [cbn; now rewrite <- Hsplit | ];
         destruct found as [m' | ];
         [ destruct Hfound as (before & -> & Hbefore);
           eexists (_ :: before); split; [reflexivity | exact Hbefore]
         | destruct Hfound as [-> Hnone]; split; [reflexivity | exact Hnone] ]).
  cbn. split; [reflexivity | ]. exists []. split; reflexivity.
Qed.

(** The scan of the order handler splits the queue in two, keeping the
    order. It finds the first market event of the queue, the one queued the
    longest, and stops there; when the queue holds no market event it takes
    every event out. *)
Theorem scan_for_market_first (queue : list Event) :
  let found := fst (fst (scan_for_market queue)) in
  let temp_events := snd (fst (scan_for_market queue)) in
  let rest := snd (scan_for_market queue) in
  queue = temp_events ++ rest /\
  match found with
  | Some m =>
      exists before,
        temp_events = before ++ [EvMarket m] /\
        forallb (fun e => negb (is_market e)) before = true
  | None =>
      rest = [] /\ forallb (fun e => negb (is_market e)) queue = true
  end.
Proof. exact (scan_for_market_split queue). Qed.

Lemma can_afford_cash (p : Portfolio) (order : OrderEvent) (price : float) :
  cash (snd (can_afford p order price)) = cash p.
Proof.
  unfold can_afford. destruct (oe_direction order); [reflexivity | ].
  destruct (Py.defaultdict_getitem (oe_symbol order) (positions p)).
  reflexivity.
Qed.

Section OrderHandling.
Context {U : Type} {impl : StrategyImpl U}.

(** Putting events back on the queue extends the queue by them, in order,
    and touches nothing but the queue and the trace. *)
Lemma put_all (queue : list Event) (w : World U) :
  events (fold_left put queue w) = events w ++ queue /\
  config (fold_left put queue w) = config w /\
  portfolio (fold_left put queue w) = portfolio w /\
  execution_handler (fold_left put queue w) = execution_handler w /\
  strategy (fold_left put queue w) = strategy w /\
  log (fold_left put queue w) = log w.
Proof.
  revert w. induction queue as [ | e queue IH]; intros w; cbn [fold_left].
  - rewrite app_nil_r. auto 10.
  - destruct (IH (put w e)) as (-> & -> & -> & -> & -> & ->).
    destruct e; cbn; rewrite <- app_assoc; auto 10.
Qed.

(** Handling an order never loses a queued event: the events the scan took
    out go back behind the ones it left. With no market event queued the
    queue is unchanged and the order is dropped with a warning. With one,
    the order is priced from the close of the first queued market event;
    only an order that has a price there and that [can_afford] accepts adds
    a fill, at the end of the queue. Neither the cash nor the strategy is
    touched. *)
Theorem handle_order_event_requeues (order : OrderEvent) (w : World U) :
  let found := fst (fst (scan_for_market (events w))) in
  let temp_events := snd (fst (scan_for_market (events w))) in
  let rest := snd (scan_for_market (events w)) in
  let w' := handle_order_event order w in
  let dropped := WarnCannotAfford (oe_symbol order) (oe_direction order) in
  strategy w' = strategy w /\
  cash (portfolio w') = cash (portfolio w) /\
  match found with
  | None => events w' = events w /\ log w' = log w ++ [WarnNoMarketData]
  | Some m =>
      match get_price m (oe_symbol order) with
      | None => events w' = rest ++ temp_events /\ log w' = log w ++ [dropped]
      | Some price =>
          if fst (can_afford (portfolio w) order price) then
            exists fill,
              execute_order (execution_handler w) order m = Some fill /\
              events w' = rest ++ temp_events ++ [EvFill fill] /\
              log w' = log w
          else events w' = rest ++ temp_events /\ log w' = log w ++ [dropped]
      end
  end.
Proof.
  cbv zeta. unfold handle_order_event.
  pose proof (scan_for_market_split (events w)) as Hscan. cbv zeta in Hscan.
  destruct (scan_for_market (events w)) as [[found temp_events] rest].
  cbn [fst snd] in *. destruct Hscan as [Hsplit Hfound].
  destruct (put_all temp_events (set_events w rest))
    as (Hev & Hc & Hp & Hh & Hs & Hl).
  cbn [set_events events config portfolio execution_handler strategy log]
    in Hev, Hc, Hp, Hh, Hs, Hl.
  destruct found as [m | ].
  - destruct (get_price m (oe_symbol order)) as [price | ] eqn:Hprice.
    + rewrite Hp.
      pose proof (can_afford_cash (portfolio w) order price) as Hcash.
      destruct (can_afford (portfolio w) order price) as [ok p'].
      cbn [fst snd] in *. destruct ok.
      * cbn [set_portfolio execution_handler]. rewrite Hh.
        assert (Hfill : exists fill,
                  execute_order (execution_handler w) order m = Some fill).
        { unfold execute_order. rewrite Hprice. eexists. reflexivity. }
        destruct Hfill as (fill & Hexec). rewrite Hexec.
        cbn [put set_events set_portfolio events strategy portfolio log].
        rewrite Hev, Hs, Hl, <- app_assoc.
        repeat split; try assumption. exists fill. auto.
      * cbn [warn set_portfolio events strategy portfolio log].
        rewrite Hev, Hs, Hl. repeat split; assumption.
    + cbn [warn events strategy portfolio log]. rewrite Hev, Hs, Hp, Hl.
      repeat split.
  - destruct Hfound as [-> _]. rewrite app_nil_r in Hsplit.
    cbn [warn events strategy portfolio log]. rewrite Hev, Hs, Hp, Hl.
    cbn [app]. rewrite <- Hsplit. repeat split.
Qed.

(** A queue of fills is applied to the ledger in queue order, and the
    strategy is told of every Buy fill, in that order; the loop needs one
    iteration per fill and logs nothing. *)
Theorem process_events_fills (fills : list FillEvent) (extra : nat)
    (w : World U) :
  exists w',
    process_events (List.length fills + extra)
                   (set_events w (map EvFill fills)) = Some w' /\
    events w' = [] /\
    portfolio w' = fold_left execute_fill fills (portfolio w) /\
    strategy w' =
      fold_left (fun s fill =>
                   match fe_direction fill with
                   | BUY => on_position_opened s (opened_position fill)
                   | SELL => s
                   end)
                fills (strategy w) /\
    trace w' = trace w ++ fill_observations fills /\
    log w' = log w.
Proof.
  revert w. induction fills as [ | fill fills IH]; intros w.
  - exists (set_events w []). cbn. rewrite app_nil_r.
    destruct extra; cbn; auto 10.
  - cbn [List.length Nat.add map process_events set_events events handle_event].
    destruct (IH (handle_fill_event fill w))
      as (w' & Hrun & Hempty & Hp & Hs & Ht & Hl).
    exists w'.
    assert (Hstep :
      handle_fill_event fill (set_events (set_events w (EvFill fill :: map EvFill fills))
                                         (map EvFill fills))
      = set_events (handle_fill_event fill w) (map EvFill fills)).
    { unfold handle_fill_event. destruct (fe_direction fill); reflexivity. }
    rewrite Hstep, Hrun. split; [reflexivity | ]. split; [exact Hempty | ].
    rewrite Hp, Hs, Ht, Hl. unfold handle_fill_event, fill_observations.
    cbn [flat_map fold_left].
    destruct (fe_direction fill);
      cbn [set_portfolio observe set_strategy portfolio strategy trace log app];
      rewrite <- ?app_assoc; repeat split.
Qed.

End OrderHandling.

(** ** What a run records and reports *)

Lemma snapshot_days_idle (groups : list (Z * list Row)) (p : Portfolio) :
  positions p = [] ->
  history (snapshot_days p groups)
    = history p ++ map (idle_snapshot (cash p)) groups /\
  portfolio_value (snapshot_days p groups)
    = match groups with
      | [] => portfolio_value p
      | _ :: _ => (cash p + 0)%float
      end.
Proof.
  unfold snapshot_days. revert p.
  induction groups as [ | [date day_data] groups IH]; intros p Hflat.
  - cbn. now rewrite app_nil_r.
  - cbn [fold_left map].
    destruct (IH (update_market_value p
                    (close_prices (day_market_data day_data)) date))
      as [Hhist Hvalue].
    { cbn. exact Hflat. }
    rewrite Hhist, Hvalue.
    cbn [history cash portfolio_value update_market_value].
    rewrite Hflat. cbn [fold_left]. rewrite <- app_assoc.
    split; [reflexivity | ]. destruct groups; reflexivity.
Qed.

Lemma run_history (U : Type) (impl : StrategyImpl U) (c : Config)
    (s : BaseStrategy U) (row : Row) (rows : list Row) :
  let capital := bc_initial_capital (backtest c) in
  let days := groupby_date (row :: rows) in
  exists N w',
    (forall fuel, N <= fuel ->
       run fuel (BacktestEngine_init c s) (row :: rows) = Completed w') /\
    history (portfolio w') = map (idle_snapshot capital) days /\
    Sorted Z.lt (map snap_timestamp (history (portfolio w'))) /\
    cash (portfolio w') = capital /\
    positions (portfolio w') = [] /\
    portfolio_value (portfolio w') = (capital + 0)%float /\
    (forall position, ~ In (ObsPositionOpened position) (trace w')).
Proof.
  cbv zeta.
  destruct (run_never_trades U impl c s row rows)
    as (N & w' & Hrun & Hcash & Hpos & _ & Hquiet).
  destruct (run_spec c s row rows) as (N2 & w2 & Hrun2 & _ & _ & _ & Hp).
  assert (Hsame : w2 = w').
  { specialize (Hrun (Nat.max N N2) (Nat.le_max_l _ _)).
    specialize (Hrun2 (Nat.max N N2) (Nat.le_max_r _ _)).
    cbv zeta in Hrun2. congruence. }
  subst w2.
  destruct (snapshot_days_idle (groupby_date (row :: rows))
              (Portfolio_init (bc_initial_capital (backtest c))
                              (bc_commission (backtest c))) eq_refl)
    as [Hhist Hvalue].
  exists N, w'. split; [exact Hrun | ].
  rewrite Hp, Hhist, Hvalue.
  cbn [Portfolio_init history cash app].
  split; [reflexivity | ]. split.
  - rewrite map_map. cbn [idle_snapshot snap_timestamp].
    apply (proj1 (groupby_date_spec (row :: rows))).
  - rewrite <- Hp. split; [exact Hcash | ]. split; [exact Hpos | ].
    split; [ | exact Hquiet].
    pose proof (groupby_date_nonempty row rows) as Hne.
    destruct (groupby_date (row :: rows)); [cbn in Hne; lia | reflexivity].
Qed.

Lemma insert_by_timestamp_last (x : Z * float) (l : list (Z * float)) :
  Forall (fun y => (fst y <= fst x)%Z) l ->
  Metrics.insert_by_timestamp x l = l ++ [x].
Proof.
  induction 1 as [ | y l Hy Hl IH]; cbn; [reflexivity | ].
  destruct (fst x <? fst y)%Z eqn:E; [apply Z.ltb_lt in E; lia | ].
  now rewrite IH.
Qed.

(** Sorting a history whose timestamps already ascend changes nothing. *)
Lemma sort_by_timestamp_sorted (l : list (Z * float)) :
  Sorted Z.lt (map fst l) -> Metrics.sort_by_timestamp l = l.
Proof.
  intros Hs. apply Sorted_StronglySorted in Hs;
    [ | intros a b d; apply Z.lt_trans].
  unfold Metrics.sort_by_timestamp.
  assert (Hgen : forall acc,
    (forall a b, In a acc -> In b l -> (fst a <= fst b)%Z) ->
    fold_left (fun sorted x => Metrics.insert_by_timestamp x sorted) l acc
    = acc ++ l).
  { induction l as [ | x l IH]; intros acc Hacc; cbn [fold_left].
    - now rewrite app_nil_r.
    - cbn [map] in Hs. inversion Hs as [ | ? ? Hs' Hx]; subst.
      rewrite insert_by_timestamp_last.
      + rewrite (IH Hs'); [now rewrite <- app_assoc | ].
        intros a b Ha Hb. apply in_app_or in Ha as [Ha | [<- | []]].
        * apply Hacc; [exact Ha | now right].
        * rewrite Forall_forall in Hx.
          apply Z.lt_le_incl, Hx, in_map, Hb.
      + apply Forall_forall. intros a Ha. apply Hacc; [exact Ha | now left]. }
  apply (Hgen []). intros a b [].
Qed.

Lemma last_constant (A : Type) (c : float) (l : list A) (f : A -> Z) (d : Z) :
  snd (last (map (fun g => (f g, c)) l) (d, c)) = c.
Proof.
  induction l as [ | x l IH]; [reflexivity | ].
  cbn [map]. destruct l as [ | y l]; [reflexivity | exact IH].
Qed.

Lemma expanding_max_constant (A : Type) (c : float) (l : list A)
    (seen : option float) :
  Metrics.isnan c = false -> seen = None \/ seen = Some c ->
  Metrics.expanding_max_from seen (map (fun _ => c) l) = map (fun _ => c) l.
Proof.
  intros Hc. revert seen. induction l as [ | x l IH]; intros seen Hseen;
    [reflexivity | ].
  cbn [map Metrics.expanding_max_from]. rewrite Hc.
  destruct Hseen as [-> | ->].
  - now rewrite IH by now right.
  - rewrite ltb_irrefl. now rewrite IH by now right.
Qed.

Lemma series_min_zeros (A : Type) (x : A) (l : list A) :
  Metrics.series_min (map (fun _ => 0%float) (x :: l)) = 0%float.
Proof.
  unfold Metrics.series_min. cbn [map fold_left].
  change (Metrics.isnan 0) with false. cbv iota.
  induction l as [ | y l IH]; [reflexivity | ].
  cbn [map fold_left]. change (Metrics.isnan 0) with false.
  change (0 <? 0)%float with false. exact IH.
Qed.

(** A history that holds one positive finite value throughout has a total
    return and a maximum drawdown of [0.0]. *)
Lemma constant_history_metrics (A : Type) (c : float) (l : list A) (f : A -> Z)
    (risk_free : float) :
  (0 <? c)%float = true -> (c <? infinity)%float = true ->
  let m := Metrics.mkPerformanceMetrics (map (fun g => (f g, c)) l) risk_free in
  Metrics.total_return m = 0%float /\ Metrics.max_drawdown m = 0%float.
Proof.
  intros Hpos Hfin. cbv zeta.
  pose proof (no_change_ratio c Hpos Hfin) as Hratio.
  assert (Hc : Metrics.isnan c = false).
  { destruct (positive_finite_inv c Hpos Hfin) as (mc & ec & E).
    unfold Metrics.isnan. rewrite eqb_spec, E. unfold SFeqb.
    now rewrite SFcompare_refl. }
  unfold Metrics.total_return, Metrics.max_drawdown.
  cbn [Metrics.portfolio_history].
  destruct l as [ | x [ | y l]]; cbn [map]; try (split; reflexivity).
  split.
  - change ((f y, c) :: map (fun g => (f g, c)) l)
      with (map (fun g => (f g, c)) (y :: l)).
    rewrite last_constant. exact Hratio.
  - rewrite map_map. cbn [snd]. unfold Metrics.expanding_max.
    change (c :: c :: map (fun _ : A => c) l)
      with (map (fun _ : A => c) (x :: y :: l)).
    rewrite (expanding_max_constant _ c (x :: y :: l) None Hc) by now left.
    assert (Hdd :
      map (fun '(v, mx) => ((v - mx) / mx)%float)
          (combine (map (fun _ : A => c) (x :: y :: l))
                   (map (fun _ : A => c) (x :: y :: l)))
      = map (fun _ => 0%float) (x :: y :: l)).
    { generalize (x :: y :: l). intros l0.
      induction l0 as [ | z l0 IH0]; [reflexivity | ].
      cbn [map combine]. now rewrite IH0, Hratio. }
    rewrite Hdd, series_min_zeros. reflexivity.
Qed.

(** ** Runs of a strategy whose methods may raise *)

Lemma nodup_in_get (V : Type) (k : string) (v : V) (d : Py.dict V) :
  NoDup (Py.keys d) -> In (k, v) d -> Py.get k d = Some v.
Proof.
  induction d as [ | [k' v'] d IH]; cbn; [intros _ [] | ].
  intros Hd [[= -> ->] | Hin].
  - now rewrite String.eqb_refl.
  - inversion Hd as [ | ? ? Hk Hd']; subst.
    destruct (String.eqb k k') eqn:E; [ | now apply IH].
    apply String.eqb_eq in E. subst k'. exfalso. apply Hk.
    apply (in_map fst) in Hin. exact Hin.
Qed.

Section RaisingRuns.
Context {U : Type} {strategy_class : Raising.Strategy U}.

Lemma put_signals_strategy (timestamp : Z) (signals : list Signal)
    (w : World U) :
  strategy (fold_left (fun w' signal =>
                         put w' (EvSignal (signal_event_of timestamp signal)))
                      signals w)
  = strategy w.
Proof.
  revert w. induction signals as [ | signal signals IH]; intros w;
    [reflexivity | ].
  cbn [fold_left]. now rewrite IH.
Qed.

(** The loop over the symbols of a market event makes the day's
    [generate_signals] calls in order: it raises what the first raising
    call raises, and otherwise does what the loop does for a strategy whose
    calls return. *)
Lemma raising_handle_market_symbols (event : MarketEvent)
    (bars : list (string * BarData)) (w : World U) :
  (forall symbol bar,
      In (symbol, bar) bars -> Py.get symbol (me_data event) = Some bar) ->
  match calls_for_bars (me_timestamp event) bars (strategy w) with
  | Raises error =>
      Raising.handle_market_symbols event (map fst bars) w = Raised error
  | Returns s' =>
      Raising.handle_market_symbols event (map fst bars) w
        = Completed (fold_left (handle_market_symbol (impl := returns_of) event)
                               (map fst bars) w) /\
      strategy (fold_left (handle_market_symbol (impl := returns_of) event)
                          (map fst bars) w) = s'
  end.
Proof.
  revert w. induction bars as [ | [symbol bar] bars IH]; intros w Hbars.
  - cbn. auto.
  - cbn [calls_for_bars map fst Raising.handle_market_symbols fold_left].
    unfold Raising.handle_market_symbol, handle_market_symbol.
    rewrite (Hbars symbol bar) by now left.
    cbn [generate_signals returns_of].
    destruct (Raising.generate_signals (strategy w) (me_timestamp event)
                (symbol, bar)) as [[s' signals] | error]; [ | reflexivity].
    match goal with
    | |- context [Raising.handle_market_symbols event _ ?w1] =>
        specialize (IH w1); assert (Hs : strategy w1 = s')
    end.
    { now rewrite put_signals_strategy. }
    rewrite Hs in IH. apply IH.
    intros symbol' bar' Hin. apply Hbars. now right.
Qed.

Lemma and_then_completed_if_some (A B : Type) (o : option A) (f : A -> B) :
  and_then (completed_if_some o) (fun a => Completed (f a))
  = completed_if_some (option_map f o).
Proof. destruct o; reflexivity. Qed.

(** A queue of signals and orders is drained without a call to the
    strategy. *)
Lemma raising_process_events_quiet (fuel : nat) (w : World U) :
  forallb is_signal_or_order (events w) = true ->
  Raising.process_events fuel w
  = completed_if_some (process_events (impl := returns_of) fuel w).
Proof.
  revert w. induction fuel as [ | fuel IH]; intros w Hq.
  - cbn. destruct (events w); reflexivity.
  - cbn [Raising.process_events process_events].
    destruct (events w) as [ | e q] eqn:E; [reflexivity | ].
    cbn [forallb] in Hq. apply andb_true_iff in Hq as [He Hq].
    destruct e as [m | s | o | f]; try discriminate;
      cbn [Raising.handle_event handle_event and_then]; apply IH.
    + unfold handle_signal_event.
      destruct (signal_to_order _ _ s); cbn [put set_events events];
        [ | exact Hq].
      rewrite forallb_app, Hq. reflexivity.
    + rewrite handle_order_event_quiet by exact Hq. exact Hq.
Qed.

(** A result of draining signals and orders has the strategy object the
    loop started with. *)
Lemma process_events_quiet_strategy (fuel : nat) (w w' : World U) :
  forallb is_signal_or_order (events w) = true ->
  process_events (impl := returns_of) fuel w = Some w' ->
  strategy w' = strategy w.
Proof.
  intros Hq Hrun.
  destruct (process_events_quiet (impl := returns_of)
              (Nat.max fuel (queue_weight (events w))) w Hq
              (Nat.le_max_r _ _))
    as (w'' & Hrun' & _ & Hsame).
  rewrite (process_events_more_fuel _ _ _ _ Hrun (Nat.le_max_l _ _)) in Hrun'.
  injection Hrun' as <-. apply Hsame.
Qed.

(** One trading day from an empty queue. *)
Lemma raising_run_day (w : World U) (date : Z) (day_data : list Row) :
  events w = [] ->
  match calls_for_bars date (day_market_data day_data) (strategy w) with
  | Raises error =>
      forall fuel, 1 <= fuel ->
        Raising.run_day fuel w (date, day_data) = Raised error
  | Returns s' =>
      forall fuel,
        Raising.run_day fuel w (date, day_data)
          = completed_if_some
              (run_day (impl := returns_of) fuel w (date, day_data)) /\
        (forall w',
            run_day (impl := returns_of) fuel w (date, day_data) = Some w' ->
            strategy w' = s')
  end.
Proof.
  intros Hempty.
  set (event := {| me_timestamp := date; me_data := day_market_data day_data |}).
  set (w1 := set_events (put (set_current_time w date) (EvMarket event)) []).
  assert (Hloop : forall fuel,
    Raising.run_day (S fuel) w (date, day_data)
    = and_then
        (and_then (Raising.handle_market_event event w1)
                  (Raising.process_events fuel))
        (fun w2 =>
           Completed
             (set_portfolio w2
                (update_market_value (portfolio w2)
                   (close_prices (day_market_data day_data)) date)))).
  { intros fuel. unfold Raising.run_day.
    cbn [put observe set_events set_current_time events Raising.process_events].
    rewrite Hempty. reflexivity. }
  assert (Htotal : forall fuel,
    run_day (impl := returns_of) (S fuel) w (date, day_data)
    = option_map
        (fun w2 =>
           set_portfolio w2
             (update_market_value (portfolio w2)
                (close_prices (day_market_data day_data)) date))
        (process_events (impl := returns_of) fuel
           (handle_market_event (impl := returns_of) event w1))).
  { intros fuel. unfold run_day.
    cbn [put observe set_events set_current_time events process_events].
    rewrite Hempty. cbn [app handle_event]. fold event.
    change (set_events _ []) with w1.
    destruct (process_events fuel _); reflexivity. }
  pose proof (raising_handle_market_symbols event (day_market_data day_data) w1)
    as Hcalls.
  change (strategy w1) with (strategy w) in Hcalls.
  change (me_timestamp event) with date in Hcalls.
  assert (Hbars : forall symbol bar,
    In (symbol, bar) (day_market_data day_data) ->
    Py.get symbol (me_data event) = Some bar).
  { intros symbol bar Hin.
    apply nodup_in_get; [apply day_market_data_keys | exact Hin]. }
  specialize (Hcalls Hbars).
  change (map fst (day_market_data day_data)) with (get_symbols event) in Hcalls.
  fold (Raising.handle_market_event event w1) in Hcalls.
  fold (handle_market_event (impl := returns_of) event w1) in Hcalls.
  destruct (calls_for_bars date (day_market_data day_data) (strategy w))
    as [s' | error].
  - destruct Hcalls as [Hraising Hstrategy].
    destruct (handle_market_symbols (impl := returns_of) event
                (get_symbols event) w1) as ((signals & Hev) & _ & _).
    cbv zeta in Hev.
    fold (handle_market_event (impl := returns_of) event w1) in Hev.
    assert (Hq : forallb is_signal_or_order
                   (events (handle_market_event (impl := returns_of) event w1))
                 = true).
    { rewrite Hev. apply signals_are_quiet. }
    intros [ | fuel].
    + split.
      * unfold Raising.run_day, run_day.
        cbn [put observe set_events set_current_time events
             Raising.process_events process_events].
        rewrite Hempty. reflexivity.
      * unfold run_day.
        cbn [put observe set_events set_current_time events process_events].
        rewrite Hempty. discriminate.
    + rewrite Hloop, Htotal, Hraising. cbn [and_then].
      rewrite (raising_process_events_quiet _ _ Hq).
      split; [apply and_then_completed_if_some | ].
      intros w'.
      destruct (process_events fuel _) as [w2 | ] eqn:Hrun; [ | discriminate].
      cbn [option_map]. intros [= <-]. cbn [set_portfolio strategy].
      rewrite (process_events_quiet_strategy _ _ _ Hq Hrun). exact Hstrategy.
  - intros [ | fuel] Hfuel; [lia | ].
    rewrite Hloop, Hcalls. reflexivity.
Qed.

(** The main loop of [run] from an empty queue. *)
Lemma raising_run_days (groups : list (Z * list Row)) (w : World U) :
  events w = [] ->
  exists N,
    match calls_for_days groups (strategy w) with
    | Raises error =>
        forall fuel, N <= fuel -> Raising.run_days fuel w groups = Raised error
    | Returns s' =>
        exists w',
          (forall fuel, N <= fuel ->
             Raising.run_days fuel w groups = Completed w' /\
             run_days (impl := returns_of) fuel w groups = Some w') /\
          strategy w' = s'
    end.
Proof.
  revert w. induction groups as [ | [date day_data] groups IH]; intros w Hempty.
  - exists 0. cbn. exists w. auto.
  - pose proof (raising_run_day w date day_data Hempty) as Hday.
    cbn [calls_for_days].
    destruct (calls_for_bars date (day_market_data day_data) (strategy w))
      as [s1 | error].
    + destruct (run_day_spec (impl := returns_of) w date day_data Hempty)
        as [N1 Hspec].
      destruct (Hspec N1 (le_n _)) as (w1 & Hrun1 & Hempty1 & _).
      pose proof (proj2 (Hday N1) w1 Hrun1) as Hs1.
      destruct (IH w1 Hempty1) as [N2 Hrest]. rewrite Hs1 in Hrest.
      exists (Nat.max N1 N2).
      assert (Hfirst : forall fuel, Nat.max N1 N2 <= fuel ->
        Raising.run_day fuel w (date, day_data) = Completed w1 /\
        run_day (impl := returns_of) fuel w (date, day_data) = Some w1).
      { intros fuel Hfuel.
        assert (Hrun : run_day (impl := returns_of) fuel w (date, day_data)
                       = Some w1).
        { apply (run_day_more_fuel _ _ _ _ _ Hrun1). lia. }
        split; [ | exact Hrun].
        rewrite (proj1 (Hday fuel)), Hrun. reflexivity. }
      destruct (calls_for_days groups s1) as [s' | error].
      * destruct Hrest as (w' & Hrun & Hs'). exists w'.
        split; [ | exact Hs'].
        intros fuel Hfuel. destruct (Hfirst fuel Hfuel) as [Hr Ht].
        cbn [Raising.run_days run_days]. rewrite Hr, Ht. cbn [and_then].
        apply Hrun. lia.
      * intros fuel Hfuel. destruct (Hfirst fuel Hfuel) as [Hr _].
        cbn [Raising.run_days]. rewrite Hr. cbn [and_then].
        apply Hrest. lia.
    + exists 1. intros fuel Hfuel. cbn [Raising.run_days].
      rewrite (Hday fuel Hfuel). reflexivity.
Qed.

(** A run over a frame that is not empty ends as the calls it makes to the
    strategy end: it raises what the first raising call raises, and when
    they all return it completes as the run of a strategy whose calls
    return does. *)
Lemma raising_run_spec (c : Config) (s : BaseStrategy U) (row : Row)
    (rows : list Row) :
  let market_data := row :: rows in
  exists N,
    match strategy_calls s market_data with
    | Raises error =>
        forall fuel, N <= fuel ->
          Raising.run fuel (BacktestEngine_init c s) market_data = Raised error
    | Returns s' =>
        exists w',
          (forall fuel, N <= fuel ->
             Raising.run fuel (BacktestEngine_init c s) market_data
               = Completed w' /\
             run (impl := returns_of) fuel (BacktestEngine_init c s) market_data
               = Completed w') /\
          strategy w' = s'
    end.
Proof.
  cbv zeta. unfold strategy_calls, Raising.run, run.
  cbn [BacktestEngine_init strategy set_strategy observe initialize returns_of].
  destruct (Raising.initialize (set_data s (row :: rows))) as [s1 | error];
    [ | exists 0; reflexivity].
  match goal with
  | |- context [Raising.run_days _ ?w0 _] =>
      destruct (raising_run_days (groupby_date (row :: rows)) w0 eq_refl)
        as [N Hdays];
      change (strategy w0) with s1 in Hdays
  end.
  exists N.
  destruct (calls_for_days (groupby_date (row :: rows)) s1) as [s' | error];
    [ | exact Hdays].
  destruct Hdays as (w' & Hrun & Hs'). exists w'. split; [ | exact Hs'].
  intros fuel Hfuel. destruct (Hrun fuel Hfuel) as [Hr Ht].
  split; [exact Hr | ]. now rewrite Ht.
Qed.

End RaisingRuns.

(** Handling a fill when the strategy's hook may raise. A Sell fill is
    applied to the portfolio and calls no strategy method. A Buy fill is
    applied to the portfolio and reported to [on_position_opened]: what the
    hook raises ends the handling, and when it returns the strategy is as
    the hook leaves it. *)
Lemma raising_handle_fill_event (U : Type)
    (strategy_class : Raising.Strategy U) (fill : FillEvent) (w : World U) :
  match fe_direction fill with
  | SELL =>
      Raising.handle_fill_event fill w
        = Completed (set_portfolio w (execute_fill (portfolio w) fill))
  | BUY =>
      match Raising.on_position_opened (strategy w) (opened_position fill) with
      | Raises error => Raising.handle_fill_event fill w = Raised error
      | Returns s' =>
          exists w',
            Raising.handle_fill_event fill w = Completed w' /\
            strategy w' = s' /\
            portfolio w' = execute_fill (portfolio w) fill /\
            trace w' = trace w ++ [ObsPositionOpened (opened_position fill)]
      end
  end.
Proof.
  unfold Raising.handle_fill_event, opened_position.
  destruct (fe_direction fill); [ | reflexivity].
  cbn [set_portfolio strategy].
  destruct (Raising.on_position_opened _ _) as [s' | error]; [ | reflexivity].
  eexists. split; [reflexivity | ]. repeat split.
Qed.

(** On a strategy whose methods all return, the engine that lets them raise
    is the engine above: the two runs are the same. *)
Section ReturningRuns.
Context {U : Type} {impl : StrategyImpl U}.

Lemma returning_handle_market_symbol (event : MarketEvent) (w : World U)
    (symbol : string) :
  Raising.handle_market_symbol (strategy_class := returning impl) event w symbol
  = Completed (handle_market_symbol event w symbol).
Proof.
  unfold Raising.handle_market_symbol, handle_market_symbol.
  destruct (Py.get symbol (me_data event)) as [bar | ]; [ | reflexivity].
  cbn [Raising.generate_signals returning].
  destruct (generate_signals (strategy w) (me_timestamp event) (symbol, bar));
    reflexivity.
Qed.

Lemma returning_handle_market_symbols (event : MarketEvent)
    (symbols : list string) (w : World U) :
  Raising.handle_market_symbols (strategy_class := returning impl) event
    symbols w
  = Completed (fold_left (handle_market_symbol event) symbols w).
Proof.
  revert w. induction symbols as [ | symbol symbols IH]; intros w;
    [reflexivity | ].
  cbn [Raising.handle_market_symbols fold_left].
  rewrite returning_handle_market_symbol. apply IH.
Qed.

Lemma returning_handle_event (e : Event) (w : World U) :
  Raising.handle_event (strategy_class := returning impl) e w
  = Completed (handle_event e w).
Proof.
  destruct e as [m | s | o | f]; cbn [Raising.handle_event handle_event];
    try reflexivity.
  - apply returning_handle_market_symbols.
  - unfold Raising.handle_fill_event, handle_fill_event.
    destruct (fe_direction f); reflexivity.
Qed.

Lemma returning_process_events (fuel : nat) (w : World U) :
  Raising.process_events (strategy_class := returning impl) fuel w
  = completed_if_some (process_events fuel w).
Proof.
  revert w. induction fuel as [ | fuel IH]; intros w;
    cbn [Raising.process_events process_events];
    destruct (events w) as [ | e q]; try reflexivity.
  rewrite returning_handle_event. cbn [and_then]. apply IH.
Qed.

Lemma returning_run_days (fuel : nat) (groups : list (Z * list Row))
    (w : World U) :
  Raising.run_days (strategy_class := returning impl) fuel w groups
  = completed_if_some (run_days fuel w groups).
Proof.
  revert w. induction groups as [ | [date day_data] groups IH]; intros w;
    [reflexivity | ].
  cbn [Raising.run_days run_days]. unfold Raising.run_day, run_day.
  rewrite returning_process_events.
  destruct (process_events fuel _) as [w1 | ]; [ | reflexivity].
  cbn [completed_if_some and_then]. apply IH.
Qed.

Lemma raising_run_returning (fuel : nat) (w : World U)
    (market_data : list Row) :
  Raising.run (strategy_class := returning impl) fuel w market_data
  = run fuel w market_data.
Proof.
  unfold Raising.run, run.
  destruct market_data as [ | row rows]; [reflexivity | ].
  cbn [Raising.initialize returning]. rewrite returning_run_days.
  destruct (run_days fuel _ _); reflexivity.
Qed.

End ReturningRuns.

(** The equity history of a run of a strategy whose calls may raise. *)
Lemma raising_run_history (U : Type) (strategy_class : Raising.Strategy U)
    (c : Config) (s : BaseStrategy U) (row : Row) (rows : list Row) :
  let market_data := row :: rows in
  let capital := bc_initial_capital (backtest c) in
  let days := groupby_date market_data in
  exists N,
    match strategy_calls s market_data with
    | Raises error =>
        forall fuel, N <= fuel ->
          Raising.run fuel (BacktestEngine_init c s) market_data = Raised error
    | Returns s' =>
        exists w',
          (forall fuel, N <= fuel ->
             Raising.run fuel (BacktestEngine_init c s) market_data
               = Completed w') /\
          strategy w' = s' /\
          history (portfolio w') = map (idle_snapshot capital) days /\
          Sorted Z.lt (map snap_timestamp (history (portfolio w'))) /\
          cash (portfolio w') = capital /\
          positions (portfolio w') = [] /\
          portfolio_value (portfolio w') = (capital + 0)%float /\
          (forall position, ~ In (ObsPositionOpened position) (trace w'))
    end.
Proof.
  cbv zeta. destruct (raising_run_spec c s row rows) as [N Hspec].
  cbv zeta in Hspec. exists N.
  destruct (strategy_calls s (row :: rows)) as [s' | error]; [ | exact Hspec].
  destruct Hspec as (w' & Hrun & Hs').
  destruct (run_history U returns_of c s row rows) as (N2 & w2 & Hrun2 & Hfacts).
  assert (Hsame : w2 = w').
  { destruct (Hrun (Nat.max N N2) (Nat.le_max_l _ _)) as [_ Ht].
    specialize (Hrun2 (Nat.max N N2) (Nat.le_max_r _ _)).
    cbv zeta in Hrun2. congruence. }
  subst w2. exists w'. split; [intros fuel Hfuel; apply (Hrun fuel Hfuel) | ].
  split; [exact Hs' | exact Hfacts].
Qed.

(** C7, as the code has it: [validate] reports an invalid configuration by
    returning [False], and [run] never consults it. How a run ends is
    decided by the frame and by the strategy's calls alone, whatever the
    configuration: on an empty frame it raises "No market data loaded"; on
    any other frame it raises what the first raising call of [initialize]
    or [generate_signals] raises, and when those calls return it completes
    with one equity snapshot per trading day. Two runs that differ in the
    configuration only end the same way. *)
Theorem C7_run_ignores_validation (U : Type)
    (strategy_class : Raising.Strategy U) (c : Config) (s : BaseStrategy U) :
  (validate c = false <->
   (bc_initial_capital (backtest c) <=? 0)%float = true \/
   (bc_commission (backtest c) <? 0)%float = true \/
   (bc_slippage (backtest c) <? 0)%float = true \/
   ((0 <? rc_max_position_size (risk c))%float
    && (rc_max_position_size (risk c) <=? 1)%float) = false \/
   (rc_stop_loss_pct (risk c) <? 0)%float = true \/
   ((0 <? rc_max_drawdown (risk c))%float
    && (rc_max_drawdown (risk c) <=? 1)%float) = false) /\
  (forall fuel,
      Raising.run fuel (BacktestEngine_init c s) []
        = Raised "No market data loaded") /\
  (forall row rows,
      let market_data := row :: rows in
      exists N,
        match strategy_calls s market_data with
        | Raises error =>
            forall fuel, N <= fuel ->
              Raising.run fuel (BacktestEngine_init c s) market_data
                = Raised error
        | Returns s' =>
            exists w',
              (forall fuel, N <= fuel ->
                 Raising.run fuel (BacktestEngine_init c s) market_data
                   = Completed w') /\
              strategy w' = s' /\
              List.length (history (portfolio w'))
                = List.length (groupby_date market_data) /\
              1 <= List.length (history (portfolio w'))
        end) /\
  (forall c' market_data,
      exists N, forall fuel, N <= fuel ->
        match Raising.run fuel (BacktestEngine_init c s) market_data,
              Raising.run fuel (BacktestEngine_init c' s) market_data with
        | Completed w, Completed w' =>
            strategy w = strategy w' /\
            List.length (history (portfolio w))
              = List.length (history (portfolio w'))
        | Raised error, Raised error' => error = error'
        | _, _ => False
        end).
Proof.
  split; [ | split; [ | split]].
  - rewrite validate_spec.
    rewrite !andb_false_iff, !negb_false_iff. tauto.
  - reflexivity.
  - intros row rows.
    destruct (raising_run_history U strategy_class c s row rows) as [N Hrun].
    cbv zeta in *. exists N.
    destruct (strategy_calls s (row :: rows)) as [s' | error]; [ | exact Hrun].
    destruct Hrun as (w' & Hrun & Hs' & Hhist & _).
    exists w'. split; [exact Hrun | ]. split; [exact Hs' | ].
    rewrite Hhist, length_map. split; [reflexivity | ].
    apply groupby_date_nonempty.
  - intros c' [ | row rows]; [exists 0; intros fuel _; reflexivity | ].
    destruct (raising_run_history U strategy_class c s row rows) as [N Hrun].
    destruct (raising_run_history U strategy_class c' s row rows) as [N' Hrun'].
    cbv zeta in *. exists (Nat.max N N'). intros fuel Hfuel.
    destruct (strategy_calls s (row :: rows)) as [s' | error].
    + destruct Hrun as (w & Hrun & Hs & Hhist & _).
      destruct Hrun' as (w' & Hrun' & Hs' & Hhist' & _).
      rewrite Hrun, Hrun' by lia. rewrite Hs, Hs', Hhist, Hhist', !length_map.
      split; reflexivity.
    + rewrite Hrun, Hrun' by lia. reflexivity.
Qed.

(** The legacy [generate_signals] of [EnhancedMomentumStrategy] leaves the
    object as it is, over any number of days. *)
Lemma momentum_calls_for_days (groups : list (Z * list Row))
    (s : BaseStrategy Momentum.State) :
  calls_for_days (strategy_class := Momentum.strategy_class) groups s
  = Returns s.
Proof.
  induction groups as [ | [date day_data] groups IH]; [reflexivity | ].
  cbn [calls_for_days].
  assert (Hbars : forall bars,
    calls_for_bars (strategy_class := Momentum.strategy_class) date bars s
    = Returns s).
  { induction bars as [ | bar bars IHbars]; [reflexivity | exact IHbars]. }
  rewrite Hbars. exact IH.
Qed.

(** A run of [EnhancedMomentumStrategy] over a frame that is not empty,
    under any configuration: it raises [initialize]'s [ValueError] when the
    strategy's parameters do not validate, and otherwise completes with the
    strategy initialized, its parameters and cache untouched, and one equity
    snapshot per trading day. *)
Lemma momentum_run (c : Config) (state : Momentum.State) (row : Row)
    (rows : list Row) :
  let market_data := row :: rows in
  let w := BacktestEngine_init c (Momentum.fresh state) in
  if Momentum.validate_parameters state then
    exists N w',
      (forall fuel, N <= fuel ->
         Raising.run (strategy_class := Momentum.strategy_class) fuel w
           market_data = Completed w') /\
      strat_initialized (strategy w') = true /\
      strat_user (strategy w') = state /\
      List.length (history (portfolio w'))
        = List.length (groupby_date market_data)
  else
    forall fuel,
      Raising.run (strategy_class := Momentum.strategy_class) fuel w
        market_data = Raised "Invalid strategy parameters".
Proof.
  cbv zeta.
  destruct (raising_run_history _ Momentum.strategy_class c
              (Momentum.fresh state) row rows) as [N Hrun].
  cbv zeta in Hrun. unfold strategy_calls in Hrun.
  cbn [Raising.initialize Momentum.strategy_class] in Hrun.
  unfold Momentum.initialize in Hrun.
  cbn [set_data strat_user Momentum.fresh] in Hrun.
  destruct (Momentum.validate_parameters state) eqn:Hvalid.
  - rewrite momentum_calls_for_days in Hrun.
    destruct Hrun as (w' & Hrun & Hs & Hhist & _).
    exists N, w'. split; [exact Hrun | ]. rewrite Hs, Hhist, length_map.
    repeat split.
  - intros fuel. unfold Raising.run.
    cbn [Raising.initialize Momentum.strategy_class BacktestEngine_init
         strategy set_strategy observe].
    unfold Momentum.initialize.
    cbn [set_data strat_user Momentum.fresh]. rewrite Hvalid. reflexivity.
Qed.

(** The strategy of the repository shows the three endings.
    [EnhancedMomentumStrategy.initialize] raises on parameters that do not
    validate, here an [rsi_lower] above [rsi_upper], and the run raises with
    it under the default configuration, which is valid. With the default
    parameters the run completes, under an invalid configuration too. *)
Example momentum_runs :
  let invalid_parameters :=
    Momentum.mkState
      (Momentum.mkParameters 80 70 1.2 0.05 0.3)
      (Momentum.periods Momentum.default_state) 20 Py.empty in
  let invalid_config :=
    {| backtest := mkBacktestConfig 100000 (-0.001) 0.0005 1;
       risk := mkRiskConfig 2 0.02 0.15 1 "fixed_fractional" |} in
  validate default_config = true /\
  validate invalid_config = false /\
  Momentum.validate_parameters invalid_parameters = false /\
  Momentum.validate_parameters Momentum.default_state = true /\
  (forall fuel,
      Raising.run (strategy_class := Momentum.strategy_class) fuel
        (BacktestEngine_init default_config
           (Momentum.fresh invalid_parameters)) Demo.one_day
      = Raised "Invalid strategy parameters") /\
  (forall fuel,
      Raising.run (strategy_class := Momentum.strategy_class) fuel
        (BacktestEngine_init invalid_config
           (Momentum.fresh Momentum.default_state)) []
      = Raised "No market data loaded") /\
  exists w',
    Raising.run (strategy_class := Momentum.strategy_class) 1
      (BacktestEngine_init invalid_config
         (Momentum.fresh Momentum.default_state)) Demo.one_day
    = Completed w' /\
    strat_initialized (strategy w') = true /\
    map snap_timestamp (history (portfolio w')) = [1%Z].
Proof.
  cbv zeta.
  split; [vm_compute; reflexivity | ].
  split; [vm_compute; reflexivity | ].
  split; [vm_compute; reflexivity | ].
  split; [vm_compute; reflexivity | ].
  split; [intros fuel; vm_compute; reflexivity | ].
  split; [intros fuel; reflexivity | ].
  eexists. split; [vm_compute; reflexivity | ].
  split; vm_compute; reflexivity.
Qed.

(** The equity history of a run, whatever the configuration and the frame.
    When the calls the run makes to the strategy return, the run completes
    and leaves the strategy as those calls leave it, with one snapshot per
    date of the frame, dates ascending, each with the initial capital as
    cash, no position and a total of the cash plus [0.0]; the ledger ends
    as it started and the strategy is never told of an opened position.
    When one of the calls raises, the run raises what it raises. *)
Theorem run_equity_history (U : Type) (strategy_class : Raising.Strategy U)
    (c : Config) (s : BaseStrategy U) (row : Row) (rows : list Row) :
  let market_data := row :: rows in
  let capital := bc_initial_capital (backtest c) in
  let days := groupby_date market_data in
  exists N,
    match strategy_calls s market_data with
    | Raises error =>
        forall fuel, N <= fuel ->
          Raising.run fuel (BacktestEngine_init c s) market_data = Raised error
    | Returns s' =>
        exists w',
          (forall fuel, N <= fuel ->
             Raising.run fuel (BacktestEngine_init c s) market_data
               = Completed w') /\
          strategy w' = s' /\
          history (portfolio w') = map (idle_snapshot capital) days /\
          Sorted Z.lt (map snap_timestamp (history (portfolio w'))) /\
          cash (portfolio w') = capital /\
          positions (portfolio w') = [] /\
          portfolio_value (portfolio w') = (capital + 0)%float /\
          (forall position, ~ In (ObsPositionOpened position) (trace w'))
    end.
Proof. exact (raising_run_history U strategy_class c s row rows). Qed.

(** What a run reports when the initial capital is a positive finite
    number, whatever the frame. When the calls the run makes to the
    strategy return, it completes with a final value equal to the initial
    capital, and the metrics over its equity history are a total return of
    [0.0], a maximum drawdown of [0.0] and a Calmar ratio taken from the
    zero-drawdown branch. When one of the calls raises, the run raises and
    reports nothing. *)
Theorem run_reports_no_change (U : Type) (strategy_class : Raising.Strategy U)
    (pow : float -> float -> float) (c : Config) (s : BaseStrategy U)
    (row : Row) (rows : list Row) (risk_free : float) :
  (0 <? bc_initial_capital (backtest c))%float = true ->
  (bc_initial_capital (backtest c) <? infinity)%float = true ->
  exists N,
    match strategy_calls s (row :: rows) with
    | Raises error =>
        forall fuel, N <= fuel ->
          Raising.run fuel (BacktestEngine_init c s) (row :: rows)
            = Raised error
    | Returns _ =>
        exists w',
          (forall fuel, N <= fuel ->
             Raising.run fuel (BacktestEngine_init c s) (row :: rows)
               = Completed w') /\
          portfolio_value (portfolio w') = bc_initial_capital (backtest c) /\
          let m :=
            Metrics.PerformanceMetrics_init (history (portfolio w'))
                                            risk_free in
          Metrics.total_return m = 0%float /\
          Metrics.max_drawdown m = 0%float /\
          (Metrics.calmar_ratio pow m = Some infinity \/
           Metrics.calmar_ratio pow m = Some 0%float)
    end.
Proof.
  intros Hpos Hfin.
  destruct (raising_run_history U strategy_class c s row rows) as [N Hrun].
  cbv zeta in Hrun. exists N.
  destruct (strategy_calls s (row :: rows)) as [s' | error]; [ | exact Hrun].
  destruct Hrun as (w' & Hrun & _ & Hhist & Hsorted & _ & _ & Hvalue & _).
  destruct (positive_finite_inv _ Hpos Hfin) as (mc & ec & E).
  rewrite (add_zero_finite _ _ _ _ E) in Hvalue.
  exists w'. split; [exact Hrun | ]. split; [exact Hvalue | ].
  cbv zeta. unfold Metrics.PerformanceMetrics_init.
  rewrite sort_by_timestamp_sorted;
    [ | rewrite map_map; cbn [fst]; exact Hsorted].
  rewrite Hhist, map_map. cbn [idle_snapshot snap_timestamp snap_total_value].
  rewrite (add_zero_finite _ _ _ _ E).
  destruct (constant_history_metrics _ (bc_initial_capital (backtest c))
              (groupby_date (row :: rows)) fst risk_free Hpos Hfin)
    as [Hret Hdd].
  cbv zeta in Hret, Hdd. split; [exact Hret | ]. split; [exact Hdd | ].
  unfold Metrics.calmar_ratio. rewrite Hdd.
  change (0 =? 0)%float with true. cbv iota.
  destruct (Py.gtb _ 0); auto.
Qed.

Lemma run_reports_no_change_witness :
  exists N w',
    (forall fuel, N <= fuel ->
       Raising.run (strategy_class := returning Demo.buy_at_close) fuel
         (BacktestEngine_init default_config Demo.fresh_strategy)
         (mkRow 2 "AAPL" 101 103 100 102 900 :: Demo.one_day)
       = Completed w') /\
    portfolio_value (portfolio w') = bc_initial_capital (backtest default_config) /\
    let m := Metrics.PerformanceMetrics_init (history (portfolio w')) 0.02 in
    Metrics.total_return m = 0%float /\
    Metrics.max_drawdown m = 0%float /\
    (Metrics.calmar_ratio (fun x _ => x) m = Some infinity \/
     Metrics.calmar_ratio (fun x _ => x) m = Some 0%float).
Proof.
  apply (run_reports_no_change unit (returning Demo.buy_at_close)
           (fun x _ => x) default_config Demo.fresh_strategy
           (mkRow 2 "AAPL" 101 103 100 102 900) Demo.one_day 0.02);
    reflexivity.
Defined.

(** ** The strategy's own position book *)

(** What handling a fill does to the portfolio and, for a Buy, to the
    strategy. *)
Lemma handle_fill_event_effect (U : Type) (impl : StrategyImpl U)
    (fill : FillEvent) (w : World U) :
  portfolio (handle_fill_event fill w) = execute_fill (portfolio w) fill /\
  (fe_direction fill = BUY ->
   strategy (handle_fill_event fill w)
     = on_position_opened (strategy w) (opened_position fill)).
Proof.
  unfold handle_fill_event.
  destruct (fe_direction fill); cbn; split; intros; try discriminate;
    reflexivity.
Qed.

Lemma not_in_get_none (V : Type) (k : string) (d : Py.dict V) :
  ~ In k (Py.keys d) -> Py.get k d = None.
Proof.
  induction d as [ | [k' v'] d IH]; cbn; [reflexivity | ].
  intros Hk. destruct (String.eqb k k') eqn:E.
  - apply String.eqb_eq in E. subst k'. tauto.
  - apply IH. tauto.
Qed.

Lemma get_remove_same (V : Type) (k : string) (d : Py.dict V) :
  NoDup (Py.keys d) -> Py.get k (Py.remove k d) = None.
Proof.
  induction d as [ | [k' v'] d IH]; cbn; [reflexivity | ].
  intros Hd. inversion Hd as [ | ? ? Hk Hd']; subst.
  destruct (String.eqb k k') eqn:E.
  - apply String.eqb_eq in E. subst k'. now apply not_in_get_none.
  - cbn. rewrite E. now apply IH.
Qed.

Lemma get_remove_other (V : Type) (k k' : string) (d : Py.dict V) :
  k <> k' -> Py.get k' (Py.remove k d) = Py.get k' d.
Proof.
  intros Hk. induction d as [ | [k0 v0] d IH]; cbn; [reflexivity | ].
  destruct (String.eqb k k0) eqn:E.
  - apply String.eqb_eq in E. subst k0.
    destruct (String.eqb k' k) eqn:E'; [ | reflexivity].
    apply String.eqb_eq in E'. congruence.
  - cbn. now rewrite IH.
Qed.

(** Opening a position makes the strategy report its quantity for the
    symbol; closing it makes the strategy flat in the symbol again. Neither
    touches what is reported for another symbol, and closing a position the
    strategy does not track changes nothing. *)
Theorem position_book_round_trip (U : Type) (s : BaseStrategy U)
    (position : Position) (realized_pnl : float) :
  NoDup (Py.keys (strat_positions s)) ->
  let symbol := pos_symbol position in
  let opened := base_on_position_opened s position in
  let closed := base_on_position_closed opened position realized_pnl in
  get_position_size opened symbol = pos_quantity position /\
  get_position_size closed symbol = 0%float /\
  is_flat closed symbol = true /\
  (forall other, other <> symbol ->
     get_position_size opened other = get_position_size s other /\
     get_position_size closed other = get_position_size s other) /\
  (Py.get symbol (strat_positions s) = None ->
   base_on_position_closed s position realized_pnl = s).
Proof.
  intros Hd. cbv zeta.
  assert (Hclosed :
    strat_positions
      (base_on_position_closed (base_on_position_opened s position) position
                               realized_pnl)
    = Py.remove (pos_symbol position)
        (Py.set (pos_symbol position) position (strat_positions s))).
  { unfold base_on_position_closed, base_on_position_opened, Py.contains.
    cbn [strat_positions with_positions]. now rewrite get_set_same. }
  assert (Hflat :
    get_position_size
      (base_on_position_closed (base_on_position_opened s position) position
                               realized_pnl) (pos_symbol position) = 0%float).
  { unfold get_position_size. rewrite Hclosed.
    rewrite get_remove_same; [reflexivity | now apply set_keys_nodup]. }
  split; [ | split; [exact Hflat | split; [ | split]]].
  - unfold get_position_size, base_on_position_opened.
    cbn [strat_positions with_positions]. now rewrite get_set_same.
  - unfold is_flat. now rewrite Hflat.
  - intros other Hother. unfold get_position_size at 1 3. rewrite Hclosed.
    unfold get_position_size, base_on_position_opened.
    cbn [strat_positions with_positions].
    rewrite get_remove_other by (now apply not_eq_sym).
    rewrite get_set_other by (now apply not_eq_sym). split; reflexivity.
  - intros Habsent. unfold base_on_position_closed, Py.contains.
    now rewrite Habsent.
Qed.

Lemma position_book_round_trip_witness :
  let position := mkPosition "AAPL" 10 100 1 100 0.0 None in
  let opened := base_on_position_opened Demo.fresh_strategy position in
  let closed := base_on_position_closed opened position 25 in
  get_position_size opened "AAPL" = 10%float /\
  get_position_size closed "AAPL" = 0%float /\
  is_flat closed "AAPL" = true /\
  (forall other, other <> "AAPL" ->
     get_position_size opened other = get_position_size Demo.fresh_strategy other /\
     get_position_size closed other = get_position_size Demo.fresh_strategy other) /\
  (Py.get "AAPL" (strat_positions Demo.fresh_strategy) = None ->
   base_on_position_closed Demo.fresh_strategy position 25 = Demo.fresh_strategy).
Proof.
  apply (position_book_round_trip unit Demo.fresh_strategy
           (mkPosition "AAPL" 10 100 1 100 0.0 None) 25).
  simpl. constructor.
Defined.

(** [is_long], [is_short] and [is_flat] never hold together: exactly one of
    them holds when the tracked quantity is a number, none when it is NaN,
    and a symbol that is not tracked is flat. *)
Theorem position_sign_exclusive (U : Type) (s : BaseStrategy U)
    (symbol : string) :
  let q := get_position_size s symbol in
  (Metrics.isnan q = false ->
   (is_long s symbol = true /\ is_short s symbol = false
    /\ is_flat s symbol = false) \/
   (is_long s symbol = false /\ is_short s symbol = true
    /\ is_flat s symbol = false) \/
   (is_long s symbol = false /\ is_short s symbol = false
    /\ is_flat s symbol = true)) /\
  (Metrics.isnan q = true ->
   is_long s symbol = false /\ is_short s symbol = false
   /\ is_flat s symbol = false) /\
  (Py.get symbol (strat_positions s) = None ->
   is_long s symbol = false /\ is_short s symbol = false
   /\ is_flat s symbol = true).
Proof.
  cbv zeta. unfold is_long, is_short, is_flat.
  split; [apply sign_cases | split; [apply nan_sign | ]].
  intros Habsent. unfold get_position_size. rewrite Habsent. repeat split.
Qed.

Lemma execute_fill_buy_position (p : Portfolio) (fill : FillEvent) :
  fe_direction fill = BUY ->
  get_position (execute_fill p fill) (fe_symbol fill)
  = (get_position p (fe_symbol fill) + fe_quantity fill)%float.
Proof.
  intros Hbuy. unfold execute_fill. rewrite Hbuy.
  pose proof (defaultdict_getitem_value (fe_symbol fill) p) as Hold.
  destruct (Py.defaultdict_getitem (fe_symbol fill) (positions p)) as [old ps].
  cbn [fst] in Hold. subst old. apply get_position_set.
Qed.

(** Two Buy fills of one symbol in a row: the ledger adds the second
    quantity to the first, while a strategy with the inherited
    [on_position_opened] tracks the second fill alone. *)
Theorem second_buy_replaces_tracked_position (U : Type)
    (impl : StrategyImpl U) (w : World U) (first second : FillEvent) :
  (forall s position,
      on_position_opened s position = base_on_position_opened s position) ->
  fe_direction first = BUY ->
  fe_direction second = BUY ->
  fe_symbol second = fe_symbol first ->
  let w' := handle_fill_event second (handle_fill_event first w) in
  get_position (portfolio w') (fe_symbol first)
    = (get_position (portfolio w) (fe_symbol first)
       + fe_quantity first + fe_quantity second)%float /\
  get_position_size (strategy w') (fe_symbol first) = fe_quantity second.
Proof.
  intros Hbase H1 H2 Hsym. cbv zeta.
  pose proof (handle_fill_event_effect U impl first w) as A1.
  pose proof (handle_fill_event_effect U impl second (handle_fill_event first w))
    as A2.
  destruct A1 as [Hp1 Hs1], A2 as [Hp2 Hs2].
  rewrite Hp2, Hp1. split.
  - rewrite <- Hsym at 1.
    rewrite (execute_fill_buy_position _ _ H2), Hsym.
    now rewrite (execute_fill_buy_position _ _ H1).
  - rewrite (Hs2 H2), Hbase. unfold get_position_size, base_on_position_opened.
    cbn [strat_positions with_positions opened_position pos_symbol].
    rewrite Hsym, get_set_same. reflexivity.
Qed.

Lemma second_buy_replaces_tracked_position_witness :
  let w := @BacktestEngine_init unit default_config Demo.fresh_strategy in
  let first := mkFillEvent 1 "AAPL" 10 BUY 100 1 0 in
  let second := mkFillEvent 2 "AAPL" 5 BUY 101 1 0 in
  let w' := handle_fill_event (impl := Demo.buy_at_close) second
              (handle_fill_event (impl := Demo.buy_at_close) first w) in
  get_position (portfolio w') "AAPL"
    = (get_position (portfolio w) "AAPL" + 10 + 5)%float /\
  get_position_size (strategy w') "AAPL" = 5%float.
Proof.
  apply (second_buy_replaces_tracked_position unit Demo.buy_at_close
           (BacktestEngine_init default_config Demo.fresh_strategy)
           (mkFillEvent 1 "AAPL" 10 BUY 100 1 0)
           (mkFillEvent 2 "AAPL" 5 BUY 101 1 0));
    reflexivity.
Defined.

Lemma reprice_key (current_prices : Py.dict float) (entry : string * Position) :
  fst (reprice current_prices entry) = fst entry.
Proof.
  destruct entry as [symbol position]. cbn.
  destruct (Py.get symbol current_prices); reflexivity.
Qed.

Lemma get_repriced (current_prices : Py.dict float) (symbol : string)
    (d : Py.dict Position) :
  Py.get symbol (map (reprice current_prices) d)
  = option_map (fun position => snd (reprice current_prices (symbol, position)))
               (Py.get symbol d).
Proof.
  induction d as [ | [k position] d IH]; [reflexivity | ].
  cbn [map]. pose proof (reprice_key current_prices (k, position)) as Hk.
  destruct (reprice current_prices (k, position)) as [k' position'] eqn:E.
  cbn [fst] in Hk. subst k'. cbn [Py.get].
  destruct (String.eqb symbol k) eqn:Ek.
  - apply String.eqb_eq in Ek. subst k. cbn [option_map]. now rewrite E.
  - exact IH.
Qed.

(** [update_positions] marks every tracked position that has a price to
    that price, with the unrealized profit
    [(price - entry_price) * quantity]; it leaves a position without a
    price as it is, and it changes neither which symbols are tracked, nor
    their order, nor any quantity or entry price. *)
Theorem update_positions_marks_to_market (U : Type) (s : BaseStrategy U)
    (current_prices : Py.dict float) :
  let s' := update_positions s current_prices in
  Py.keys (strat_positions s') = Py.keys (strat_positions s) /\
  (forall symbol, get_position_size s' symbol = get_position_size s symbol) /\
  (forall symbol position,
      Py.get symbol (strat_positions s) = Some position ->
      match Py.get symbol current_prices with
      | Some price =>
          exists position',
            Py.get symbol (strat_positions s') = Some position' /\
            pos_current_price position' = price /\
            pos_unrealized_pnl position'
              = ((price - pos_entry_price position) * pos_quantity position)%float /\
            pos_entry_price position' = pos_entry_price position /\
            pos_quantity position' = pos_quantity position
      | None => Py.get symbol (strat_positions s') = Some position
      end).
Proof.
  cbv zeta. unfold update_positions. cbn [strat_positions with_positions].
  split; [ | split].
  - unfold Py.keys. rewrite map_map. apply map_ext. apply reprice_key.
  - intros symbol. unfold get_position_size.
    cbn [strat_positions with_positions]. rewrite get_repriced.
    destruct (Py.get symbol (strat_positions s)) as [position | ];
      [ | reflexivity].
    cbn. destruct (Py.get symbol current_prices); reflexivity.
  - intros symbol position Htracked. rewrite get_repriced, Htracked. cbn.
    destruct (Py.get symbol current_prices) as [price | ]; [ | reflexivity].
    eexists. split; [reflexivity | ]. cbn. auto.
Qed.

(** After [set_parameters], [get_parameter] returns the new value of every
    key of the update and the old value, or the default, of every other
    key. *)
Theorem get_parameter_after_set (V : Type) (parameters new : Py.dict V)
    (key : string) (default : option V) :
  NoDup (Py.keys new) ->
  get_parameter (set_parameters parameters new) key default
  = match Py.get key new with
    | Some value => Some value
    | None => get_parameter parameters key default
    end.
Proof.
  unfold get_parameter, set_parameters, dict_update.
  revert parameters.
  induction new as [ | [k v] new IH]; intros parameters Hnew;
    [reflexivity | ].
  cbn [fold_left fst snd Py.keys map] in *.
  inversion Hnew as [ | ? ? Hk Hnew']; subst.
  rewrite (IH _ Hnew'). cbn [Py.get].
  destruct (String.eqb key k) eqn:E.
  - apply String.eqb_eq in E. subst k.
    rewrite (not_in_get_none _ _ _ Hk), get_set_same. reflexivity.
  - apply String.eqb_neq in E.
    rewrite get_set_other by (now apply not_eq_sym). reflexivity.
Qed.

Lemma get_parameter_after_set_witness :
  get_parameter
    (set_parameters [("rsi_lower", 30%Z); ("rsi_upper", 70%Z)]
                    [("rsi_upper", 80%Z); ("momentum_period", 5%Z)])
    "rsi_upper" None
  = match Py.get "rsi_upper" [("rsi_upper", 80%Z); ("momentum_period", 5%Z)] with
    | Some value => Some value
    | None =>
        get_parameter [("rsi_lower", 30%Z); ("rsi_upper", 70%Z)] "rsi_upper" None
    end.
Proof.
  apply (get_parameter_after_set Z
           [("rsi_lower", 30%Z); ("rsi_upper", 70%Z)]
           [("rsi_upper", 80%Z); ("momentum_period", 5%Z)] "rsi_upper" None).
  simpl. repeat constructor; simpl; intuition discriminate.
Defined.

(** ** What the configuration check lets through *)

(** [validate] does not look at [min_commission], [max_leverage] or
    [position_sizing_method], and its tests for a non-positive capital and
    for negative rates let NaN through: a configuration whose initial
    capital, commission, slippage and stop loss are NaN is valid whenever
    its two range-checked fractions are in range. A NaN in one of those
    two fractions is rejected. *)
Theorem validate_gaps (b : BacktestConfig) (r : RiskConfig) :
  (forall min_commission max_leverage method,
      validate
        (mkConfig
           (mkBacktestConfig (bc_initial_capital b) (bc_commission b)
                             (bc_slippage b) min_commission)
           (mkRiskConfig (rc_max_position_size r) (rc_stop_loss_pct r)
                         (rc_max_drawdown r) max_leverage method))
      = validate (mkConfig b r)) /\
  validate
    (mkConfig (mkBacktestConfig nan nan nan (bc_min_commission b))
              (mkRiskConfig (rc_max_position_size r) nan (rc_max_drawdown r)
                            (rc_max_leverage r) (rc_position_sizing_method r)))
  = ((0 <? rc_max_position_size r)%float
     && (rc_max_position_size r <=? 1)%float)
    && ((0 <? rc_max_drawdown r)%float && (rc_max_drawdown r <=? 1)%float) /\
  (Metrics.isnan (rc_max_position_size r) = true ->
   validate (mkConfig b r) = false) /\
  (Metrics.isnan (rc_max_drawdown r) = true ->
   validate (mkConfig b r) = false).
Proof.
  split; [ | split; [ | split]].
  - intros min_commission max_leverage method. now rewrite !validate_spec.
  - rewrite validate_spec. cbn [backtest risk bc_initial_capital bc_commission
      bc_slippage rc_max_position_size rc_stop_loss_pct rc_max_drawdown].
    change (nan <=? 0)%float with false. change (nan <? 0)%float with false.
    cbn [negb andb]. now rewrite andb_true_r.
  - intros Hnan. rewrite validate_spec. cbn [risk].
    destruct (nan_sign _ Hnan) as (Hgt & _). unfold Py.gtb in Hgt.
    rewrite Hgt. cbn [andb]. now rewrite !andb_false_r.
  - intros Hnan. rewrite validate_spec. cbn [risk].
    destruct (nan_sign _ Hnan) as (Hgt & _). unfold Py.gtb in Hgt.
    rewrite Hgt. cbn [andb]. now rewrite !andb_false_r.
Qed.

(** ** Metrics on any history *)

(** [max_drawdown] is never below zero, whatever the history holds (zeros,
    infinities and NaN included). On a history of fewer than two snapshots
    the total return, the annualized return and the maximum drawdown are
    [0.0] and the Calmar ratio is [0.0]: no division and no power is
    taken. *)
Theorem max_drawdown_not_negative (pow : float -> float -> float)
    (m : Metrics.PerformanceMetrics) :
  (Metrics.max_drawdown m <? 0)%float = false /\
  (List.length (Metrics.portfolio_history m) < 2 ->
   Metrics.total_return m = 0%float /\
   Metrics.annualized_return pow m = 0%float /\
   Metrics.max_drawdown m = 0%float /\
   Metrics.calmar_ratio pow m = Some 0%float).
Proof.
  split.
  - unfold Metrics.max_drawdown.
    destruct (Metrics.portfolio_history m) as [ | x [ | y l]];
      try reflexivity.
    apply abs_not_negative.
  - unfold Metrics.calmar_ratio, Metrics.total_return,
      Metrics.annualized_return, Metrics.max_drawdown.
    destruct (Metrics.portfolio_history m) as [ | [d v] [ | y l]];
      cbn [List.length];
      try lia; intros _; repeat split; reflexivity.
Qed.

(** ** The momentum strategy's signal evaluation *)

Lemma py_min_capped (a b : float) : Py.gtb (Momentum.py_min a b) b = false.
Proof.
  unfold Momentum.py_min, Py.gtb.
  destruct (b <? a)%float eqn:E; [apply ltb_irrefl | exact E].
Qed.

(** The position size [_calculate_position_size] returns is never above
    the [max_position_size] parameter, whatever the volatility and the
    confidence. *)
Theorem position_size_capped (params : Momentum.Parameters)
    (volatility : option float) (confidence : float) :
  Py.gtb (Momentum.calculate_position_size params volatility confidence)
         (Momentum.max_position_size params) = false.
Proof.
  unfold Momentum.calculate_position_size. apply py_min_capped.
Qed.

(** When [_evaluate_signal_conditions] returns a signal, the moving
    averages have crossed: a Buy signal comes with the short average above
    the long one after being at or below it, a Sell signal with the short
    average below the long one after being at or above it, and never
    anything else. At least two of the three confirmations hold, the
    strength is not below [min_confidence], the price is the current price
    and the position size is not above [max_position_size]. *)
Theorem evaluate_signal_conditions_sound (mean : list float -> float)
    (params : Momentum.Parameters)
    (current_price short_ma long_ma prev_short_ma prev_long_ma rsi volume_ratio
       momentum : float) (volatility : option float)
    (e : Momentum.Evaluation) :
  Momentum.evaluate_signal_conditions mean params current_price short_ma
    long_ma prev_short_ma prev_long_ma rsi volume_ratio momentum volatility
  = Some e ->
  ((Momentum.ev_signal_type e = SIG_BUY /\
    (prev_short_ma <=? prev_long_ma)%float = true /\
    (long_ma <? short_ma)%float = true /\
    (short_ma <? long_ma)%float = false) \/
   (Momentum.ev_signal_type e = SIG_SELL /\
    (prev_long_ma <=? prev_short_ma)%float = true /\
    (short_ma <? long_ma)%float = true /\
    (long_ma <? short_ma)%float = false)) /\
  2 <= Momentum.ev_confirmations_count e /\
  (Momentum.ev_strength e <? Momentum.min_confidence params)%float = false /\
  Momentum.ev_price e = current_price /\
  Py.gtb (Momentum.ev_position_size e) (Momentum.max_position_size params)
    = false.
Proof.
  unfold Momentum.evaluate_signal_conditions, Py.gtb, Py.geb.
  destruct ((prev_short_ma <=? prev_long_ma)%float && (long_ma <? short_ma)%float)
    eqn:Hbull;
    destruct ((prev_long_ma <=? prev_short_ma)%float && (short_ma <? long_ma)%float)
      eqn:Hbear; cbn [orb negb]; try discriminate;
    match goal with
    | |- (if (?count <? 2)%nat then _ else _) = _ -> _ =>
        destruct (count <? 2)%nat eqn:Hcount; [discriminate | ]
    end;
    match goal with
    | |- (if (?conf <? ?least)%float then _ else _) = _ -> _ =>
        destruct (conf <? least)%float eqn:Hconf; [discriminate | ]
    end;
    intros [= <-];
    cbn [Momentum.ev_signal_type Momentum.ev_confirmations_count
         Momentum.ev_strength Momentum.ev_price Momentum.ev_position_size];
    apply Nat.ltb_ge in Hcount;
    (split; [ | split; [exact Hcount | split; [exact Hconf | split;
       [reflexivity
       | unfold Momentum.calculate_position_size; apply py_min_capped]]]]).
  - apply andb_true_iff in Hbull as [Hprev Hnow]. left.
    repeat split; try assumption. now apply ltb_asym.
  - apply andb_true_iff in Hbull as [Hprev Hnow]. left.
    repeat split; try assumption. now apply ltb_asym.
  - apply andb_true_iff in Hbear as [Hprev Hnow]. right.
    repeat split; try assumption. now apply ltb_asym.
Qed.

Lemma evaluate_signal_conditions_sound_witness :
  let e := Momentum.mkEvaluation SIG_BUY 0.75 100 true true true 3
             (0.05 * 0.75)%float true in
  ((Momentum.ev_signal_type e = SIG_BUY /\
    (10 <=? 11)%float = true /\ (11 <? 12)%float = true /\
    (12 <? 11)%float = false) \/
   (Momentum.ev_signal_type e = SIG_SELL /\
    (11 <=? 10)%float = true /\ (12 <? 11)%float = true /\
    (11 <? 12)%float = false)) /\
  2 <= Momentum.ev_confirmations_count e /\
  (Momentum.ev_strength e <? Momentum.min_confidence Momentum.default_parameters)%float
    = false /\
  Momentum.ev_price e = 100%float /\
  Py.gtb (Momentum.ev_position_size e)
         (Momentum.max_position_size Momentum.default_parameters) = false.
Proof.
  apply (evaluate_signal_conditions_sound Momentum.mean_in_order
           Momentum.default_parameters 100 12 11 10 11 50 1.5 0.05 None).
  vm_compute. reflexivity.
Defined.



(** ** The router's price fallback and the strategy's valuation *)

(** A signal that carries no price, or the price [0.0], is sized as if its
    price were 100: the order is the one the same signal priced at 100
    gets. The order does not depend on the signal's strength or
    metadata. *)
Theorem signal_without_price_sized_at_100 (c : Config) (p : Portfolio)
    (timestamp : Z) (symbol : string) (signal_type : Z)
    (strength strength' : float) (metadata metadata' : option (Py.dict string)) :
  let signal price strength metadata :=
    mkSignalEvent timestamp symbol signal_type strength price metadata in
  signal_to_order c p (signal None strength metadata)
    = signal_to_order c p (signal (Some 100%float) strength' metadata') /\
  signal_to_order c p (signal (Some 0%float) strength metadata)
    = signal_to_order c p (signal (Some 100%float) strength' metadata') /\
  signal_to_order c p (signal (Some (-0)%float) strength metadata)
    = signal_to_order c p (signal (Some 100%float) strength' metadata').
Proof. cbv zeta. repeat split; reflexivity. Qed.

Lemma fold_value_repriced (current_prices prices : Py.dict float)
    (d : Py.dict Position) (acc : float) :
  fold_left (fun total_value (entry : string * Position) =>
               match Py.get (fst entry) prices with
               | Some price =>
                   (total_value + pos_quantity (snd entry) * price)%float
               | None => total_value
               end)
            (map (reprice current_prices) d) acc
  = fold_left (fun total_value (entry : string * Position) =>
                 match Py.get (fst entry) prices with
                 | Some price =>
                     (total_value + pos_quantity (snd entry) * price)%float
                 | None => total_value
                 end)
              d acc.
Proof.
  revert acc. induction d as [ | [k position] d IH]; intros acc;
    [reflexivity | ].
  cbn [map fold_left]. rewrite IH. f_equal.
  unfold reprice. destruct (Py.get k current_prices); reflexivity.
Qed.

(** The value the strategy reports for its tracked positions does not
    change when the positions are marked to market, and is [0.0] when
    nothing is tracked, as after [reset], or when no tracked symbol has a
    price. *)
Theorem get_portfolio_value_stable (U : Type) (s : BaseStrategy U)
    (current_prices prices : Py.dict float) :
  get_portfolio_value (update_positions s current_prices) prices
    = get_portfolio_value s prices /\
  get_portfolio_value (reset s) prices = 0%float /\
  get_portfolio_value s [] = 0%float.
Proof.
  unfold get_portfolio_value, update_positions.
  cbn [strat_positions with_positions reset]. split; [ | split].
  - apply fold_value_repriced.
  - reflexivity.
  - generalize 0.0%float. induction (strat_positions s) as [ | e d IH];
      intros acc; [reflexivity | apply IH].
Qed.

(** ** Orders the ledger will and will not take *)

Lemma positive_above_zero (held q : float) :
  (held =? 0)%float = true -> (0 <? q)%float = true ->
  Py.geb held q = false.
Proof.
  intros Hheld Hq. destruct (eqb_zero_inv held Hheld) as [s Hs].
  unfold Py.geb. rewrite leb_spec, Hs.
  rewrite ltb_spec, Prim2SF_zero in Hq.
  destruct (Prim2SF q) as [sq | sq | | sq mq eq]; cbn in *; try discriminate;
    destruct sq; try discriminate; reflexivity.
Qed.

Lemma positive_leb_refl (x : float) :
  (0 <? x)%float = true -> (x <=? x)%float = true.
Proof.
  intros Hx. rewrite leb_spec. unfold SFleb. rewrite SFcompare_refl;
    [reflexivity | ].
  rewrite ltb_spec, Prim2SF_zero in Hx. intros Hnan. rewrite Hnan in Hx.
  discriminate.
Qed.

(** What becomes of the sell order the router writes for a Sell signal.
    From a flat position the order is for [target_quantity]; when that
    quantity is positive [can_afford] refuses it at every price, so the
    short is never opened. From a long position the order is for the whole
    position and [can_afford] accepts it at every price. *)
Theorem sell_orders_and_the_ledger (c : Config) (p : Portfolio)
    (event : SignalEvent) :
  se_signal_type event = (-1)%Z ->
  let position := get_position p (se_symbol event) in
  let target_quantity :=
    (portfolio_value p * rc_max_position_size (risk c)
     / Py.or_default (se_price event) 100.0)%float in
  let order quantity :=
    mkOrderEvent (se_timestamp event) (se_symbol event) MARKET quantity SELL in
  ((position =? 0)%float = true -> (0 <? target_quantity)%float = true ->
   signal_to_order c p event = Some (order target_quantity) /\
   forall price, fst (can_afford p (order target_quantity) price) = false) /\
  ((0 <? position)%float = true ->
   signal_to_order c p event = Some (order position) /\
   forall price, fst (can_afford p (order position) price) = true).
Proof.
  intros Hsell. cbv zeta. split.
  - intros Hflat Htarget. split.
    + unfold signal_to_order. rewrite Hsell. cbn [Z.eqb].
      rewrite (eqb_zero_geb _ Hflat), Hflat. reflexivity.
    + intros price. unfold can_afford. cbn [oe_direction oe_symbol oe_quantity].
      pose proof (defaultdict_getitem_value (se_symbol event) p) as Hheld.
      destruct (Py.defaultdict_getitem (se_symbol event) (positions p))
        as [held ps].
      cbn [fst] in *. subst held. now apply positive_above_zero.
  - intros Hlong. split.
    + unfold signal_to_order. rewrite Hsell. cbn [Z.eqb]. unfold Py.geb.
      rewrite (ltb_leb _ _ Hlong), (gt_zero_not_eqb _ Hlong). reflexivity.
    + intros price. unfold can_afford. cbn [oe_direction oe_symbol oe_quantity].
      pose proof (defaultdict_getitem_value (se_symbol event) p) as Hheld.
      destruct (Py.defaultdict_getitem (se_symbol event) (positions p))
        as [held ps].
      cbn [fst] in *. subst held. unfold Py.geb.
      now apply positive_leb_refl.
Qed.

Lemma sell_orders_and_the_ledger_witness :
  let c := default_config in
  let p := Portfolio_init 100000 0.001 in
  let event := mkSignalEvent 1 "AAPL" (-1) 1.0 (Some 100%float) None in
  let position := get_position p (se_symbol event) in
  let target_quantity :=
    (portfolio_value p * rc_max_position_size (risk c)
     / Py.or_default (se_price event) 100.0)%float in
  let order quantity :=
    mkOrderEvent (se_timestamp event) (se_symbol event) MARKET quantity SELL in
  ((position =? 0)%float = true -> (0 <? target_quantity)%float = true ->
   signal_to_order c p event = Some (order target_quantity) /\
   forall price, fst (can_afford p (order target_quantity) price) = false) /\
  ((0 <? position)%float = true ->
   signal_to_order c p event = Some (order position) /\
   forall price, fst (can_afford p (order position) price) = true).
Proof.
  apply (sell_orders_and_the_ledger default_config
           (Portfolio_init 100000 0.001)
           (mkSignalEvent 1 "AAPL" (-1) 1.0 (Some 100%float) None)).
  reflexivity.
Defined.

(** Every fill is charged a commission that is not below [1.0], whatever
    the commission rate of the handler, zero and negative rates
    included. *)
Theorem commission_not_below_one (h : ExecutionHandler) (order : OrderEvent)
    (market_data : MarketEvent) (fill : FillEvent) :
  execute_order h order market_data = Some fill ->
  (fe_commission fill <? 1)%float = false.
Proof.
  intros Hfill. rewrite (execute_order_commission _ _ _ _ Hfill).
  unfold Py.max.
  match goal with
  | |- context [if (?a <? ?b)%float then _ else _] =>
      destruct (a <? b)%float eqn:E
  end.
  - apply ltb_irrefl.
  - exact E.
Qed.

Lemma commission_not_below_one_witness :
  (fe_commission
     (mkFillEvent 1 "AAPL" 10 BUY 100.05 1.0005 0.0005) <? 1)%float = false.
Proof.
  apply (commission_not_below_one (mkExecutionHandler 0.001 0.0005)
           (mkOrderEvent 1 "AAPL" MARKET 10 BUY) Demo.aapl_event).
  vm_compute. reflexivity.
Defined.
